(** * The dashboard's table preparation (src/app.py), embedded in Rocq

    The program keeps two pandas tables (taxi trips, a diabetes survey) and
    prepares them for four charts.  Tables are objects on a heap: the
    functions receive references, write columns into the object they are
    given, and build new objects with [df[mask]] and [.copy()].  The
    embedding keeps that: a store of table objects, a state-and-exception
    monad over it, and one definition per source function.  The Streamlit
    decorators only cache calls ([experimental_singleton] hands every
    caller the one loaded table object, [experimental_memo] skips a call
    whose arguments it has seen); the definitions are the function bodies. *)

From Stdlib Require Import ZArith QArith Qround Lqa String List Permutation Sorted.
From stdpp Require Import gmap strings list fin_maps.

Local Open Scope string_scope.
Local Open Scope list_scope.
Local Open Scope Z_scope.

(** ** Cell values *)

(** A float64 cell.  Every finite float64 is a rational, and comparing two
    of them is comparing the rationals; the three special values compare
    as IEEE 754 says. *)
Inductive float : Type :=
  | Finite (q : Q)
  | PosInf
  | NegInf
  | NaN.

(** [x <= y] on float64: false as soon as a NaN is involved. *)
Definition float_le (x y : float) : bool :=
  match x, y with
  | NaN, _ | _, NaN => false
  | NegInf, _ => true
  | _, PosInf => true
  | Finite a, Finite b => Qle_bool a b
  | PosInf, _ => false
  | _, NegInf => false
  end.

(** A Python int compared with a float64 column is converted to float64
    first; the conversion is exact below 2^53, which covers every value
    the widgets can produce. *)
Definition of_int (z : Z) : float := Finite (inject_Z z).

(** Cells of the columns that are addressed by name only. *)
Inductive value : Type :=
  | VInt (z : Z)
  | VFloat (x : float)
  | VBool (b : bool)
  | VStr (s : string).

(** ** Exceptions and outcomes *)

Inductive pykey : Type :=
  | KInt (z : Z)
  | KStr (s : string)
  | KFloat (x : float).

Inductive exn : Type :=
  | KeyError (k : pykey)
  | TypeError
  | ValueError
  | OverflowError
  | NoSuchObject (l : positive).

Inductive outcome (A : Type) : Type :=
  | Ok (a : A)
  | Raise (e : exn).
Arguments Ok {A} a.
Arguments Raise {A} e.

(** [Series.apply(f)]: [f] on every cell in order; the first exception
    ends the pass. *)
Fixpoint Series_apply {A B : Type} (f : A -> outcome B) (s : list A) : outcome (list B) :=
  match s with
  | [] => Ok []
  | x :: s' =>
      match f x with
      | Raise e => Raise e
      | Ok y =>
          match Series_apply f s' with
          | Raise e => Raise e
          | Ok ys => Ok (y :: ys)
          end
      end
  end.

(** [df[mask]] keeps the rows whose mask cell is [True]. *)
Fixpoint select {R : Type} (rows : list R) (mask : list bool) : list R :=
  match rows, mask with
  | r :: rows', b :: mask' =>
      if b then r :: select rows' mask' else select rows' mask'
  | _, _ => []
  end.

(** ** The store of table objects *)

Definition loc := positive.

Section Store.
Context {R : Type}.

(** A computation over the store: the store it leaves, and either a
    result or the exception that ended it. *)
Definition M (A : Type) : Type :=
  gmap loc (list R) -> gmap loc (list R) * outcome A.

Definition ret {A : Type} (a : A) : M A := fun σ => (σ, Ok a).

Definition raise {A : Type} (e : exn) : M A := fun σ => (σ, Raise e).

Definition bind {A B : Type} (m : M A) (k : A -> M B) : M B :=
  fun σ =>
    match m σ with
    | (σ', Ok a) => k a σ'
    | (σ', Raise e) => (σ', Raise e)
    end.

Definition lift {A : Type} (o : outcome A) : M A := fun σ => (σ, o).

(** The rows of the table object at [l]. *)
Definition rows_of (l : loc) : M (list R) :=
  fun σ =>
    match σ !! l with
    | Some rows => (σ, Ok rows)
    | None => (σ, Raise (NoSuchObject l))
    end.

(** Overwrite the rows of the object at [l], in place. *)
Definition set_rows (l : loc) (rows : list R) : M unit :=
  fun σ =>
    match σ !! l with
    | Some _ => (<[l := rows]> σ, Ok tt)
    | None => (σ, Raise (NoSuchObject l))
    end.

(** A new table object. *)
Definition new_frame (rows : list R) : M loc :=
  fun σ => let l := fresh (dom σ) in (<[l := rows]> σ, Ok l).

(** [df[c]] for a column every row has: the cells in row order. *)
Definition column {A : Type} (c : R -> A) (df : loc) : M (list A) :=
  bind (rows_of df) (fun rows => ret (map c rows)).

(** [df[mask]]: a new object with the selected rows. *)
Definition getitem_mask (df : loc) (mask : list bool) : M loc :=
  bind (rows_of df) (fun rows => new_frame (select rows mask)).

(** [df.copy()]. *)
Definition copy (df : loc) : M loc :=
  bind (rows_of df) new_frame.
End Store.

Arguments M R A : clear implicits.

Declare Scope py_scope.
Delimit Scope py_scope with py.
Notation "x <- m ;; k" := (bind m (fun x => k))
  (at level 100, m at next level, right associativity) : py_scope.
Notation "m ;;; k" := (bind m (fun _ => k))
  (at level 100, right associativity) : py_scope.
Local Open Scope py_scope.

(** ** Taxi trips *)

Record TripRecord : Type := {
  Pickup_Centroid_Latitude : float;
  Pickup_Centroid_Longitude : float;
  Trip_Miles : float
}.

(** [Series.between(left, right)], with pandas' default [inclusive="both"]:
    [(s >= left) & (s <= right)]. *)
Definition between (s : list float) (left right : Z) : list bool :=
  map (fun x => float_le (of_int left) x && float_le x (of_int right)) s.

(** [filter_by_trip_distance(df, length_of_trip)]:
    [df[df["Trip Miles"].between(length_of_trip - 1, length_of_trip)].copy()] *)
Definition filter_by_trip_distance (df : loc) (length_of_trip : Z)
  : M TripRecord loc :=
  miles <- column Trip_Miles df ;;
  picked <- getitem_mask df (between miles (length_of_trip - 1) length_of_trip) ;;
  copy picked.

(** ** The diabetes survey *)

(** One respondent.  The four columns the program reads from the survey
    file are typed as the survey documents them: the indicator and the two
    codes are integers (a code stored as a whole float hashes and compares
    like the integer), the body-mass index is a float.  Every other
    column, among them the ones the program adds, is kept by name in
    [cols]. *)
Record SurveyRecord : Type := {
  Diabetes_binary : Z;
  Income : Z;
  GenHlth : Z;
  BMI : float;
  cols : gmap string value
}.

Definition set_col (c : string) (v : value) (r : SurveyRecord) : SurveyRecord :=
  {| Diabetes_binary := Diabetes_binary r;
     Income := Income r;
     GenHlth := GenHlth r;
     BMI := BMI r;
     cols := <[c := v]> (cols r) |}.

(** [df[c] = s]: written into the object [df] itself; the column is added,
    or replaced when a column of that name exists.  pandas refuses a
    series of another length. *)
Definition setitem (df : loc) (c : string) (s : list value) : M SurveyRecord unit :=
  rows <- rows_of df ;;
  if (length s =? length rows)%nat
  then set_rows df (zip_with (set_col c) s rows)
  else raise ValueError.

Definition cell (c : string) (r : SurveyRecord) : outcome value :=
  match cols r !! c with
  | Some v => Ok v
  | None => Raise (KeyError (KStr c))
  end.

(** [df[c]] for a column held by name. *)
Definition getitem (df : loc) (c : string) : M SurveyRecord (list value) :=
  rows <- rows_of df ;;
  lift (Series_apply (cell c) rows).

(** [.astype(bool)] on an integer column: nonzero is [True]. *)
Definition astype_bool (s : list Z) : list bool :=
  map (fun x => negb (x =? 0)) s.

(** A series used as a mask, or under [~], has to hold booleans. *)
Definition as_bool (v : value) : outcome bool :=
  match v with
  | VBool b => Ok b
  | _ => Raise TypeError
  end.

Definition bool_series (s : list value) : outcome (list bool) :=
  Series_apply as_bool s.

(** [~s] *)
Definition invert (s : list bool) : list bool := map negb s.

(** Python's truth value of a cell ([if x]). *)
Definition truthy (v : value) : bool :=
  match v with
  | VBool b => b
  | VInt z => negb (z =? 0)
  | VFloat (Finite q) => negb (Qeq_bool q 0)
  | VFloat _ => true
  | VStr s => negb (String.eqb s EmptyString)
  end.

(** Python's [int(x)] on a cell that holds an integer. *)
Definition int (x : Z) : Z := x.

(** [d[k]] on a dict: [KeyError] for a key the dict does not have. *)
Definition dict_getitem (d : gmap Z string) (k : Z) : outcome string :=
  match d !! k with
  | Some v => Ok v
  | None => Raise (KeyError (KInt k))
  end.

(** *** Grouped counts *)

(** [groupby(["Income", "Has Diabetes"]).size().reset_index()]: one row per
    key that occurs, with the number of its rows; pandas sorts the keys
    (income ascending, then [False] before [True]). *)
Definition key_eqb (k k' : Z * bool) : bool :=
  (k.1 =? k'.1) && Bool.eqb k.2 k'.2.

Definition key_ltb (k k' : Z * bool) : bool :=
  (k.1 <? k'.1) || ((k.1 =? k'.1) && negb k.2 && k'.2).

Fixpoint tally (k : Z * bool) (acc : list (Z * bool * Z)) : list (Z * bool * Z) :=
  match acc with
  | [] => [(k, 1)]
  | (k', n) :: acc' =>
      if key_eqb k k' then (k', n + 1) :: acc'
      else if key_ltb k k' then (k, 1) :: (k', n) :: acc'
      else (k', n) :: tally k acc'
  end.

Definition groupby_size (keys : list (Z * bool)) : list (Z * bool * Z) :=
  fold_left (fun acc k => tally k acc) keys [].

(** A row of [diabetes_counts], under the column names line 57 gives it
    and the column line 58 adds. *)
Module Counts.
Record row : Type := {
  Income : Z;
  Has_Diabetes : bool;
  Number_of_Individuals : Z;
  Income_Bracket : string
}.
End Counts.

Definition counts_row (g : Z * bool * Z) (bracket : string) : Counts.row :=
  {| Counts.Income := g.1.1;
     Counts.Has_Diabetes := g.1.2;
     Counts.Number_of_Individuals := g.2;
     Counts.Income_Bracket := bracket |}.

(** *** diabetic_salary_prep *)

Definition income_code_to_text : gmap Z string :=
  list_to_map
    [ (1, "Less than $10,000");
      (2, "$10,000 - $15,000");
      (3, "$15,000 - $20,000");
      (4, "$20,000 - $25,000");
      (5, "$25,000 - $35,000");
      (6, "$35,000 - $50,000");
      (7, "$50,000 - $75,000");
      (8, "$75,000 or more");
      (77, "Donâ€™t know/Not sure");
      (99, "Refused") ].

(** Line 49 (and line 80, which is the same statement): the boolean column
    is written into the table it was given. *)
Definition add_has_diabetes (df : loc) : M SurveyRecord unit :=
  indicator <- column Diabetes_binary df ;;
  setitem df "Has Diabetes" (map VBool (astype_bool indicator)).

(** Lines 50-53: the partition the status string asks for, as a copy. *)
Definition diabetes_applicable (diabetes_df : loc) (diab_status : string)
  : M SurveyRecord loc :=
  if String.eqb diab_status "True" then
    has <- getitem diabetes_df "Has Diabetes" ;;
    mask <- lift (bool_series has) ;;
    picked <- getitem_mask diabetes_df mask ;;
    copy picked
  else
    has <- getitem diabetes_df "Has Diabetes" ;;
    mask <- lift (bool_series has) ;;
    picked <- getitem_mask diabetes_df (invert mask) ;;
    copy picked.

(** Lines 56-58.  The two columns handed to [groupby] are projected out of
    the copy; that projection and the grouped table are temporaries
    nothing else refers to, so they are values here rather than store
    objects. *)
Definition diabetes_counts (applicable : loc) : M SurveyRecord (list Counts.row) :=
  income <- column Income applicable ;;
  has <- getitem applicable "Has Diabetes" ;;
  flags <- lift (bool_series has) ;;
  let counts := groupby_size (zip income flags) in
  brackets <- lift (Series_apply (dict_getitem income_code_to_text)
                      (map (fun g => g.1.1) counts)) ;;
  ret (zip_with counts_row counts brackets).

Definition diabetic_salary_prep (diabetes_df : loc) (diab_status : string)
  : M SurveyRecord (list Counts.row) :=
  add_has_diabetes diabetes_df ;;;
  applicable <- diabetes_applicable diabetes_df diab_status ;;
  diabetes_counts applicable.

(** *** diabetic_bmi_prep and the BMI ceiling *)

Definition diabetic_bmi_prep (diabetes_df : loc) : M SurveyRecord loc :=
  indicator <- column Diabetes_binary diabetes_df ;;
  setitem diabetes_df "Has Diabetes Bin" (map VBool (astype_bool indicator)) ;;;
  bin <- getitem diabetes_df "Has Diabetes Bin" ;;
  status <- lift (Series_apply
                    (fun x => Ok (if truthy x then "Diabetic" else "Non-Diabetic"))
                    bin) ;;
  setitem diabetes_df "Diabetic Status" (map VStr status) ;;;
  ret diabetes_df.

(** Lines 173-174 of the page script:
    [prepared_diabetes = diabetic_bmi_prep(diabetes)] and then
    [prepared_diabetes[prepared_diabetes['BMI'] <= max_bmi]]. *)
Definition prepared_diabetes (diabetes : loc) (max_bmi : Z) : M SurveyRecord loc :=
  prepared <- diabetic_bmi_prep diabetes ;;
  bmi <- column BMI prepared ;;
  getitem_mask prepared (map (fun x => float_le x (of_int max_bmi)) bmi).

(** *** gen_health_prep *)

Definition gen_hlth_mapping : gmap Z string :=
  list_to_map
    [ (1, "Excellent");
      (2, "Very Good");
      (3, "Good");
      (4, "Fair");
      (5, "Poor");
      (7, "Don't know / Not Sure");
      (9, "Refused") ].

(** Lines 84-87, the same selection as in [diabetic_salary_prep]. *)
Definition applicable_qual_data (qualitative_data : loc) (diab_status : string)
  : M SurveyRecord loc :=
  if String.eqb diab_status "True" then
    has <- getitem qualitative_data "Has Diabetes" ;;
    mask <- lift (bool_series has) ;;
    picked <- getitem_mask qualitative_data mask ;;
    copy picked
  else
    has <- getitem qualitative_data "Has Diabetes" ;;
    mask <- lift (bool_series has) ;;
    picked <- getitem_mask qualitative_data (invert mask) ;;
    copy picked.

Definition gen_health_prep (qualitative_data : loc) (diab_status : string)
  : M SurveyRecord loc :=
  add_has_diabetes qualitative_data ;;;
  hlth <- column GenHlth qualitative_data ;;
  assessment <- lift (Series_apply
                        (fun x => dict_getitem gen_hlth_mapping (int x))
                        hlth) ;;
  setitem qualitative_data "General_Health_Assessment" (map VStr assessment) ;;;
  indicator <- column Diabetes_binary qualitative_data ;;
  readable <- lift (Series_apply
                      (fun x => Ok (if x =? 1 then "Diabetic" else "Non-Diabetic"))
                      indicator) ;;
  setitem qualitative_data "has_diabetes_human_readable" (map VStr readable) ;;;
  applicable_qual_data qualitative_data diab_status.

(** ** Reading the tables *)

(** The cell [.astype(bool)] computes for a row's indicator. *)
Definition has_diabetes (r : SurveyRecord) : bool :=
  negb (Diabetes_binary r =? 0).

(** The row line 49 leaves in the table. *)
Definition with_has_diabetes (r : SurveyRecord) : SurveyRecord :=
  set_col "Has Diabetes" (VBool (has_diabetes r)) r.

(** Whether the selection of lines 50-53 keeps a row. *)
Definition wants (diab_status : string) (r : SurveyRecord) : bool :=
  if String.eqb diab_status "True" then has_diabetes r else negb (has_diabetes r).

(** The row carries the boolean column of line 49. *)
Definition flagged (r : SurveyRecord) : Prop :=
  cols r !! "Has Diabetes" = Some (VBool (has_diabetes r)).

(** The grouping key of a row. *)
Definition group_key (r : SurveyRecord) : Z * bool := (Income r, has_diabetes r).

(** Recoding the grouped rows (line 58). *)
Definition recode (counts : list (Z * bool * Z)) : outcome (list Counts.row) :=
  match Series_apply (dict_getitem income_code_to_text)
          (map (fun g => g.1.1) counts) with
  | Ok brackets => Ok (zip_with counts_row counts brackets)
  | Raise e => Raise e
  end.

(** The sum of the counts of a grouped table. *)
Definition sum_counts (counts : list (Z * bool * Z)) : Z :=
  fold_right Z.add 0 (map snd counts).

(** The rows [gen_health_prep] leaves in the table (lines 80-82). *)
Definition with_assessment (r : SurveyRecord) : SurveyRecord :=
  set_col "General_Health_Assessment"
    (VStr (default EmptyString (gen_hlth_mapping !! GenHlth r))) r.

Definition with_readable (r : SurveyRecord) : SurveyRecord :=
  set_col "has_diabetes_human_readable"
    (VStr (if Diabetes_binary r =? 1 then "Diabetic" else "Non-Diabetic")) r.

Definition gen_health_row (r : SurveyRecord) : SurveyRecord :=
  with_readable (with_assessment (with_has_diabetes r)).

(** The rows [diabetic_bmi_prep] leaves in the table (lines 63-64). *)
Definition with_bin (r : SurveyRecord) : SurveyRecord :=
  set_col "Has Diabetes Bin" (VBool (has_diabetes r)) r.

Definition with_status (r : SurveyRecord) : SurveyRecord :=
  set_col "Diabetic Status"
    (VStr (if has_diabetes r then "Diabetic" else "Non-Diabetic")) r.

Definition bmi_row (r : SurveyRecord) : SurveyRecord :=
  with_status (with_bin r).

(** Two rows that agree on the columns of the survey file. *)
Definition same_survey_columns (r r' : SurveyRecord) : Prop :=
  Diabetes_binary r' = Diabetes_binary r
  /\ Income r' = Income r
  /\ GenHlth r' = GenHlth r
  /\ BMI r' = BMI r.

(** Two rows that differ at most in the named columns. *)
Definition differ_only_in (names : list string) (r r' : SurveyRecord) : Prop :=
  same_survey_columns r r'
  /\ forall c, ~ In c names -> cols r' !! c = cols r !! c.

(** The sum of the "Number of Individuals" column. *)
Definition total (counts : list Counts.row) : Z :=
  fold_right Z.add 0 (map Counts.Number_of_Individuals counts).

(** ** Sample tables *)

Definition sample_trips : list TripRecord :=
  [ {| Pickup_Centroid_Latitude := Finite (419 # 10);
       Pickup_Centroid_Longitude := Finite (- 877 # 10);
       Trip_Miles := Finite (19 # 2) |};
    {| Pickup_Centroid_Latitude := Finite (418 # 10);
       Pickup_Centroid_Longitude := Finite (- 876 # 10);
       Trip_Miles := Finite 10 |};
    {| Pickup_Centroid_Latitude := Finite (42 # 1);
       Pickup_Centroid_Longitude := Finite (- 877 # 10);
       Trip_Miles := Finite (21 # 2) |};
    {| Pickup_Centroid_Latitude := Finite (42 # 1);
       Pickup_Centroid_Longitude := Finite (- 879 # 10);
       Trip_Miles := NaN |} ].

Definition respondent (diabetes income genhlth bmi : Z) : SurveyRecord :=
  {| Diabetes_binary := diabetes;
     Income := income;
     GenHlth := genhlth;
     BMI := of_int bmi;
     cols := ∅ |}.

(** The three respondents of the end-to-end scenario. *)
Definition scenario_survey : list SurveyRecord :=
  [ respondent 1 3 2 31; respondent 0 3 4 24; respondent 1 3 2 40 ].

(** A diabetic respondent whose income code, 98, no label is recorded for,
    and a respondent without diabetes. *)
Definition unknown_income_survey : list SurveyRecord :=
  [ respondent 1 98 3 31; respondent 0 3 2 24 ].

(** A respondent whose general-health code, 6, no label is recorded for. *)
Definition unknown_health_survey : list SurveyRecord :=
  [ respondent 0 3 2 24; respondent 1 5 6 31 ].

(** The scenario's respondents in another order, with other body-mass
    indices. *)
Definition scenario_survey_reordered : list SurveyRecord :=
  [ respondent 0 3 4 22; respondent 1 3 2 35; respondent 1 3 2 28 ].

(** ** Loading the tables and the page script *)

(** [pd.read_csv(path)]: a new table object with the rows of the file; an
    empty numeric cell is read as [NaN]. *)
Definition read_csv {R : Type} (file : list R) : M R loc := new_frame file.

Definition isna (x : float) : bool :=
  match x with
  | NaN => true
  | _ => false
  end.

(** [df.dropna(subset=["Pickup_Centroid_Longitude",
    "Pickup_Centroid_Latitude"])]: a new table without the rows that miss
    one of the two cells. *)
Definition dropna (df : loc) : M TripRecord loc :=
  lon <- column Pickup_Centroid_Longitude df ;;
  lat <- column Pickup_Centroid_Latitude df ;;
  getitem_mask df (zip_with (fun x y => negb (isna x || isna y)) lon lat).

(** [load_data()], lines 12-16: the two tables it returns live in the store
    of their row type. *)
Definition load_data (taxi_sample : list TripRecord) (brfss2015 : list SurveyRecord)
  : M TripRecord loc * M SurveyRecord loc :=
  (raw <- read_csv taxi_sample ;; dropna raw, read_csv brfss2015).

(** Line 145: the counts, cut down to the two columns of the bar chart. *)
Definition filtered_diabetes (diabetes : loc) (diabetes_status : string)
  : M SurveyRecord (list (string * Z)) :=
  counts <- diabetic_salary_prep diabetes diabetes_status ;;
  ret (map (fun c => (Counts.Income_Bracket c, Counts.Number_of_Individuals c))
         counts).

(** The three survey sections of the page script in page order (lines 145,
    173-174 and 217), all on the one loaded table [diabetes]. *)
Definition survey_sections (diabetes : loc) (diabetes_status : string)
    (max_bmi : Z) (diabetes_status_tree : string)
  : M SurveyRecord (list (string * Z) * loc * loc) :=
  filtered <- filtered_diabetes diabetes diabetes_status ;;
  prepared <- prepared_diabetes diabetes max_bmi ;;
  applicable_gen_health <- gen_health_prep diabetes diabetes_status_tree ;;
  ret (filtered, prepared, applicable_gen_health).

(** Both pickup coordinates of a trip are there. *)
Definition located (r : TripRecord) : bool :=
  negb (isna (Pickup_Centroid_Longitude r) || isna (Pickup_Centroid_Latitude r)).

(** The window test of the trip filter on one record. *)
Definition in_window (t : Z) (r : TripRecord) : bool :=
  float_le (of_int (t - 1)) (Trip_Miles r) && float_le (Trip_Miles r) (of_int t).

(** The row the three survey sections leave in the table. *)
Definition page_row (r : SurveyRecord) : SurveyRecord :=
  gen_health_row (bmi_row (with_has_diabetes r)).

(** ** Reading the grouped counts *)

(** The position of a grouping key in pandas' sort order. *)
Definition rank (k : Z * bool) : Z := 2 * k.1 + (if k.2 then 1 else 0).

(** The grouped table lists its keys in strictly increasing order. *)
Definition ascending (counts : list (Z * bool * Z)) : Prop :=
  StronglySorted (fun g g' => rank g.1 < rank g'.1) counts.

(** The count a grouped table records for a key, 0 when it has no row. *)
Fixpoint count_for (k : Z * bool) (counts : list (Z * bool * Z)) : Z :=
  match counts with
  | [] => 0
  | (k', n) :: counts' => if key_eqb k k' then n else count_for k counts'
  end.

(** How many of the keys are [k]. *)
Definition occurrences (k : Z * bool) (keys : list (Z * bool)) : Z :=
  Z.of_nat (length (List.filter (key_eqb k) keys)).

(** The two survey columns the income aggregation reads. *)
Definition indicator_income (r : SurveyRecord) : Z * Z :=
  (Diabetes_binary r, Income r).

(** ** The survey with float64 cells *)

(** [read_csv] gives a numeric column the type float64 as soon as one of its
    cells is empty or written with a decimal point.  [SurveyRecord] above
    is the table whose indicator and codes are whole numbers; this part is
    the general case, with the same functions over cells that may be
    fractional, infinite or missing. *)

(** [x == y] on float64: a NaN equals nothing. *)
Definition float_eqb (x y : float) : bool :=
  match x, y with
  | Finite a, Finite b => Qeq_bool a b
  | PosInf, PosInf => true
  | NegInf, NegInf => true
  | _, _ => false
  end.

(** The integer part of a finite float, toward zero. *)
Definition truncate (q : Q) : Z := Z.quot (Qnum q) (Zpos (Qden q)).

(** The integer a float is equal to, when it is a whole number. *)
Definition whole (q : Q) : option Z :=
  if Z.rem (Qnum q) (Zpos (Qden q)) =? 0 then Some (truncate q) else None.

(** [d[x]] for a float [x] on a dict with integer keys: a float hashes and
    compares like the integer it is equal to, so only a whole float can be
    found; the [KeyError] carries the float. *)
Definition dict_getitem_float (d : gmap Z string) (x : float) : outcome string :=
  match x with
  | Finite q =>
      match whole q with
      | Some k =>
          match d !! k with
          | Some v => Ok v
          | None => Raise (KeyError (KFloat x))
          end
      | None => Raise (KeyError (KFloat x))
      end
  | _ => Raise (KeyError (KFloat x))
  end.

(** The order in which [groupby] lists float keys, and the keys it takes
    for one: minus infinity, the finite values in increasing order, plus
    infinity; NaN keys are one group that comes last (they are listed only
    under [dropna=False]). *)
Definition same_group (x y : float) : bool :=
  match x, y with
  | Finite a, Finite b => Qeq_bool a b
  | PosInf, PosInf => true
  | NegInf, NegInf => true
  | NaN, NaN => true
  | _, _ => false
  end.

Definition sorts_before (x y : float) : bool :=
  match x, y with
  | NegInf, NegInf => false
  | NegInf, _ => true
  | Finite a, Finite b => negb (Qle_bool b a)
  | Finite _, NegInf => false
  | Finite _, _ => true
  | PosInf, NaN => true
  | PosInf, _ => false
  | NaN, _ => false
  end.

Section Grouping.
Context {K : Type} (eqb ltb : K -> K -> bool).

(** One more row with key [k] in a sorted table of counts. *)
Fixpoint tally_by (k : K) (acc : list (K * Z)) : list (K * Z) :=
  match acc with
  | [] => [(k, 1)]
  | (k', n) :: acc' =>
      if eqb k k' then (k', n + 1) :: acc'
      else if ltb k k' then (k, 1) :: (k', n) :: acc'
      else (k', n) :: tally_by k acc'
  end.

(** The count a table records for a key, 0 when it has no row. *)
Fixpoint count_by (k : K) (counts : list (K * Z)) : Z :=
  match counts with
  | [] => 0
  | (k', n) :: counts' => if eqb k k' then n else count_by k counts'
  end.

(** The table lists its keys in strictly increasing order. *)
Definition ascending_by (counts : list (K * Z)) : Prop :=
  StronglySorted (fun g g' : K * Z => ltb g.1 g'.1 = true) counts.

(** How many of the keys are in the group of [k]. *)
Definition occurrences_by (k : K) (keys : list K) : Z :=
  Z.of_nat (length (List.filter (eqb k) keys)).

Definition sum_by (counts : list (K * Z)) : Z :=
  fold_right Z.add 0 (map snd counts).
End Grouping.

Module Raw.

Record SurveyRecord : Type := {
  Diabetes_binary : float;
  Income : float;
  GenHlth : float;
  BMI : float;
  cols : gmap string value
}.

Definition set_col (c : string) (v : value) (r : SurveyRecord) : SurveyRecord :=
  {| Diabetes_binary := Diabetes_binary r;
     Income := Income r;
     GenHlth := GenHlth r;
     BMI := BMI r;
     cols := <[c := v]> (cols r) |}.

(** [df[c] = s] *)
Definition setitem (df : loc) (c : string) (s : list value) : M SurveyRecord unit :=
  rows <- rows_of df ;;
  if (length s =? length rows)%nat
  then set_rows df (zip_with (set_col c) s rows)
  else raise ValueError.

Definition cell (c : string) (r : SurveyRecord) : outcome value :=
  match cols r !! c with
  | Some v => Ok v
  | None => Raise (KeyError (KStr c))
  end.

(** [df[c]] for a column held by name. *)
Definition getitem (df : loc) (c : string) : M SurveyRecord (list value) :=
  rows <- rows_of df ;;
  lift (Series_apply (cell c) rows).

(** [.astype(bool)] on a float64 column: every cell but zero is [True],
    a NaN too. *)
Definition astype_bool (s : list float) : list bool :=
  map (fun x => negb (float_eqb x (of_int 0))) s.

(** Python's [int(x)] on a float: the integer part; [ValueError] for NaN,
    [OverflowError] for an infinity. *)
Definition int (x : float) : outcome Z :=
  match x with
  | Finite q => Ok (truncate q)
  | NaN => Raise ValueError
  | _ => Raise OverflowError
  end.

(** *** Grouped counts *)

Definition key_eqb (k k' : float * bool) : bool :=
  same_group k.1 k'.1 && Bool.eqb k.2 k'.2.

Definition key_ltb (k k' : float * bool) : bool :=
  sorts_before k.1 k'.1 || (same_group k.1 k'.1 && negb k.2 && k'.2).

(** [groupby(["Income", "Has Diabetes"]).size().reset_index()] with pandas'
    default [dropna=True]: a row whose income is missing is in no group. *)
Definition groupby_size (keys : list (float * bool)) : list (float * bool * Z) :=
  fold_left (fun acc k => tally_by key_eqb key_ltb k acc)
    (List.filter (fun k : float * bool => negb (isna k.1)) keys) [].

Module Counts.
Record row : Type := {
  Income : float;
  Has_Diabetes : bool;
  Number_of_Individuals : Z;
  Income_Bracket : string
}.
End Counts.

Definition counts_row (g : float * bool * Z) (bracket : string) : Counts.row :=
  {| Counts.Income := g.1.1;
     Counts.Has_Diabetes := g.1.2;
     Counts.Number_of_Individuals := g.2;
     Counts.Income_Bracket := bracket |}.

(** *** diabetic_salary_prep *)

(** Lines 49 and 80. *)
Definition add_has_diabetes (df : loc) : M SurveyRecord unit :=
  indicator <- column Diabetes_binary df ;;
  setitem df "Has Diabetes" (map VBool (astype_bool indicator)).

(** Lines 50-53. *)
Definition diabetes_applicable (diabetes_df : loc) (diab_status : string)
  : M SurveyRecord loc :=
  if String.eqb diab_status "True" then
    has <- getitem diabetes_df "Has Diabetes" ;;
    mask <- lift (bool_series has) ;;
    picked <- getitem_mask diabetes_df mask ;;
    copy picked
  else
    has <- getitem diabetes_df "Has Diabetes" ;;
    mask <- lift (bool_series has) ;;
    picked <- getitem_mask diabetes_df (invert mask) ;;
    copy picked.

(** Lines 56-58. *)
Definition diabetes_counts (applicable : loc) : M SurveyRecord (list Counts.row) :=
  income <- column Income applicable ;;
  has <- getitem applicable "Has Diabetes" ;;
  flags <- lift (bool_series has) ;;
  let counts := groupby_size (zip income flags) in
  brackets <- lift (Series_apply (dict_getitem_float income_code_to_text)
                      (map (fun g => g.1.1) counts)) ;;
  ret (zip_with counts_row counts brackets).

Definition diabetic_salary_prep (diabetes_df : loc) (diab_status : string)
  : M SurveyRecord (list Counts.row) :=
  add_has_diabetes diabetes_df ;;;
  applicable <- diabetes_applicable diabetes_df diab_status ;;
  diabetes_counts applicable.

(** Line 145. *)
Definition filtered_diabetes (diabetes : loc) (diabetes_status : string)
  : M SurveyRecord (list (string * Z)) :=
  counts <- diabetic_salary_prep diabetes diabetes_status ;;
  ret (map (fun c => (Counts.Income_Bracket c, Counts.Number_of_Individuals c))
         counts).

(** *** gen_health_prep *)

(** The function line 81 applies to every general-health cell:
    [gen_hlth_mapping[int(x)]]. *)
Definition assessment (x : float) : outcome string :=
  match int x with
  | Ok k => dict_getitem gen_hlth_mapping k
  | Raise e => Raise e
  end.

(** Lines 84-87. *)
Definition applicable_qual_data (qualitative_data : loc) (diab_status : string)
  : M SurveyRecord loc :=
  if String.eqb diab_status "True" then
    has <- getitem qualitative_data "Has Diabetes" ;;
    mask <- lift (bool_series has) ;;
    picked <- getitem_mask qualitative_data mask ;;
    copy picked
  else
    has <- getitem qualitative_data "Has Diabetes" ;;
    mask <- lift (bool_series has) ;;
    picked <- getitem_mask qualitative_data (invert mask) ;;
    copy picked.

Definition gen_health_prep (qualitative_data : loc) (diab_status : string)
  : M SurveyRecord loc :=
  add_has_diabetes qualitative_data ;;;
  hlth <- column GenHlth qualitative_data ;;
  assessments <- lift (Series_apply assessment hlth) ;;
  setitem qualitative_data "General_Health_Assessment" (map VStr assessments) ;;;
  indicator <- column Diabetes_binary qualitative_data ;;
  readable <- lift (Series_apply
                      (fun x => Ok (if float_eqb x (of_int 1)
                                    then "Diabetic" else "Non-Diabetic"))
                      indicator) ;;
  setitem qualitative_data "has_diabetes_human_readable" (map VStr readable) ;;;
  applicable_qual_data qualitative_data diab_status.

(** *** Reading the tables *)

Definition has_diabetes (r : SurveyRecord) : bool :=
  negb (float_eqb (Diabetes_binary r) (of_int 0)).

Definition with_has_diabetes (r : SurveyRecord) : SurveyRecord :=
  set_col "Has Diabetes" (VBool (has_diabetes r)) r.

Definition wants (diab_status : string) (r : SurveyRecord) : bool :=
  if String.eqb diab_status "True" then has_diabetes r else negb (has_diabetes r).

Definition flagged (r : SurveyRecord) : Prop :=
  cols r !! "Has Diabetes" = Some (VBool (has_diabetes r)).

Definition group_key (r : SurveyRecord) : float * bool := (Income r, has_diabetes r).

(** Line 58 on the grouped rows. *)
Definition recode (counts : list (float * bool * Z)) : outcome (list Counts.row) :=
  match Series_apply (dict_getitem_float income_code_to_text)
          (map (fun g => g.1.1) counts) with
  | Ok brackets => Ok (zip_with counts_row counts brackets)
  | Raise e => Raise e
  end.

(** The label line 81 finds for a cell, when it finds one. *)
Definition label_of (x : float) : string :=
  match assessment x with
  | Ok label => label
  | Raise _ => EmptyString
  end.

Definition with_assessment (r : SurveyRecord) : SurveyRecord :=
  set_col "General_Health_Assessment" (VStr (label_of (GenHlth r))) r.

Definition with_readable (r : SurveyRecord) : SurveyRecord :=
  set_col "has_diabetes_human_readable"
    (VStr (if float_eqb (Diabetes_binary r) (of_int 1)
           then "Diabetic" else "Non-Diabetic")) r.

Definition gen_health_row (r : SurveyRecord) : SurveyRecord :=
  with_readable (with_assessment (with_has_diabetes r)).

Definition same_survey_columns (r r' : SurveyRecord) : Prop :=
  Diabetes_binary r' = Diabetes_binary r
  /\ Income r' = Income r
  /\ GenHlth r' = GenHlth r
  /\ BMI r' = BMI r.

Definition total (counts : list Counts.row) : Z :=
  fold_right Z.add 0 (map Counts.Number_of_Individuals counts).

(** *** diabetic_bmi_prep *)

(** Lines 62-65. *)
Definition diabetic_bmi_prep (diabetes_df : loc) : M SurveyRecord loc :=
  indicator <- column Diabetes_binary diabetes_df ;;
  setitem diabetes_df "Has Diabetes Bin" (map VBool (astype_bool indicator)) ;;;
  bin <- getitem diabetes_df "Has Diabetes Bin" ;;
  status <- lift (Series_apply
                    (fun x => Ok (if truthy x then "Diabetic" else "Non-Diabetic"))
                    bin) ;;
  setitem diabetes_df "Diabetic Status" (map VStr status) ;;;
  ret diabetes_df.

(** The rows [diabetic_bmi_prep] leaves in the table. *)
Definition with_bin (r : SurveyRecord) : SurveyRecord :=
  set_col "Has Diabetes Bin" (VBool (has_diabetes r)) r.

Definition with_status (r : SurveyRecord) : SurveyRecord :=
  set_col "Diabetic Status"
    (VStr (if has_diabetes r then "Diabetic" else "Non-Diabetic")) r.

Definition bmi_row (r : SurveyRecord) : SurveyRecord :=
  with_status (with_bin r).

(** Two rows that differ at most in the named columns. *)
Definition differ_only_in (names : list string) (r r' : SurveyRecord) : Prop :=
  same_survey_columns r r'
  /\ forall c, ~ In c names -> cols r' !! c = cols r !! c.

(** A respondent with the given cells and no other column. *)
Definition respondent (diabetes income genhlth bmi : float) : SurveyRecord :=
  {| Diabetes_binary := diabetes;
     Income := income;
     GenHlth := genhlth;
     BMI := bmi;
     cols := ∅ |}.

End Raw.

(** *** Sample tables with float64 cells *)


(** Two diabetic respondents, the first with an empty income cell. *)
Definition missing_income_survey : list Raw.SurveyRecord :=
  [ Raw.respondent (of_int 1) NaN (of_int 3) (of_int 31);
    Raw.respondent (of_int 1) (of_int 3) (of_int 2) (of_int 24) ].



(** The scenario's table, and a respondent whose indicator cell is empty. *)
Definition scenario_cells : list Raw.SurveyRecord :=
  [ Raw.respondent (of_int 1) (of_int 3) (of_int 2) (of_int 31);
    Raw.respondent (of_int 0) (of_int 3) (of_int 4) (of_int 24);
    Raw.respondent (of_int 1) (of_int 3) (of_int 2) (of_int 40);
    Raw.respondent NaN (of_int 5) (Finite (5 # 2)) (of_int 28) ].

(** A respondent without diabetes whose income, 98.0, and general health,
    6.0, have no label, and a diabetic respondent. *)
Definition unlabelled_cells_survey : list Raw.SurveyRecord :=
  [ Raw.respondent (of_int 0) (of_int 98) (of_int 6) (of_int 24);
    Raw.respondent (of_int 1) (of_int 3) (of_int 2) (of_int 31) ].

(** A general-health column 2.5, 6.0, 7.0 *)
Definition mixed_health_survey : list Raw.SurveyRecord :=
  [ Raw.respondent (of_int 0) (of_int 3) (Finite (5 # 2)) (of_int 24);
    Raw.respondent (of_int 1) (of_int 5) (of_int 6) (of_int 31);
    Raw.respondent (of_int 1) (of_int 5) (of_int 7) (of_int 31) ].

(** Diabetic respondents with the incomes 99.5, missing, 98.0 and 3.0. *)
Definition unknown_incomes_survey : list Raw.SurveyRecord :=
  [ Raw.respondent (of_int 1) (Finite (199 # 2)) (of_int 3) (of_int 31);
    Raw.respondent (of_int 1) NaN (of_int 3) (of_int 31);
    Raw.respondent (of_int 1) (of_int 98) (of_int 3) (of_int 31);
    Raw.respondent (of_int 1) (of_int 3) (of_int 2) (of_int 24) ].

(** *** Whole-number tables as float64 tables *)

(** A row with whole-number cells, as the row with float64 cells it is. *)
Definition of_survey (r : SurveyRecord) : Raw.SurveyRecord :=
  {| Raw.Diabetes_binary := of_int (Diabetes_binary r);
     Raw.Income := of_int (Income r);
     Raw.GenHlth := of_int (GenHlth r);
     Raw.BMI := BMI r;
     Raw.cols := cols r |}.

Definition of_group (g : Z * bool * Z) : float * bool * Z :=
  (of_int g.1.1, g.1.2, g.2).

Definition of_counts (c : Counts.row) : Raw.Counts.row :=
  {| Raw.Counts.Income := of_int (Counts.Income c);
     Raw.Counts.Has_Diabetes := Counts.Has_Diabetes c;
     Raw.Counts.Number_of_Individuals := Counts.Number_of_Individuals c;
     Raw.Counts.Income_Bracket := Counts.Income_Bracket c |}.

(** The key a failed lookup names, as the float it is in a float64 column. *)
Definition float_key (e : exn) : exn :=
  match e with
  | KeyError (KInt k) => KeyError (KFloat (of_int k))
  | _ => e
  end.

(** * Properties *)

(** ** Lists, series and masks *)

Lemma select_map {R : Type} (p : R -> bool) (rows : list R) :
  select rows (map p rows) = List.filter p rows.
Proof.
  induction rows as [|r rows IH]; simpl; [reflexivity|].
  rewrite IH. reflexivity.
Qed.

Lemma select_invert_map {R : Type} (p : R -> bool) (rows : list R) :
  select rows (invert (map p rows)) = List.filter (fun r => negb (p r)) rows.
Proof.
  unfold invert. rewrite map_map. apply select_map.
Qed.

Lemma zip_with_map_self {A B C : Type} (g : B -> A -> C) (f : A -> B) (l : list A) :
  zip_with g (map f l) l = map (fun x => g (f x) x) l.
Proof.
  induction l as [|x l IH]; simpl; [reflexivity|].
  rewrite IH. reflexivity.
Qed.

Lemma Series_apply_total {A B : Type} (f : A -> B) (s : list A) :
  Series_apply (fun x => Ok (f x)) s = Ok (map f s).
Proof.
  induction s as [|x s IH]; simpl; [reflexivity|].
  rewrite IH. reflexivity.
Qed.



(** A pass that returns has looked every cell up. *)
Lemma Series_apply_Ok {A B : Type} (f : A -> outcome B) (s : list A) (ys : list B) :
  Series_apply f s = Ok ys -> Forall2 (fun x y => f x = Ok y) s ys.
Proof.
  revert ys. induction s as [|x s IH]; simpl; intros ys H.
  - injection H as <-. constructor.
  - destruct (f x) as [y|e] eqn:Hx; [|discriminate].
    destruct (Series_apply f s) as [ys'|e]; [|discriminate].
    injection H as <-. constructor; [exact Hx | apply IH; reflexivity].
Qed.

(** A pass raises exactly what the lookup of one of its cells raises. *)
Lemma Series_apply_Raise {A B : Type} (f : A -> outcome B) (s : list A) (e : exn) :
  Series_apply f s = Raise e -> exists x, In x s /\ f x = Raise e.
Proof.
  induction s as [|x s IH]; simpl; intros H; [discriminate|].
  destruct (f x) as [y|e'] eqn:Hx.
  - destruct (Series_apply f s) as [ys'|e'']; [discriminate|].
    injection H as ->. destruct IH as (x' & Hin & Hx'); [reflexivity|].
    exists x'. split; [right; exact Hin | exact Hx'].
  - injection H as ->. exists x. split; [left; reflexivity | exact Hx].
Qed.

Lemma Series_apply_all_Ok {A B : Type} (f : A -> outcome B) (s : list A) :
  (forall x, In x s -> exists y, f x = Ok y) -> exists ys, Series_apply f s = Ok ys.
Proof.
  intros Hall. destruct (Series_apply f s) as [ys|e] eqn:H; [exists ys; reflexivity|].
  apply Series_apply_Raise in H as (x & Hin & Hx).
  destruct (Hall x Hin) as [y Hy]. congruence.
Qed.

Lemma bool_series_VBool (bs : list bool) : bool_series (map VBool bs) = Ok bs.
Proof.
  unfold bool_series. induction bs as [|b bs IH]; simpl; [reflexivity|].
  rewrite IH. reflexivity.
Qed.

(** ** Running the store operations *)

Section StoreFacts.
Context {R : Type}.
Implicit Types (σ : gmap loc (list R)) (rows : list R) (l df : loc).

Lemma bind_Ok {A B : Type} (m : M R A) (k : A -> M R B) σ σ' (a : A) :
  m σ = (σ', Ok a) -> bind m k σ = k a σ'.
Proof. intros H. unfold bind. rewrite H. reflexivity. Qed.

Lemma rows_of_run σ l rows :
  σ !! l = Some rows -> rows_of l σ = (σ, Ok rows).
Proof. intros H. unfold rows_of. rewrite H. reflexivity. Qed.

Lemma set_rows_run σ l rows rows' :
  σ !! l = Some rows -> set_rows l rows' σ = (<[l := rows']> σ, Ok tt).
Proof. intros H. unfold set_rows. rewrite H. reflexivity. Qed.

Lemma column_run {A : Type} (c : R -> A) σ df rows :
  σ !! df = Some rows -> column c df σ = (σ, Ok (map c rows)).
Proof.
  intros H. unfold column. rewrite (bind_Ok _ _ _ _ _ (rows_of_run _ _ _ H)).
  reflexivity.
Qed.

Lemma getitem_mask_run σ df rows (mask : list bool) :
  σ !! df = Some rows ->
  getitem_mask df mask σ
  = (<[fresh (dom σ) := select rows mask]> σ, Ok (fresh (dom σ))).
Proof.
  intros H. unfold getitem_mask.
  rewrite (bind_Ok _ _ _ _ _ (rows_of_run _ _ _ H)). reflexivity.
Qed.

Lemma copy_run σ df rows :
  σ !! df = Some rows ->
  copy df σ = (<[fresh (dom σ) := rows]> σ, Ok (fresh (dom σ))).
Proof.
  intros H. unfold copy.
  rewrite (bind_Ok _ _ _ _ _ (rows_of_run _ _ _ H)). reflexivity.
Qed.

(** A new object is none of the objects there were. *)
Lemma fresh_unbound σ : σ !! fresh (dom σ) = None.
Proof. apply not_elem_of_dom, is_fresh. Qed.

Lemma fresh_other σ l : is_Some (σ !! l) -> l <> fresh (dom σ).
Proof.
  intros [rows H] ->. rewrite fresh_unbound in H. discriminate.
Qed.

Lemma lookup_new_frame σ l rows :
  is_Some (σ !! l) -> <[fresh (dom σ) := rows]> σ !! l = σ !! l.
Proof.
  intros H. apply lookup_insert_ne. intros E. symmetry in E.
  exact (fresh_other _ _ H E).
Qed.

(** [df[mask].copy()]: two new objects, both with the selected rows; the
    objects there were are as they were. *)
Lemma mask_copy_run σ df rows (mask : list bool) :
  σ !! df = Some rows ->
  exists σ' out,
    bind (getitem_mask df mask) copy σ = (σ', Ok out)
    /\ σ' !! out = Some (select rows mask)
    /\ σ !! out = None
    /\ (forall l, is_Some (σ !! l) -> σ' !! l = σ !! l).
Proof.
  intros H.
  set (l1 := fresh (dom σ)).
  set (σ1 := <[l1 := select rows mask]> σ).
  exists (<[fresh (dom σ1) := select rows mask]> σ1), (fresh (dom σ1)).
  assert (H1 : σ1 !! l1 = Some (select rows mask)) by apply lookup_insert_eq.
  split; [|split; [|split]].
  - rewrite (bind_Ok _ _ _ _ _ (getitem_mask_run _ _ _ mask H)).
    fold l1. fold σ1. apply (copy_run _ _ _ H1).
  - apply lookup_insert_eq.
  - destruct (σ !! fresh (dom σ1)) as [rows'|] eqn:E; [|reflexivity].
    exfalso. assert (Hs : is_Some (σ1 !! fresh (dom σ1))).
    { unfold σ1, l1. rewrite lookup_new_frame by eauto. eauto. }
    destruct Hs as [x Hx]. rewrite fresh_unbound in Hx. discriminate.
  - intros l Hl.
    assert (Hl1 : σ1 !! l = σ !! l) by (apply lookup_new_frame; exact Hl).
    rewrite lookup_new_frame by (rewrite Hl1; exact Hl). exact Hl1.
Qed.
End StoreFacts.

(** ** The trip filter *)

Lemma float_le_of_int_l (a : Z) (x : float) :
  float_le (of_int a) x = true <->
  x = PosInf \/ exists d, x = Finite d /\ (inject_Z a <= d)%Q.
Proof.
  destruct x as [d| | |]; simpl; split.
  - intros H. right. exists d. split; [reflexivity | apply Qle_bool_iff; exact H].
  - intros [H|(d' & [= <-] & H)]; [discriminate | apply Qle_bool_iff; exact H].
  - intros _. left. reflexivity.
  - reflexivity.
  - discriminate.
  - intros [H|(d' & H & _)]; discriminate.
  - discriminate.
  - intros [H|(d' & H & _)]; discriminate.
Qed.

Lemma float_le_of_int_r (x : float) (b : Z) :
  float_le x (of_int b) = true <->
  x = NegInf \/ exists d, x = Finite d /\ (d <= inject_Z b)%Q.
Proof.
  destruct x as [d| | |]; simpl; split.
  - intros H. right. exists d. split; [reflexivity | apply Qle_bool_iff; exact H].
  - intros [H|(d' & [= <-] & H)]; [discriminate | apply Qle_bool_iff; exact H].
  - discriminate.
  - intros [H|(d' & H & _)]; discriminate.
  - intros _. left. reflexivity.
  - reflexivity.
  - discriminate.
  - intros [H|(d' & H & _)]; discriminate.
Qed.

(** The mask cell [between] computes is the two-sided window test. *)
Lemma between_cell (a b : Z) (x : float) :
  float_le (of_int a) x && float_le x (of_int b) = true <->
  exists d, x = Finite d /\ (inject_Z a <= d)%Q /\ (d <= inject_Z b)%Q.
Proof.
  rewrite andb_true_iff, float_le_of_int_l, float_le_of_int_r. split.
  - intros [[->|(d & -> & Ha)] [Hb|(d' & Hd' & Hb)]]; try discriminate.
    injection Hd' as <-. exists d. auto.
  - intros (d & -> & Ha & Hb). split; right; exists d; auto.
Qed.

(** What a call of the trip filter does to the store and what it returns. *)
Lemma filter_by_trip_distance_run σ df trips t :
  σ !! df = Some trips ->
  exists σ' out,
    filter_by_trip_distance df t σ = (σ', Ok out)
    /\ σ' !! out
       = Some (List.filter
                 (fun r => float_le (of_int (t - 1)) (Trip_Miles r)
                           && float_le (Trip_Miles r) (of_int t)) trips)
    /\ σ !! out = None
    /\ (forall l, is_Some (σ !! l) -> σ' !! l = σ !! l).
Proof.
  intros H. unfold filter_by_trip_distance.
  rewrite (bind_Ok _ _ _ _ _ (column_run Trip_Miles _ _ _ H)).
  destruct (mask_copy_run σ df trips
              (between (map Trip_Miles trips) (t - 1) t) H)
    as (σ' & out & Hrun & Hout & Hnew & Hold).
  exists σ', out. split; [exact Hrun|]. split; [|split; assumption].
  rewrite Hout. f_equal. unfold between. rewrite map_map. apply select_map.
Qed.

(** C2. For every trip table and every target t in [1,25], a record is in
    the table [filter_by_trip_distance] returns if and only if it is a
    record of the trip table whose trip distance d satisfies
    t - 1 <= d <= t, both ends included. *)
Theorem filter_by_trip_distance_window σ df trips t :
  σ !! df = Some trips ->
  1 <= t <= 25 ->
  exists σ' out kept,
    filter_by_trip_distance df t σ = (σ', Ok out)
    /\ σ' !! out = Some kept
    /\ forall r,
         In r kept <->
         In r trips
         /\ exists d, Trip_Miles r = Finite d
                      /\ (inject_Z (t - 1) <= d)%Q /\ (d <= inject_Z t)%Q.
Proof.
  intros H _.
  destruct (filter_by_trip_distance_run σ df trips t H)
    as (σ' & out & Hrun & Hout & _ & _).
  eexists σ', out, _. split; [exact Hrun|]. split; [exact Hout|].
  intros r. rewrite filter_In, between_cell. reflexivity.
Qed.

(** C8. [filter_by_trip_distance] does not change the trip table it is
    given (nor any other table there was), what it returns is a new
    object, and a second call with the same arguments returns a table
    with the same rows. *)
Theorem filter_by_trip_distance_frame σ df trips t :
  σ !! df = Some trips ->
  exists σ1 out1 σ2 out2 kept,
    filter_by_trip_distance df t σ = (σ1, Ok out1)
    /\ filter_by_trip_distance df t σ1 = (σ2, Ok out2)
    /\ σ1 !! df = Some trips
    /\ σ2 !! df = Some trips
    /\ (forall l, is_Some (σ !! l) -> σ1 !! l = σ !! l /\ σ2 !! l = σ !! l)
    /\ out1 <> df /\ σ !! out1 = None
    /\ out2 <> df /\ out2 <> out1
    /\ σ1 !! out1 = Some kept
    /\ σ2 !! out1 = Some kept
    /\ σ2 !! out2 = Some kept.
Proof.
  intros H.
  destruct (filter_by_trip_distance_run σ df trips t H)
    as (σ1 & out1 & Hrun1 & Hout1 & Hnew1 & Hold1).
  assert (H1 : σ1 !! df = Some trips) by (rewrite Hold1 by eauto; exact H).
  destruct (filter_by_trip_distance_run σ1 df trips t H1)
    as (σ2 & out2 & Hrun2 & Hout2 & Hnew2 & Hold2).
  eexists σ1, out1, σ2, out2, _.
  split; [exact Hrun1|]. split; [exact Hrun2|]. split; [exact H1|].
  split; [rewrite Hold2 by eauto; exact H1|].
  split.
  { intros l Hl. split; [apply Hold1; exact Hl|].
    rewrite Hold2 by (rewrite Hold1 by exact Hl; exact Hl).
    apply Hold1; exact Hl. }
  split; [intros ->; congruence|]. split; [exact Hnew1|].
  split; [intros ->; congruence|]. split; [intros ->; congruence|].
  split; [exact Hout1|]. split; [|exact Hout2].
  rewrite Hold2 by eauto. exact Hout1.
Qed.

(** ** Columns written into a survey table *)

Lemma setitem_run σ df rows c (s : list value) :
  σ !! df = Some rows ->
  length s = length rows ->
  setitem df c s σ = (<[df := zip_with (set_col c) s rows]> σ, Ok tt).
Proof.
  intros H Hlen. unfold setitem.
  rewrite (bind_Ok _ _ _ _ _ (rows_of_run _ _ _ H)).
  rewrite Hlen, Nat.eqb_refl. apply (set_rows_run _ _ _ _ H).
Qed.

Lemma getitem_run σ df rows c :
  σ !! df = Some rows -> getitem df c σ = (σ, Series_apply (cell c) rows).
Proof.
  intros H. unfold getitem.
  rewrite (bind_Ok _ _ _ _ _ (rows_of_run _ _ _ H)). reflexivity.
Qed.

Lemma add_has_diabetes_run σ df rows :
  σ !! df = Some rows ->
  add_has_diabetes df σ = (<[df := map with_has_diabetes rows]> σ, Ok tt).
Proof.
  intros H. unfold add_has_diabetes.
  rewrite (bind_Ok _ _ _ _ _ (column_run Diabetes_binary _ _ _ H)).
  rewrite (setitem_run _ _ _ _ _ H)
    by (unfold astype_bool; rewrite !length_map; reflexivity).
  unfold astype_bool. rewrite !map_map.
  rewrite (zip_with_map_self (set_col "Has Diabetes")). reflexivity.
Qed.

Lemma flagged_with_has_diabetes r : flagged (with_has_diabetes r).
Proof. unfold flagged, with_has_diabetes. simpl. apply lookup_insert_eq. Qed.

Lemma flagged_set_col c v r :
  c <> "Has Diabetes" -> flagged r -> flagged (set_col c v r).
Proof.
  unfold flagged. simpl. intros Hc H. rewrite lookup_insert_ne by exact Hc.
  exact H.
Qed.

(** Reading a column back gives the cells that were written. *)
Lemma column_read_back c (f : SurveyRecord -> value) rows :
  Forall (fun r => cols r !! c = Some (f r)) rows ->
  Series_apply (cell c) rows = Ok (map f rows).
Proof.
  induction 1 as [|r rows Hr _ IH]; simpl; [reflexivity|].
  unfold cell at 1. rewrite Hr, IH. reflexivity.
Qed.

Lemma has_diabetes_mask rows :
  Forall flagged rows ->
  Series_apply (cell "Has Diabetes") rows = Ok (map (fun r => VBool (has_diabetes r)) rows).
Proof. apply column_read_back. Qed.

Lemma getitem_has_diabetes {B : Type} σ df rows (k : list bool -> M SurveyRecord B) :
  σ !! df = Some rows ->
  Forall flagged rows ->
  bind (getitem df "Has Diabetes")
       (fun has => bind (lift (bool_series has)) k) σ
  = k (map has_diabetes rows) σ.
Proof.
  intros H Hf.
  rewrite (bind_Ok _ _ _ _ _ (eq_trans (getitem_run _ _ _ _ H)
                                  (f_equal (pair σ) (has_diabetes_mask _ Hf)))).
  unfold bind at 1, lift.
  rewrite <- (map_map has_diabetes VBool), bool_series_VBool. reflexivity.
Qed.

(** ** The selection by diabetes status *)

Lemma diabetes_applicable_run σ df rows diab_status :
  σ !! df = Some rows ->
  Forall flagged rows ->
  exists σ' out,
    diabetes_applicable df diab_status σ = (σ', Ok out)
    /\ σ' !! out = Some (List.filter (wants diab_status) rows)
    /\ σ !! out = None
    /\ (forall l, is_Some (σ !! l) -> σ' !! l = σ !! l).
Proof.
  intros H Hf. unfold diabetes_applicable, wants.
  destruct (String.eqb diab_status "True").
  - destruct (mask_copy_run σ df rows (map has_diabetes rows) H)
      as (σ' & out & Hrun & Hout & Hnew & Hold).
    exists σ', out. rewrite select_map in Hout.
    split; [|split; [exact Hout | split; assumption]].
    rewrite (getitem_has_diabetes _ _ _ _ H Hf). exact Hrun.
  - destruct (mask_copy_run σ df rows (invert (map has_diabetes rows)) H)
      as (σ' & out & Hrun & Hout & Hnew & Hold).
    exists σ', out. rewrite select_invert_map in Hout.
    split; [|split; [exact Hout | split; assumption]].
    rewrite (getitem_has_diabetes _ _ _ _ H Hf). exact Hrun.
Qed.

(** ** Grouped counts *)

Lemma key_eqb_eq (k k' : Z * bool) : key_eqb k k' = true <-> k = k'.
Proof.
  destruct k as [i b], k' as [i' b']. unfold key_eqb. simpl.
  rewrite andb_true_iff, Z.eqb_eq, Bool.eqb_true_iff. split.
  - intros [-> ->]. reflexivity.
  - intros [= -> ->]. split; reflexivity.
Qed.

(** One more row makes the counts one larger in sum. *)
Lemma tally_total k acc : sum_counts (tally k acc) = sum_counts acc + 1.
Proof.
  unfold sum_counts.
  induction acc as [|[k' n] acc IH]; simpl; [reflexivity|].
  destruct (key_eqb k k'); simpl; [lia|].
  destruct (key_ltb k k'); simpl; [lia|].
  rewrite IH. lia.
Qed.

Lemma fold_tally_total keys acc :
  sum_counts (fold_left (fun acc k => tally k acc) keys acc)
  = sum_counts acc + Z.of_nat (length keys).
Proof.
  revert acc. induction keys as [|k keys IH]; intros acc; simpl length.
  - simpl. lia.
  - simpl fold_left. rewrite IH, tally_total. lia.
Qed.

(** The counts add up to the number of rows grouped. *)
Lemma groupby_size_total keys :
  sum_counts (groupby_size keys) = Z.of_nat (length keys).
Proof. unfold groupby_size. rewrite fold_tally_total. reflexivity. Qed.

Lemma tally_keys k k' acc :
  In k' (map fst (tally k acc)) <-> k' = k \/ In k' (map fst acc).
Proof.
  induction acc as [|[k0 n] acc IH]; simpl.
  - intuition congruence.
  - destruct (key_eqb k k0) eqn:E; simpl.
    + apply key_eqb_eq in E as ->. intuition congruence.
    + destruct (key_ltb k k0); simpl; [intuition congruence|].
      rewrite IH. intuition congruence.
Qed.

Lemma fold_tally_keys k keys acc :
  In k (map fst (fold_left (fun acc k => tally k acc) keys acc))
  <-> In k keys \/ In k (map fst acc).
Proof.
  revert acc. induction keys as [|k0 keys IH]; intros acc; simpl.
  - intuition.
  - rewrite IH, tally_keys. intuition congruence.
Qed.

(** The grouped table has a row for exactly the keys that occur. *)
Lemma groupby_size_keys k keys :
  In k (map fst (groupby_size keys)) <-> In k keys.
Proof.
  unfold groupby_size. rewrite fold_tally_keys. simpl. intuition.
Qed.

(** ** Recoding the grouped rows *)

Lemma zip_with_counts_row counts brackets :
  Forall2 (fun x y => dict_getitem income_code_to_text x = Ok y)
    (map (fun g : Z * bool * Z => g.1.1) counts) brackets ->
  Forall2 (fun g c =>
             c = counts_row g (Counts.Income_Bracket c)
             /\ income_code_to_text !! g.1.1 = Some (Counts.Income_Bracket c))
    counts (zip_with counts_row counts brackets).
Proof.
  revert brackets. induction counts as [|g counts IH]; intros brackets H; simpl in *.
  - constructor.
  - inversion H as [|x y xs ys Hxy Hrest]; subst. simpl.
    constructor; [|apply IH; exact Hrest].
    split; [reflexivity|]. simpl.
    unfold dict_getitem in Hxy.
    destruct (income_code_to_text !! g.1.1); congruence.
Qed.

Lemma recode_Ok counts rows :
  recode counts = Ok rows ->
  Forall2 (fun g c =>
             c = counts_row g (Counts.Income_Bracket c)
             /\ income_code_to_text !! g.1.1 = Some (Counts.Income_Bracket c))
    counts rows.
Proof.
  unfold recode.
  destruct (Series_apply _ _) as [brackets|e] eqn:E; [|discriminate].
  intros [= <-]. apply zip_with_counts_row, Series_apply_Ok, E.
Qed.

Lemma recode_total counts rows :
  recode counts = Ok rows -> total rows = sum_counts counts.
Proof.
  intros H. apply recode_Ok in H. unfold total, sum_counts.
  induction H as [|g c counts rows [Hc _] _ IH]; simpl; [reflexivity|].
  rewrite IH, Hc. reflexivity.
Qed.

Lemma recode_Raise counts e :
  recode counts = Raise e ->
  exists g, In g counts /\ income_code_to_text !! g.1.1 = None
            /\ e = KeyError (KInt g.1.1).
Proof.
  unfold recode.
  destruct (Series_apply _ _) as [brackets|e'] eqn:E; [discriminate|].
  intros [= ->]. apply Series_apply_Raise in E as (x & Hin & Hx).
  apply in_map_iff in Hin as (g & <- & Hg). exists g. split; [exact Hg|].
  unfold dict_getitem in Hx.
  destruct (income_code_to_text !! g.1.1); [discriminate|].
  injection Hx as <-. split; reflexivity.
Qed.

Lemma recode_all_known counts :
  (forall g, In g counts -> is_Some (income_code_to_text !! g.1.1)) ->
  exists rows, recode counts = Ok rows.
Proof.
  intros Hall. destruct (recode counts) as [rows|e] eqn:E; [eauto|].
  apply recode_Raise in E as (g & Hg & Hnone & _).
  destruct (Hall g Hg) as [lbl Hlbl]. congruence.
Qed.

(** ** The income aggregation *)

Lemma zip_group_key rows :
  zip (map Income rows) (map has_diabetes rows) = map group_key rows.
Proof.
  induction rows as [|r rows IH]; [reflexivity|].
  change (group_key r :: zip (map Income rows) (map has_diabetes rows)
          = group_key r :: map group_key rows).
  rewrite IH. reflexivity.
Qed.

Lemma diabetes_counts_run σ applicable rows :
  σ !! applicable = Some rows ->
  Forall flagged rows ->
  diabetes_counts applicable σ
  = (σ, recode (groupby_size (map group_key rows))).
Proof.
  intros H Hf. unfold diabetes_counts.
  rewrite (bind_Ok _ _ _ _ _ (column_run Income _ _ _ H)).
  rewrite (getitem_has_diabetes _ _ _ _ H Hf).
  cbv zeta. rewrite zip_group_key. unfold bind, lift, recode, ret.
  destruct (Series_apply _ _); reflexivity.
Qed.

Lemma wants_with_has_diabetes diab_status r :
  wants diab_status (with_has_diabetes r) = wants diab_status r.
Proof. reflexivity. Qed.

Lemma filter_with_has_diabetes diab_status rows :
  List.filter (wants diab_status) (map with_has_diabetes rows)
  = map with_has_diabetes (List.filter (wants diab_status) rows).
Proof.
  induction rows as [|r rows IH]; simpl; [reflexivity|].
  rewrite wants_with_has_diabetes.
  destruct (wants diab_status r); simpl; rewrite IH; reflexivity.
Qed.

Lemma Forall_flagged_with_has_diabetes rows :
  Forall flagged (map with_has_diabetes rows).
Proof.
  induction rows as [|r rows IH]; simpl; constructor;
    [apply flagged_with_has_diabetes | exact IH].
Qed.

Lemma with_has_diabetes_idem r :
  with_has_diabetes (with_has_diabetes r) = with_has_diabetes r.
Proof.
  unfold with_has_diabetes, set_col. simpl. f_equal. apply insert_insert_eq.
Qed.

(** Lines 49-53 together: the boolean column is written into the table,
    and the selected rows are returned as a new table. *)
Lemma selection_run σ df rows diab_status :
  σ !! df = Some rows ->
  exists σ' out,
    bind (add_has_diabetes df) (fun _ => diabetes_applicable df diab_status) σ
    = (σ', Ok out)
    /\ σ' !! out
       = Some (map with_has_diabetes (List.filter (wants diab_status) rows))
    /\ σ' !! df = Some (map with_has_diabetes rows)
    /\ σ !! out = None
    /\ (forall l, l <> df -> is_Some (σ !! l) -> σ' !! l = σ !! l).
Proof.
  intros H.
  rewrite (bind_Ok _ _ _ _ _ (add_has_diabetes_run _ _ _ H)).
  set (σ1 := <[df := map with_has_diabetes rows]> σ).
  assert (H1 : σ1 !! df = Some (map with_has_diabetes rows))
    by apply lookup_insert_eq.
  destruct (diabetes_applicable_run σ1 df _ diab_status H1
              (Forall_flagged_with_has_diabetes rows))
    as (σ2 & out & Hrun & Hout & Hnew & Hold).
  assert (Hσ1 : forall l, l <> df -> σ1 !! l = σ !! l)
    by (intros l Hne; apply lookup_insert_ne; congruence).
  exists σ2, out. rewrite filter_with_has_diabetes in Hout.
  split; [exact Hrun|]. split; [exact Hout|].
  split; [rewrite Hold by eauto; exact H1|]. split.
  - destruct (decide (out = df)) as [->|Hne]; [congruence|].
    rewrite <- (Hσ1 out Hne). exact Hnew.
  - intros l Hne Hl. rewrite Hold by (rewrite (Hσ1 l Hne); exact Hl).
    apply Hσ1, Hne.
Qed.

(** What a call of [diabetic_salary_prep] returns and what it leaves in
    the store: the table it was given now has the boolean column, and
    every other table there was is as it was. *)
Lemma diabetic_salary_prep_run σ df rows diab_status :
  σ !! df = Some rows ->
  exists σ',
    diabetic_salary_prep df diab_status σ
    = (σ', recode (groupby_size
                     (map group_key (List.filter (wants diab_status) rows))))
    /\ σ' !! df = Some (map with_has_diabetes rows)
    /\ (forall l, l <> df -> is_Some (σ !! l) -> σ' !! l = σ !! l).
Proof.
  intros H.
  destruct (selection_run σ df rows diab_status H)
    as (σ' & out & Hrun & Hout & Hdf & _ & Hold).
  exists σ'. split; [|split; assumption].
  unfold diabetic_salary_prep, bind.
  unfold bind in Hrun. destruct (add_has_diabetes df σ) as [σ1 [[]|e]];
    [|discriminate].
  rewrite Hrun.
  assert (Hf : Forall flagged
                 (map with_has_diabetes (List.filter (wants diab_status) rows)))
    by apply Forall_flagged_with_has_diabetes.
  rewrite (diabetes_counts_run _ _ _ Hout Hf), map_map. reflexivity.
Qed.

(** C1. On a survey table with exactly the three rows
    (diabetes 1, income 3, general health 2), (0, 3, 4), (1, 3, 2),
    whatever their other columns hold, [diabetic_salary_prep] with "True"
    returns exactly one row, labelled "$15,000 - $20,000" with count 2,
    and with "False" exactly one row, labelled "$15,000 - $20,000" with
    count 1. *)
Theorem diabetic_salary_prep_scenario σ df b1 b2 b3 c1 c2 c3 :
  σ !! df
  = Some [ {| Diabetes_binary := 1; Income := 3; GenHlth := 2; BMI := b1; cols := c1 |};
           {| Diabetes_binary := 0; Income := 3; GenHlth := 4; BMI := b2; cols := c2 |};
           {| Diabetes_binary := 1; Income := 3; GenHlth := 2; BMI := b3; cols := c3 |} ] ->
  (exists σ',
     diabetic_salary_prep df "True" σ
     = (σ', Ok [ {| Counts.Income := 3;
                    Counts.Has_Diabetes := true;
                    Counts.Number_of_Individuals := 2;
                    Counts.Income_Bracket := "$15,000 - $20,000" |} ]))
  /\ (exists σ',
        diabetic_salary_prep df "False" σ
        = (σ', Ok [ {| Counts.Income := 3;
                       Counts.Has_Diabetes := false;
                       Counts.Number_of_Individuals := 1;
                       Counts.Income_Bracket := "$15,000 - $20,000" |} ])).
Proof.
  intros H. split.
  - destruct (diabetic_salary_prep_run σ df _ "True" H) as (σ' & Hrun & _).
    exists σ'. rewrite Hrun. reflexivity.
  - destruct (diabetic_salary_prep_run σ df _ "False" H) as (σ' & Hrun & _).
    exists σ'. rewrite Hrun. reflexivity.
Qed.

(** ** The BMI preparation *)

Lemma diabetic_bmi_prep_run σ df rows :
  σ !! df = Some rows ->
  diabetic_bmi_prep df σ = (<[df := map bmi_row rows]> σ, Ok df).
Proof.
  intros H. unfold diabetic_bmi_prep.
  rewrite (bind_Ok _ _ _ _ _ (column_run Diabetes_binary _ _ _ H)).
  set (rows1 := map with_bin rows).
  assert (Hset : setitem df "Has Diabetes Bin"
                   (map VBool (astype_bool (map Diabetes_binary rows))) σ
                 = (<[df := rows1]> σ, Ok tt)).
  { rewrite (setitem_run _ _ _ _ _ H)
      by (unfold astype_bool; rewrite !length_map; reflexivity).
    unfold astype_bool. rewrite !map_map.
    rewrite (zip_with_map_self (set_col "Has Diabetes Bin")). reflexivity. }
  rewrite (bind_Ok _ _ _ _ _ Hset).
  set (σ1 := <[df := rows1]> σ).
  assert (H1 : σ1 !! df = Some rows1) by apply lookup_insert_eq.
  assert (Hread : Series_apply (cell "Has Diabetes Bin") rows1
                  = Ok (map (fun r => VBool (has_diabetes r)) rows1)).
  { apply column_read_back. unfold rows1. clear.
    induction rows as [|r rows IH]; simpl; constructor;
      [apply lookup_insert_eq | exact IH]. }
  rewrite (bind_Ok _ _ _ _ _ (eq_trans (getitem_run _ _ _ _ H1)
                                  (f_equal (pair σ1) Hread))).
  unfold bind at 1, lift. rewrite Series_apply_total.
  erewrite bind_Ok
    by (apply (setitem_run _ _ _ _ _ H1); rewrite !length_map; reflexivity).
  unfold ret, σ1. rewrite insert_insert_eq. f_equal. f_equal.
  rewrite !map_map.
  rewrite (zip_with_map_self (set_col "Diabetic Status")).
  unfold rows1. rewrite map_map. reflexivity.
Qed.

(** ** The general-health preparation *)

Lemma dict_lookups_Ok (d : gmap Z string) xs ys :
  Series_apply (dict_getitem d) xs = Ok ys ->
  ys = map (fun x => default EmptyString (d !! x)) xs.
Proof.
  intros H. apply Series_apply_Ok in H.
  induction H as [|x y xs ys Hxy _ IH]; simpl; [reflexivity|].
  rewrite <- IH. unfold dict_getitem in Hxy.
  destruct (d !! x); [|discriminate]. injection Hxy as ->. reflexivity.
Qed.

Lemma flagged_gen_health_rows rows : Forall flagged (map gen_health_row rows).
Proof.
  induction rows as [|r rows IH]; simpl; constructor; [|exact IH].
  unfold gen_health_row, with_readable, with_assessment.
  do 2 (apply flagged_set_col; [discriminate|]).
  apply flagged_with_has_diabetes.
Qed.

(** What a call of [gen_health_prep] does: a lookup that fails ends it
    with the boolean column already written; otherwise the three columns
    are written and the selected rows are returned as a new table. *)
Lemma gen_health_prep_run σ df rows diab_status :
  σ !! df = Some rows ->
  match Series_apply (dict_getitem gen_hlth_mapping) (map GenHlth rows) with
  | Raise e =>
      gen_health_prep df diab_status σ
      = (<[df := map with_has_diabetes rows]> σ, Raise e)
  | Ok _ =>
      exists σ' out,
        gen_health_prep df diab_status σ = (σ', Ok out)
        /\ σ' !! out = Some (List.filter (wants diab_status) (map gen_health_row rows))
        /\ σ' !! df = Some (map gen_health_row rows)
        /\ σ !! out = None
        /\ (forall l, l <> df -> is_Some (σ !! l) -> σ' !! l = σ !! l)
  end.
Proof.
  intros H. unfold gen_health_prep.
  change (fun x => dict_getitem gen_hlth_mapping (int x))
    with (dict_getitem gen_hlth_mapping).
  rewrite (bind_Ok _ _ _ _ _ (add_has_diabetes_run _ _ _ H)).
  set (rows1 := map with_has_diabetes rows).
  set (σ1 := <[df := rows1]> σ).
  assert (H1 : σ1 !! df = Some rows1) by apply lookup_insert_eq.
  rewrite (bind_Ok _ _ _ _ _ (column_run GenHlth _ _ _ H1)).
  assert (Hcol : map GenHlth rows1 = map GenHlth rows)
    by (unfold rows1; rewrite map_map; reflexivity).
  rewrite Hcol.
  destruct (Series_apply (dict_getitem gen_hlth_mapping) (map GenHlth rows))
    as [ys|e] eqn:E.
  - unfold bind at 1, lift.
    apply dict_lookups_Ok in E. rewrite <- Hcol in E. subst ys.
    set (rows2 := map with_assessment rows1).
    assert (Hset2 : setitem df "General_Health_Assessment"
                      (map VStr (map (fun x => default EmptyString (gen_hlth_mapping !! x))
                                   (map GenHlth rows1))) σ1
                    = (<[df := rows2]> σ1, Ok tt)).
    { rewrite (setitem_run _ _ _ _ _ H1) by (rewrite !length_map; reflexivity).
      rewrite !map_map.
      rewrite (zip_with_map_self (set_col "General_Health_Assessment")).
      reflexivity. }
    rewrite (bind_Ok _ _ _ _ _ Hset2).
    set (σ2 := <[df := rows2]> σ1).
    assert (H2 : σ2 !! df = Some rows2) by apply lookup_insert_eq.
    rewrite (bind_Ok _ _ _ _ _ (column_run Diabetes_binary _ _ _ H2)).
    unfold bind at 1, lift. rewrite Series_apply_total.
    set (rows3 := map with_readable rows2).
    assert (Hset3 : setitem df "has_diabetes_human_readable"
                      (map VStr (map (fun x : Z =>
                                        if x =? 1 then "Diabetic" else "Non-Diabetic")
                                   (map Diabetes_binary rows2))) σ2
                    = (<[df := rows3]> σ2, Ok tt)).
    { rewrite (setitem_run _ _ _ _ _ H2) by (rewrite !length_map; reflexivity).
      rewrite !map_map.
      rewrite (zip_with_map_self (set_col "has_diabetes_human_readable")).
      reflexivity. }
    rewrite (bind_Ok _ _ _ _ _ Hset3).
    set (σ3 := <[df := rows3]> σ2).
    assert (Hrows3 : rows3 = map gen_health_row rows)
      by (unfold rows3, rows2, rows1; rewrite !map_map; reflexivity).
    assert (H3 : σ3 !! df = Some (map gen_health_row rows))
      by (rewrite <- Hrows3; apply lookup_insert_eq).
    destruct (diabetes_applicable_run σ3 df _ diab_status H3
                (flagged_gen_health_rows rows))
      as (σ' & out & Hrun & Hout & Hnew & Hold).
    assert (Hσ3 : forall l, l <> df -> σ3 !! l = σ !! l).
    { intros l Hne. unfold σ3, σ2, σ1.
      rewrite !lookup_insert_ne by congruence. reflexivity. }
    exists σ', out. split; [exact Hrun|]. split; [exact Hout|].
    split; [rewrite Hold by eauto; exact H3|]. split.
    + destruct (decide (out = df)) as [->|Hne]; [congruence|].
      rewrite <- (Hσ3 out Hne). exact Hnew.
    + intros l Hne Hl. rewrite Hold by (rewrite (Hσ3 l Hne); exact Hl).
      apply Hσ3, Hne.
  - reflexivity.
Qed.

(** ** The two partitions *)

Lemma filter_split_perm {A : Type} (p : A -> bool) (l : list A) :
  Permutation (List.filter p l ++ List.filter (fun x => negb (p x)) l) l.
Proof.
  induction l as [|x l IH]; simpl; [constructor|].
  destruct (p x); simpl.
  - constructor. exact IH.
  - symmetry. apply Permutation_cons_app. symmetry. exact IH.
Qed.

Lemma wants_False r : wants "False" r = negb (wants "True" r).
Proof. reflexivity. Qed.

Lemma wants_True_binary r :
  Diabetes_binary r = 0 \/ Diabetes_binary r = 1 ->
  wants "True" r = (Diabetes_binary r =? 1).
Proof. intros [E|E]; unfold wants, has_diabetes; simpl; rewrite E; reflexivity. Qed.

Lemma wants_False_binary r :
  Diabetes_binary r = 0 \/ Diabetes_binary r = 1 ->
  wants "False" r = (Diabetes_binary r =? 0).
Proof. intros [E|E]; unfold wants, has_diabetes; simpl; rewrite E; reflexivity. Qed.

Lemma filter_ext_Forall {A : Type} (P : A -> Prop) (p q : A -> bool) (l : list A) :
  Forall P l -> (forall x, P x -> p x = q x) -> List.filter p l = List.filter q l.
Proof.
  intros HP Hpq. induction HP as [|x l Hx _ IH]; simpl; [reflexivity|].
  rewrite (Hpq x Hx), IH. reflexivity.
Qed.

Lemma Forall_filter_selected {A : Type} (P : A -> Prop) (Q : A -> Prop)
    (p : A -> bool) (l : list A) :
  Forall P l -> (forall x, P x -> p x = true -> Q x) -> Forall Q (List.filter p l).
Proof.
  intros HP HQ. induction HP as [|x l Hx _ IH]; simpl; [constructor|].
  destruct (p x) eqn:E; [constructor; auto | exact IH].
Qed.

Lemma known_incomes_recode (rows : list SurveyRecord) (p : SurveyRecord -> bool) :
  (forall r, In r rows -> p r = true -> is_Some (income_code_to_text !! Income r)) ->
  exists counts,
    recode (groupby_size (map group_key (List.filter p rows))) = Ok counts.
Proof.
  intros Hknown. apply recode_all_known. intros [k n] Hg.
  assert (Hk : In k (map fst (groupby_size (map group_key (List.filter p rows)))))
    by (apply in_map_iff; exists (k, n); split; [reflexivity | exact Hg]).
  apply (proj1 (groupby_size_keys _ _)) in Hk.
  apply in_map_iff in Hk as (r & <- & Hr).
  apply filter_In in Hr as [Hin Hp]. simpl. apply Hknown; assumption.
Qed.

(** The counts returned for a status add up to the size of its partition. *)
Lemma recode_partition_total (rows : list SurveyRecord) (p : SurveyRecord -> bool) counts :
  recode (groupby_size (map group_key (List.filter p rows))) = Ok counts ->
  total counts = Z.of_nat (length (List.filter p rows)).
Proof.
  intros H. rewrite (recode_total _ _ H), groupby_size_total, length_map.
  reflexivity.
Qed.

(** C3, as the code has it. For every survey table whose indicator is
    0/1-valued, the partitions selected for "True" and for "False" hold
    the rows with indicator 1 and the rows with indicator 0, and together
    they are the rows of the table, each once. When moreover every income
    code of the table has a label, both aggregations return, and their
    counts add up to the sizes of the two partitions and so to the number
    of rows. *)
Theorem partitions_exhaustive_disjoint σ df rows :
  σ !! df = Some rows ->
  Forall (fun r => Diabetes_binary r = 0 \/ Diabetes_binary r = 1) rows ->
  (exists σ1 pT partT σ2 pF partF,
     bind (add_has_diabetes df) (fun _ => diabetes_applicable df "True") σ
     = (σ1, Ok pT)
     /\ σ1 !! pT = Some partT
     /\ bind (add_has_diabetes df) (fun _ => diabetes_applicable df "False") σ1
        = (σ2, Ok pF)
     /\ σ2 !! pF = Some partF
     /\ Permutation (partT ++ partF) (map with_has_diabetes rows)
     /\ Forall (fun r => Diabetes_binary r = 1) partT
     /\ Forall (fun r => Diabetes_binary r = 0) partF)
  /\ (Forall (fun r => is_Some (income_code_to_text !! Income r)) rows ->
      exists σT countsT σF countsF,
        diabetic_salary_prep df "True" σ = (σT, Ok countsT)
        /\ diabetic_salary_prep df "False" σT = (σF, Ok countsF)
        /\ total countsT
           = Z.of_nat (length (List.filter (fun r => Diabetes_binary r =? 1) rows))
        /\ total countsF
           = Z.of_nat (length (List.filter (fun r => Diabetes_binary r =? 0) rows))
        /\ total countsT + total countsF = Z.of_nat (length rows)).
Proof.
  intros H Hbin. split.
  - destruct (selection_run σ df rows "True" H)
      as (σ1 & pT & Hrun1 & HpT & Hdf1 & _ & _).
    destruct (selection_run σ1 df _ "False" Hdf1)
      as (σ2 & pF & Hrun2 & HpF & _ & _ & _).
    rewrite filter_with_has_diabetes in HpF.
    rewrite map_map in HpF.
    rewrite (map_ext _ _ with_has_diabetes_idem) in HpF.
    eexists σ1, pT, _, σ2, pF, _.
    split; [exact Hrun1|]. split; [exact HpT|]. split; [exact Hrun2|].
    split; [exact HpF|]. split; [|split].
    + rewrite <- map_app. apply Permutation_map.
      rewrite (filter_ext _ _ wants_False). apply filter_split_perm.
    + apply Forall_map.
      apply (Forall_filter_selected _ _ _ _ Hbin). intros r Hr Hw. simpl.
      rewrite (wants_True_binary r Hr) in Hw. apply Z.eqb_eq, Hw.
    + apply Forall_map.
      apply (Forall_filter_selected _ _ _ _ Hbin). intros r Hr Hw. simpl.
      rewrite (wants_False_binary r Hr) in Hw. apply Z.eqb_eq, Hw.
  - intros Hknown.
    assert (Hknown' : forall p r, In r rows -> p r = true ->
                        is_Some (income_code_to_text !! Income r)).
    { intros p r Hin _. rewrite Forall_forall in Hknown.
      apply Hknown, list_elem_of_In, Hin. }
    destruct (diabetic_salary_prep_run σ df rows "True" H)
      as (σT & HrunT & HdfT & _).
    destruct (diabetic_salary_prep_run σT df _ "False" HdfT)
      as (σF & HrunF & _ & _).
    rewrite filter_with_has_diabetes, map_map in HrunF.
    change (fun x => group_key (with_has_diabetes x)) with group_key in HrunF.
    destruct (known_incomes_recode rows (wants "True") (Hknown' _))
      as [countsT HT].
    destruct (known_incomes_recode rows (wants "False") (Hknown' _))
      as [countsF HF].
    rewrite HT in HrunT. rewrite HF in HrunF.
    exists σT, countsT, σF, countsF.
    split; [exact HrunT|]. split; [exact HrunF|].
    apply recode_partition_total in HT, HF.
    rewrite (filter_ext_Forall _ _ _ _ Hbin wants_True_binary) in HT.
    rewrite (filter_ext_Forall _ _ _ _ Hbin wants_False_binary) in HF.
    split; [exact HT|]. split; [exact HF|].
    rewrite HT, HF, <- Nat2Z.inj_add, <- length_app. f_equal.
    apply Permutation_length.
    rewrite <- (filter_ext_Forall _ _ _ _ Hbin wants_True_binary).
    rewrite <- (filter_ext_Forall _ _ _ _ Hbin wants_False_binary).
    rewrite (filter_ext _ _ wants_False). apply filter_split_perm.
Qed.

(** C3 does not hold for every 0/1-valued table: with an income code that
    has no label, the aggregation of the partition holding it raises, so
    there are no counts to add up. *)
Lemma unknown_income_no_counts :
  Forall (fun r => Diabetes_binary r = 0 \/ Diabetes_binary r = 1)
    unknown_income_survey
  /\ snd (diabetic_salary_prep 1%positive "True"
            {[ 1%positive := unknown_income_survey ]})
     = Raise (KeyError (KInt 98))
  /\ ~ (exists σT countsT σF countsF,
          diabetic_salary_prep 1%positive "True"
            {[ 1%positive := unknown_income_survey ]} = (σT, Ok countsT)
          /\ diabetic_salary_prep 1%positive "False" σT = (σF, Ok countsF)
          /\ total countsT + total countsF
             = Z.of_nat (length unknown_income_survey)).
Proof.
  assert (E : snd (diabetic_salary_prep 1%positive "True"
                     {[ 1%positive := unknown_income_survey ]})
              = Raise (KeyError (KInt 98))) by (vm_compute; reflexivity).
  split; [|split].
  - repeat (constructor; [first [left; reflexivity | right; reflexivity]|]).
    constructor.
  - exact E.
  - intros (σT & countsT & σF & countsF & HT & _). rewrite HT in E.
    discriminate.
Qed.

(** ** Unknown codes *)

Lemma recode_unknown counts g :
  In g counts -> income_code_to_text !! g.1.1 = None ->
  exists k, recode counts = Raise (KeyError (KInt k))
            /\ income_code_to_text !! k = None.
Proof.
  intros Hg Hnone. destruct (recode counts) as [rows|e] eqn:E.
  - exfalso. apply recode_Ok in E. clear -E Hg Hnone.
    induction E as [|g' c counts rows [_ Hc] _ IH]; [destruct Hg|].
    destruct Hg as [->|Hg]; [congruence | exact (IH Hg)].
  - apply recode_Raise in E as (g' & _ & Hg' & ->). eauto.
Qed.

Lemma gen_health_row_assessment r lbl :
  gen_hlth_mapping !! GenHlth r = Some lbl ->
  cols (gen_health_row r) !! "General_Health_Assessment" = Some (VStr lbl).
Proof.
  intros H. unfold gen_health_row, with_readable, with_assessment. simpl.
  rewrite lookup_insert_ne by discriminate. rewrite lookup_insert_eq, H.
  reflexivity.
Qed.

Lemma gen_health_row_readable r :
  cols (gen_health_row r) !! "has_diabetes_human_readable"
  = Some (VStr (if Diabetes_binary r =? 1 then "Diabetic" else "Non-Diabetic")).
Proof.
  unfold gen_health_row, with_readable. simpl. apply lookup_insert_eq.
Qed.

Lemma filter_gen_health_rows diab_status rows :
  List.filter (wants diab_status) (map gen_health_row rows)
  = map gen_health_row (List.filter (wants diab_status) rows).
Proof.
  induction rows as [|r rows IH]; simpl; [reflexivity|].
  change (wants diab_status (gen_health_row r)) with (wants diab_status r).
  destruct (wants diab_status r); simpl; rewrite IH; reflexivity.
Qed.

Lemma known_health_codes rows :
  (forall r, In r rows -> is_Some (gen_hlth_mapping !! GenHlth r)) ->
  exists ys, Series_apply (dict_getitem gen_hlth_mapping) (map GenHlth rows) = Ok ys.
Proof.
  intros Hknown. apply Series_apply_all_Ok. intros x Hx.
  apply in_map_iff in Hx as (r & <- & Hr).
  destruct (Hknown r Hr) as [lbl Hlbl]. exists lbl.
  unfold dict_getitem. rewrite Hlbl. reflexivity.
Qed.

(** ** The label dictionaries *)

(** C4. Every income code 1..8, 77, 99 and every general-health code
    1..5, 7, 9 has a label in its dictionary, the one the source records;
    income code 1 is "Less than $10,000" and general-health code 3 is
    "Good". *)
Theorem code_labels :
  Forall2 (fun code label => dict_getitem income_code_to_text code = Ok label)
    [1; 2; 3; 4; 5; 6; 7; 8; 77; 99]
    [ "Less than $10,000"; "$10,000 - $15,000"; "$15,000 - $20,000";
      "$20,000 - $25,000"; "$25,000 - $35,000"; "$35,000 - $50,000";
      "$50,000 - $75,000"; "$75,000 or more"; "Donâ€™t know/Not sure";
      "Refused" ]
  /\ Forall2 (fun code label => dict_getitem gen_hlth_mapping code = Ok label)
       [1; 2; 3; 4; 5; 7; 9]
       [ "Excellent"; "Very Good"; "Good"; "Fair"; "Poor";
         "Don't know / Not Sure"; "Refused" ]
  /\ dom income_code_to_text = list_to_set [1; 2; 3; 4; 5; 6; 7; 8; 77; 99]
  /\ dom gen_hlth_mapping = list_to_set [1; 2; 3; 4; 5; 7; 9].
Proof.
  split; [|split; [|split]].
  - repeat (constructor; [vm_compute; reflexivity|]). constructor.
  - repeat (constructor; [vm_compute; reflexivity|]). constructor.
  - unfold income_code_to_text. rewrite dom_list_to_map_L. reflexivity.
  - unfold gen_hlth_mapping. rewrite dom_list_to_map_L. reflexivity.
Qed.

(** ** The BMI ceiling *)

Lemma Forall2_map_self {A B : Type} (P : A -> B -> Prop) (f : A -> B) (l : list A) :
  (forall x, P x (f x)) -> Forall2 P l (map f l).
Proof.
  intros H. induction l as [|x l IH]; simpl; constructor; [apply H | exact IH].
Qed.

Lemma same_survey_columns_bmi_row r : same_survey_columns r (bmi_row r).
Proof. repeat split. Qed.

Lemma prepared_diabetes_run σ df rows max_bmi :
  σ !! df = Some rows ->
  exists σ' out,
    prepared_diabetes df max_bmi σ = (σ', Ok out)
    /\ σ' !! out
       = Some (List.filter (fun r => float_le (BMI r) (of_int max_bmi))
                 (map bmi_row rows))
    /\ σ' !! df = Some (map bmi_row rows)
    /\ σ !! out = None.
Proof.
  intros H. unfold prepared_diabetes.
  rewrite (bind_Ok _ _ _ _ _ (diabetic_bmi_prep_run _ _ _ H)).
  set (σ1 := <[df := map bmi_row rows]> σ).
  assert (H1 : σ1 !! df = Some (map bmi_row rows)) by apply lookup_insert_eq.
  rewrite (bind_Ok _ _ _ _ _ (column_run BMI _ _ _ H1)).
  rewrite (getitem_mask_run _ _ _ _ H1).
  exists (<[fresh (dom σ1) := select (map bmi_row rows)
                               (map (fun x => float_le x (of_int max_bmi))
                                  (map BMI (map bmi_row rows)))]> σ1),
    (fresh (dom σ1)).
  split; [reflexivity|]. split; [|split].
  - rewrite lookup_insert_eq. f_equal.
    rewrite (map_map BMI). apply select_map.
  - rewrite lookup_new_frame by eauto. exact H1.
  - destruct (decide (fresh (dom σ1) = df)) as [E|Hne].
    + pose proof (fresh_unbound σ1) as Hf. rewrite E in Hf. congruence.
    + rewrite <- (fresh_unbound σ1). unfold σ1 at 3.
      rewrite lookup_insert_ne by congruence. reflexivity.
Qed.

(** C6. The filter applied after [diabetic_bmi_prep] keeps a record whose
    BMI equals the ceiling and drops a record whose BMI is the ceiling
    plus one, for every ceiling. *)
Theorem bmi_ceiling_inclusive σ df rows max_bmi :
  σ !! df = Some rows ->
  exists σ' out kept table,
    prepared_diabetes df max_bmi σ = (σ', Ok out)
    /\ σ' !! out = Some kept
    /\ σ' !! df = Some table
    /\ Forall2 same_survey_columns rows table
    /\ (forall r q, In r table -> BMI r = Finite q ->
                    (q == inject_Z max_bmi)%Q -> In r kept)
    /\ (forall r q, BMI r = Finite q ->
                    (q == inject_Z (max_bmi + 1))%Q -> ~ In r kept).
Proof.
  intros H.
  destruct (prepared_diabetes_run σ df rows max_bmi H)
    as (σ' & out & Hrun & Hout & Hdf & _).
  eexists σ', out, _, _. split; [exact Hrun|]. split; [exact Hout|].
  split; [exact Hdf|]. split; [|split].
  - apply Forall2_map_self, same_survey_columns_bmi_row.
  - intros r q Hin Hq Heq. apply filter_In. split; [exact Hin|].
    rewrite Hq. simpl. apply Qle_bool_iff. rewrite Heq. apply Qle_refl.
  - intros r q Hq Heq Hin. apply filter_In in Hin as [_ Hle].
    rewrite Hq in Hle. simpl in Hle. apply Qle_bool_iff in Hle.
    rewrite Heq in Hle. rewrite <- Zle_Qle in Hle. lia.
Qed.

(** ** What the preparations write *)

Lemma differ_only_in_refl names r : differ_only_in names r r.
Proof. repeat split. Qed.

Lemma differ_only_in_set_col names c v r r' :
  In c names -> differ_only_in names r r' -> differ_only_in names r (set_col c v r').
Proof.
  intros Hc [Hsame Hcols]. split; [exact Hsame|].
  intros c' Hc'. simpl. rewrite lookup_insert_ne by congruence.
  apply Hcols, Hc'.
Qed.

Lemma differ_only_in_weaken names names' r r' :
  (forall c, In c names -> In c names') ->
  differ_only_in names r r' -> differ_only_in names' r r'.
Proof.
  intros Hsub [Hsame Hcols]. split; [exact Hsame|].
  intros c Hc. apply Hcols. intros Hin. apply Hc, Hsub, Hin.
Qed.

Lemma with_has_diabetes_differ r :
  differ_only_in ["Has Diabetes"] r (with_has_diabetes r).
Proof.
  apply differ_only_in_set_col; [left; reflexivity | apply differ_only_in_refl].
Qed.

Lemma bmi_row_differ r :
  differ_only_in ["Has Diabetes Bin"; "Diabetic Status"] r (bmi_row r).
Proof.
  unfold bmi_row, with_status, with_bin.
  apply differ_only_in_set_col; [right; left; reflexivity|].
  apply differ_only_in_set_col; [left; reflexivity|].
  apply differ_only_in_refl.
Qed.

Lemma gen_health_row_differ r :
  differ_only_in
    ["Has Diabetes"; "General_Health_Assessment"; "has_diabetes_human_readable"]
    r (gen_health_row r).
Proof.
  unfold gen_health_row, with_readable, with_assessment, with_has_diabetes.
  apply differ_only_in_set_col; [right; right; left; reflexivity|].
  apply differ_only_in_set_col; [right; left; reflexivity|].
  apply differ_only_in_set_col; [left; reflexivity|].
  apply differ_only_in_refl.
Qed.

Lemma bmi_row_columns r :
  cols (bmi_row r) !! "Has Diabetes Bin" = Some (VBool (has_diabetes r))
  /\ cols (bmi_row r) !! "Diabetic Status"
     = Some (VStr (if has_diabetes r then "Diabetic" else "Non-Diabetic")).
Proof.
  unfold bmi_row, with_status, with_bin. simpl. split.
  - rewrite lookup_insert_ne by discriminate. apply lookup_insert_eq.
  - apply lookup_insert_eq.
Qed.

(** C7 does not hold: on the scenario's table each preparation leaves
    the table it was given with columns it did not have. *)
Lemma preparations_write_columns :
  map (fun r => cols r !! "Diabetic Status") scenario_survey = [None; None; None]
  /\ map (fun r => cols r !! "Has Diabetes") scenario_survey = [None; None; None]
  /\ map (fun r => cols r !! "Diabetic Status")
     <$> fst (diabetic_bmi_prep 1%positive {[ 1%positive := scenario_survey ]})
         !! 1%positive
     = Some [ Some (VStr "Diabetic"); Some (VStr "Non-Diabetic");
              Some (VStr "Diabetic") ]
  /\ map (fun r => cols r !! "Has Diabetes")
     <$> fst (diabetic_salary_prep 1%positive "True"
                {[ 1%positive := scenario_survey ]}) !! 1%positive
     = Some [ Some (VBool true); Some (VBool false); Some (VBool true) ]
  /\ map (fun r => cols r !! "Has Diabetes")
     <$> fst (gen_health_prep 1%positive "True"
                {[ 1%positive := scenario_survey ]}) !! 1%positive
     = Some [ Some (VBool true); Some (VBool false); Some (VBool true) ]
  /\ fst (diabetic_bmi_prep 1%positive {[ 1%positive := scenario_survey ]})
       !! 1%positive
     <> Some scenario_survey.
Proof.
  assert (Hbmi : map (fun r => cols r !! "Diabetic Status")
                 <$> fst (diabetic_bmi_prep 1%positive
                            {[ 1%positive := scenario_survey ]}) !! 1%positive
                 = Some [ Some (VStr "Diabetic"); Some (VStr "Non-Diabetic");
                          Some (VStr "Diabetic") ])
    by (vm_compute; reflexivity).
  split; [vm_compute; reflexivity|].
  split; [vm_compute; reflexivity|].
  split; [exact Hbmi|].
  split; [vm_compute; reflexivity|].
  split; [vm_compute; reflexivity|].
  intros E. rewrite E in Hbmi. vm_compute in Hbmi. discriminate.
Qed.

(** ** The rows [gen_health_prep] returns *)

Lemma gen_health_row_same r : same_survey_columns r (gen_health_row r).
Proof. repeat split. Qed.

(** C9. For a survey table with 0/1 indicator and general-health codes
    that all have a label, and a status "True" or "False",
    [gen_health_prep] returns exactly the records whose indicator matches
    the status (1 for "True", 0 for "False"), in table order, each with
    the label of its general-health code as "General_Health_Assessment"
    and with a "has_diabetes_human_readable" that is "Diabetic" if and
    only if its indicator is 1. *)
Theorem gen_health_prep_selection σ df rows diab_status :
  σ !! df = Some rows ->
  Forall (fun r => Diabetes_binary r = 0 \/ Diabetes_binary r = 1) rows ->
  Forall (fun r => is_Some (gen_hlth_mapping !! GenHlth r)) rows ->
  diab_status = "True" \/ diab_status = "False" ->
  exists σ' out result,
    gen_health_prep df diab_status σ = (σ', Ok out)
    /\ σ' !! out = Some result
    /\ Forall2
         (fun r r' =>
            same_survey_columns r r'
            /\ (exists label,
                  gen_hlth_mapping !! GenHlth r = Some label
                  /\ cols r' !! "General_Health_Assessment" = Some (VStr label))
            /\ (exists status,
                  cols r' !! "has_diabetes_human_readable" = Some (VStr status)
                  /\ (status = "Diabetic" <-> Diabetes_binary r = 1)))
         (List.filter
            (fun r => Diabetes_binary r
                      =? (if String.eqb diab_status "True" then 1 else 0))
            rows)
         result.
Proof.
  intros H Hbin Hknown Hstatus.
  pose proof (gen_health_prep_run σ df rows diab_status H) as Hrun.
  destruct (known_health_codes rows) as [ys E].
  { intros r Hr. rewrite Forall_forall in Hknown.
    apply Hknown, list_elem_of_In, Hr. }
  rewrite E in Hrun. destruct Hrun as (σ' & out & Hrun & Hout & _).
  eexists σ', out, _. split; [exact Hrun|]. split; [exact Hout|].
  rewrite filter_gen_health_rows.
  assert (Hsel : List.filter (wants diab_status) rows
                 = List.filter
                     (fun r => Diabetes_binary r
                               =? (if String.eqb diab_status "True" then 1 else 0))
                     rows).
  { apply (filter_ext_Forall _ _ _ _ Hbin). intros r Hr.
    destruct Hstatus as [-> | ->];
      [apply (wants_True_binary r Hr) | apply (wants_False_binary r Hr)]. }
  rewrite Hsel.
  assert (Hkept : Forall (fun r => is_Some (gen_hlth_mapping !! GenHlth r))
                    (List.filter
                       (fun r => Diabetes_binary r
                                 =? (if String.eqb diab_status "True" then 1 else 0))
                       rows)).
  { apply (Forall_filter_selected _ _ _ _ Hknown). auto. }
  clear -Hkept. induction Hkept as [|r kept [label Hlabel] _ IH]; simpl;
    constructor; [|exact IH].
  split; [apply gen_health_row_same|]. split.
  - exists label. split; [exact Hlabel | apply gen_health_row_assessment, Hlabel].
  - eexists. split; [apply gen_health_row_readable|].
    destruct (Diabetes_binary r =? 1) eqn:E1.
    + apply Z.eqb_eq in E1. split; intros _; [exact E1 | reflexivity].
    + apply Z.eqb_neq in E1. split; [discriminate | intros E; contradiction].
Qed.

(** ** The theorems at the sample tables *)

Lemma diabetic_salary_prep_scenario_sample :
  (exists σ',
     diabetic_salary_prep 1%positive "True" {[ 1%positive := scenario_survey ]}
     = (σ', Ok [ {| Counts.Income := 3;
                    Counts.Has_Diabetes := true;
                    Counts.Number_of_Individuals := 2;
                    Counts.Income_Bracket := "$15,000 - $20,000" |} ]))
  /\ (exists σ',
        diabetic_salary_prep 1%positive "False" {[ 1%positive := scenario_survey ]}
        = (σ', Ok [ {| Counts.Income := 3;
                       Counts.Has_Diabetes := false;
                       Counts.Number_of_Individuals := 1;
                       Counts.Income_Bracket := "$15,000 - $20,000" |} ])).
Proof.
  apply (diabetic_salary_prep_scenario {[ 1%positive := scenario_survey ]}
           1%positive (of_int 31) (of_int 24) (of_int 40) ∅ ∅ ∅).
  reflexivity.
Defined.

Lemma filter_by_trip_distance_window_sample :
  exists σ' out kept,
    filter_by_trip_distance 1%positive 10 {[ 1%positive := sample_trips ]}
    = (σ', Ok out)
    /\ σ' !! out = Some kept
    /\ forall r,
         In r kept <->
         In r sample_trips
         /\ exists d, Trip_Miles r = Finite d
                      /\ (inject_Z (10 - 1) <= d)%Q /\ (d <= inject_Z 10)%Q.
Proof.
  apply (filter_by_trip_distance_window {[ 1%positive := sample_trips ]}
           1%positive sample_trips 10); [reflexivity | lia].
Defined.

Lemma filter_by_trip_distance_frame_sample :
  exists σ1 out1 σ2 out2 kept,
    filter_by_trip_distance 1%positive 10 {[ 1%positive := sample_trips ]}
    = (σ1, Ok out1)
    /\ filter_by_trip_distance 1%positive 10 σ1 = (σ2, Ok out2)
    /\ σ1 !! 1%positive = Some sample_trips
    /\ σ2 !! 1%positive = Some sample_trips
    /\ (forall l, is_Some (({[ 1%positive := sample_trips ]}
                             : gmap loc (list TripRecord)) !! l) ->
                  σ1 !! l = ({[ 1%positive := sample_trips ]}
                             : gmap loc (list TripRecord)) !! l
                  /\ σ2 !! l = ({[ 1%positive := sample_trips ]}
                                : gmap loc (list TripRecord)) !! l)
    /\ out1 <> 1%positive
    /\ ({[ 1%positive := sample_trips ]} : gmap loc (list TripRecord)) !! out1 = None
    /\ out2 <> 1%positive /\ out2 <> out1
    /\ σ1 !! out1 = Some kept
    /\ σ2 !! out1 = Some kept
    /\ σ2 !! out2 = Some kept.
Proof.
  apply (filter_by_trip_distance_frame {[ 1%positive := sample_trips ]}
           1%positive sample_trips 10).
  reflexivity.
Defined.

Lemma bmi_ceiling_inclusive_sample :
  exists σ' out kept table,
    prepared_diabetes 1%positive 31 {[ 1%positive := scenario_survey ]}
    = (σ', Ok out)
    /\ σ' !! out = Some kept
    /\ σ' !! 1%positive = Some table
    /\ Forall2 same_survey_columns scenario_survey table
    /\ (forall r q, In r table -> BMI r = Finite q ->
                    (q == inject_Z 31)%Q -> In r kept)
    /\ (forall r q, BMI r = Finite q ->
                    (q == inject_Z (31 + 1))%Q -> ~ In r kept).
Proof.
  apply (bmi_ceiling_inclusive {[ 1%positive := scenario_survey ]}
           1%positive scenario_survey 31).
  reflexivity.
Defined.

Lemma scenario_survey_binary :
  Forall (fun r => Diabetes_binary r = 0 \/ Diabetes_binary r = 1) scenario_survey.
Proof.
  repeat (constructor; [first [left; reflexivity | right; reflexivity]|]).
  constructor.
Defined.

Lemma partitions_exhaustive_disjoint_sample :
  exists σT countsT σF countsF,
    diabetic_salary_prep 1%positive "True" {[ 1%positive := scenario_survey ]}
    = (σT, Ok countsT)
    /\ diabetic_salary_prep 1%positive "False" σT = (σF, Ok countsF)
    /\ total countsT
       = Z.of_nat (length (List.filter (fun r => Diabetes_binary r =? 1)
                             scenario_survey))
    /\ total countsF
       = Z.of_nat (length (List.filter (fun r => Diabetes_binary r =? 0)
                             scenario_survey))
    /\ total countsT + total countsF = Z.of_nat (length scenario_survey).
Proof.
  apply (partitions_exhaustive_disjoint {[ 1%positive := scenario_survey ]}
           1%positive scenario_survey).
  - reflexivity.
  - exact scenario_survey_binary.
  - repeat (constructor; [eexists; vm_compute; reflexivity|]). constructor.
Defined.

Lemma gen_health_prep_selection_sample :
  exists σ' out result,
    gen_health_prep 1%positive "True" {[ 1%positive := scenario_survey ]}
    = (σ', Ok out)
    /\ σ' !! out = Some result
    /\ Forall2
         (fun r r' =>
            same_survey_columns r r'
            /\ (exists label,
                  gen_hlth_mapping !! GenHlth r = Some label
                  /\ cols r' !! "General_Health_Assessment" = Some (VStr label))
            /\ (exists status,
                  cols r' !! "has_diabetes_human_readable" = Some (VStr status)
                  /\ (status = "Diabetic" <-> Diabetes_binary r = 1)))
         (List.filter
            (fun r => Diabetes_binary r
                      =? (if String.eqb "True" "True" then 1 else 0))
            scenario_survey)
         result.
Proof.
  apply (gen_health_prep_selection {[ 1%positive := scenario_survey ]}
           1%positive scenario_survey "True").
  - reflexivity.
  - exact scenario_survey_binary.
  - repeat (constructor; [eexists; vm_compute; reflexivity|]). constructor.
  - left. reflexivity.
Defined.

(** * Further properties of the code *)

(** ** Loading and filtering the trips *)

Lemma select_zip_with {R A B : Type} (f : A -> B -> bool) (a : R -> A) (b : R -> B)
    (rows : list R) :
  select rows (zip_with f (map a rows) (map b rows))
  = List.filter (fun r => f (a r) (b r)) rows.
Proof.
  induction rows as [|r rows IH]; simpl; [reflexivity|].
  rewrite IH. reflexivity.
Qed.

Lemma dropna_run σ df rows :
  σ !! df = Some rows ->
  dropna df σ
  = (<[fresh (dom σ) := List.filter located rows]> σ, Ok (fresh (dom σ))).
Proof.
  intros H. unfold dropna.
  rewrite (bind_Ok _ _ _ _ _ (column_run Pickup_Centroid_Longitude _ _ _ H)).
  rewrite (bind_Ok _ _ _ _ _ (column_run Pickup_Centroid_Latitude _ _ _ H)).
  rewrite (getitem_mask_run _ _ _ _ H).
  rewrite (select_zip_with (fun x y => negb (isna x || isna y))).
  reflexivity.
Qed.

(** The trip table [load_data] returns: a new object with the located rows
    of the file. *)
Lemma load_taxi_trips_run σ taxi_sample brfss2015 :
  exists σ' taxis,
    (load_data taxi_sample brfss2015).1 σ = (σ', Ok taxis)
    /\ σ' !! taxis = Some (List.filter located taxi_sample)
    /\ σ !! taxis = None
    /\ (forall l, is_Some (σ !! l) -> σ' !! l = σ !! l).
Proof.
  unfold load_data, read_csv. simpl.
  set (raw := fresh (dom σ)).
  set (σ1 := <[raw := taxi_sample]> σ).
  assert (Hnew : new_frame taxi_sample σ = (σ1, Ok raw)) by reflexivity.
  assert (H1 : σ1 !! raw = Some taxi_sample) by apply lookup_insert_eq.
  rewrite (bind_Ok _ _ _ _ _ Hnew), (dropna_run _ _ _ H1).
  eexists _, _. split; [reflexivity|]. split; [apply lookup_insert_eq|].
  assert (Hold : forall l, is_Some (σ !! l) -> σ1 !! l = σ !! l)
    by (intros l Hl; apply lookup_new_frame, Hl).
  split.
  - destruct (σ !! fresh (dom σ1)) as [rows|] eqn:E; [|reflexivity].
    exfalso. pose proof (Hold (fresh (dom σ1)) (ex_intro _ rows E)) as Hl.
    rewrite fresh_unbound, E in Hl. discriminate.
  - intros l Hl. rewrite lookup_new_frame by (rewrite Hold by exact Hl; exact Hl).
    apply Hold, Hl.
Qed.

Lemma located_iff r :
  located r = true <->
  Pickup_Centroid_Longitude r <> NaN /\ Pickup_Centroid_Latitude r <> NaN.
Proof.
  unfold located.
  destruct (Pickup_Centroid_Longitude r), (Pickup_Centroid_Latitude r); simpl;
    split; try discriminate; try (intros [? ?]; congruence);
    intros _; split; discriminate.
Qed.

(** X1. The map pipeline, [load_data] then [filter_by_trip_distance]: the
    table handed on holds exactly the rows of the trip file that have both
    pickup coordinates and a trip distance d with t - 1 <= d <= t; a row
    that misses a coordinate never reaches the map. *)
Theorem loaded_trips_filtered σ taxi_sample brfss2015 t :
  exists σ1 taxis σ2 out kept,
    (load_data taxi_sample brfss2015).1 σ = (σ1, Ok taxis)
    /\ filter_by_trip_distance taxis t σ1 = (σ2, Ok out)
    /\ σ2 !! out = Some kept
    /\ forall r,
         In r kept <->
         In r taxi_sample
         /\ Pickup_Centroid_Longitude r <> NaN
         /\ Pickup_Centroid_Latitude r <> NaN
         /\ exists d, Trip_Miles r = Finite d
                      /\ (inject_Z (t - 1) <= d)%Q /\ (d <= inject_Z t)%Q.
Proof.
  destruct (load_taxi_trips_run σ taxi_sample brfss2015)
    as (σ1 & taxis & Hload & Htaxis & _ & _).
  destruct (filter_by_trip_distance_run σ1 taxis _ t Htaxis)
    as (σ2 & out & Hrun & Hout & _ & _).
  eexists σ1, taxis, σ2, out, _.
  split; [exact Hload|]. split; [exact Hrun|]. split; [exact Hout|].
  intros r. rewrite !filter_In, between_cell, located_iff. tauto.
Qed.

(** X2. The windows of neighbouring targets share their boundary: a trip
    whose distance is exactly t miles is returned for target t and for
    target t + 1. *)
Theorem boundary_trip_in_both_windows σ df trips t r q :
  σ !! df = Some trips ->
  In r trips ->
  Trip_Miles r = Finite q ->
  (q == inject_Z t)%Q ->
  exists σ1 out1 kept1 σ2 out2 kept2,
    filter_by_trip_distance df t σ = (σ1, Ok out1)
    /\ σ1 !! out1 = Some kept1
    /\ filter_by_trip_distance df (t + 1) σ1 = (σ2, Ok out2)
    /\ σ2 !! out2 = Some kept2
    /\ In r kept1 /\ In r kept2.
Proof.
  intros H Hin Hq Heq.
  destruct (filter_by_trip_distance_run σ df trips t H)
    as (σ1 & out1 & Hrun1 & Hout1 & _ & Hold1).
  assert (H1 : σ1 !! df = Some trips) by (rewrite Hold1 by eauto; exact H).
  destruct (filter_by_trip_distance_run σ1 df trips (t + 1) H1)
    as (σ2 & out2 & Hrun2 & Hout2 & _ & _).
  eexists σ1, out1, _, σ2, out2, _.
  split; [exact Hrun1|]. split; [exact Hout1|]. split; [exact Hrun2|].
  split; [exact Hout2|].
  split; apply filter_In; (split; [exact Hin|]); apply between_cell;
    exists q; (split; [exact Hq|]); rewrite Heq, <- !Zle_Qle; lia.
Qed.

Lemma filter_sublist {A : Type} (p : A -> bool) (l : list A) :
  sublist (List.filter p l) l.
Proof.
  induction l as [|x l IH]; simpl; [constructor|].
  destruct (p x); constructor; exact IH.
Qed.

(** X4. The filtered table keeps the order of the trip table and takes
    every row at most once: its rows are a subsequence of the table's. *)
Theorem filter_by_trip_distance_sublist σ df trips t :
  σ !! df = Some trips ->
  exists σ' out kept,
    filter_by_trip_distance df t σ = (σ', Ok out)
    /\ σ' !! out = Some kept
    /\ sublist kept trips.
Proof.
  intros H.
  destruct (filter_by_trip_distance_run σ df trips t H)
    as (σ' & out & Hrun & Hout & _ & _).
  eexists σ', out, _. split; [exact Hrun|]. split; [exact Hout|].
  apply filter_sublist.
Qed.

(** A distance between 0 and 25 lies in the window of some target. *)
Lemma window_target (d : Q) :
  (0 <= d)%Q -> (d <= inject_Z 25)%Q ->
  exists t, 1 <= t <= 25 /\ (inject_Z (t - 1) <= d)%Q /\ (d <= inject_Z t)%Q.
Proof.
  intros H0 H25.
  assert (Hc25 : Qceiling d <= 25).
  { rewrite <- (Qceiling_Z 25). apply Qceiling_resp_le, H25. }
  destruct (Z_le_gt_dec 1 (Qceiling d)) as [Hc|Hc].
  - exists (Qceiling d). split; [lia|]. split.
    + apply Qlt_le_weak, Qceiling_lt.
    + apply Qle_ceiling.
  - exists 1. split; [lia|]. split; [exact H0|].
    apply Qle_trans with (inject_Z (Qceiling d)); [apply Qle_ceiling|].
    rewrite <- Zle_Qle. lia.
Qed.

(** X3. What the slider can reach: a trip of the table is returned for
    some target between 1 and 25 if and only if its distance is a number
    between 0 and 25 miles; a longer trip, a negative distance or a
    missing distance is returned for no position of the slider. *)
Theorem slider_reach σ df trips r :
  σ !! df = Some trips ->
  In r trips ->
  (exists t, 1 <= t <= 25
             /\ exists σ' out kept,
                  filter_by_trip_distance df t σ = (σ', Ok out)
                  /\ σ' !! out = Some kept
                  /\ In r kept)
  <-> exists d, Trip_Miles r = Finite d /\ (0 <= d)%Q /\ (d <= inject_Z 25)%Q.
Proof.
  intros H Hin. split.
  - intros (t & Ht & σ' & out & kept & Hrun & Hout & Hr).
    destruct (filter_by_trip_distance_run σ df trips t H)
      as (σ'' & out' & Hrun' & Hout' & _ & _).
    rewrite Hrun in Hrun'. injection Hrun' as <- <-.
    rewrite Hout in Hout'. injection Hout' as ->.
    apply filter_In in Hr as [_ Hw].
    apply between_cell in Hw as (d & Hd & Hlo & Hhi).
    exists d. split; [exact Hd|]. split.
    + apply Qle_trans with (inject_Z (t - 1)); [|exact Hlo].
      change 0%Q with (inject_Z 0). rewrite <- Zle_Qle. lia.
    + apply Qle_trans with (inject_Z t); [exact Hhi|].
      rewrite <- Zle_Qle. lia.
  - intros (d & Hd & H0 & H25).
    destruct (window_target d H0 H25) as (t & Ht & Hlo & Hhi).
    exists t. split; [exact Ht|].
    destruct (filter_by_trip_distance_run σ df trips t H)
      as (σ' & out & Hrun & Hout & _ & _).
    eexists σ', out, _. split; [exact Hrun|]. split; [exact Hout|].
    apply filter_In. split; [exact Hin|]. apply between_cell.
    exists d. auto.
Qed.

(** ** The grouped counts, key by key *)

Lemma key_eqb_rank k k' : key_eqb k k' = (rank k =? rank k').
Proof.
  destruct k as [i b], k' as [i' b']. unfold key_eqb, rank. simpl.
  destruct (Z.eqb_spec i i'), b, b'; simpl; symmetry;
    first [apply Z.eqb_eq; lia | apply Z.eqb_neq; lia].
Qed.

Lemma key_ltb_rank k k' : key_ltb k k' = (rank k <? rank k').
Proof.
  destruct k as [i b], k' as [i' b']. unfold key_ltb, rank. simpl.
  destruct (Z.ltb_spec i i'), (Z.eqb_spec i i'), b, b'; simpl; symmetry;
    first [apply Z.ltb_lt; lia | apply Z.ltb_ge; lia].
Qed.

Lemma rank_inj k k' : rank k = rank k' -> k = k'.
Proof.
  intros H. apply key_eqb_eq. rewrite key_eqb_rank. apply Z.eqb_eq, H.
Qed.

(** Case analysis on the comparisons [tally] makes. *)
Ltac compare_keys :=
  repeat match goal with
         | |- context [key_eqb ?a ?b] =>
             rewrite (key_eqb_rank a b); destruct (Z.eqb_spec (rank a) (rank b))
         | |- context [key_ltb ?a ?b] =>
             rewrite (key_ltb_rank a b); destruct (Z.ltb_spec (rank a) (rank b))
         | H : rank ?a = rank ?b |- _ => apply rank_inj in H; subst
         end.

(** Every key of the tallied table is the new key or was there. *)
Lemma tally_key_cases k acc g' :
  In g' (tally k acc) -> g'.1 = k \/ exists g, In g acc /\ g.1 = g'.1.
Proof.
  induction acc as [|[k0 n0] acc IH]; simpl.
  - intros [<-|[]]. left. reflexivity.
  - compare_keys; simpl.
    + intros [<-|Hin]; [left; reflexivity|].
      right. exists g'. split; [right; exact Hin | reflexivity].
    + intros [<-|[<-|Hin]]; [left; reflexivity | |].
      * right. exists (k0, n0). split; [left; reflexivity | reflexivity].
      * right. exists g'. split; [right; exact Hin | reflexivity].
    + intros [<-|Hin].
      * right. exists (k0, n0). split; [left; reflexivity | reflexivity].
      * destruct (IH Hin) as [Hk|(g & Hg & Hk)]; [left; exact Hk|].
        right. exists g. split; [right; exact Hg | exact Hk].
Qed.

Lemma tally_ascending k acc : ascending acc -> ascending (tally k acc).
Proof.
  unfold ascending. induction 1 as [|[k0 n0] acc Hsorted IH Hall]; simpl.
  - repeat constructor.
  - compare_keys.
    + constructor; [exact Hsorted | exact Hall].
    + constructor; [constructor; assumption|].
      constructor; [simpl; lia|].
      apply Forall_forall. intros g Hg. rewrite Forall_forall in Hall.
      specialize (Hall g Hg). simpl in *. lia.
    + constructor; [exact IH|].
      apply Forall_forall. intros g' Hg'. apply list_elem_of_In in Hg'.
      destruct (tally_key_cases _ _ _ Hg') as [->|(g & Hg & <-)]; simpl; [lia|].
      rewrite Forall_forall in Hall. apply Hall, list_elem_of_In, Hg.
Qed.

Lemma fold_tally_ascending keys acc :
  ascending acc -> ascending (fold_left (fun acc k => tally k acc) keys acc).
Proof.
  revert acc. induction keys as [|k keys IH]; intros acc Hacc; simpl;
    [exact Hacc | apply IH, tally_ascending, Hacc].
Qed.

Lemma groupby_size_ascending keys : ascending (groupby_size keys).
Proof. apply fold_tally_ascending. constructor. Qed.

(** A key below every key of an ascending table has no row in it. *)
Lemma count_for_below k acc :
  Forall (fun g : Z * bool * Z => rank k < rank g.1) acc -> count_for k acc = 0.
Proof.
  induction 1 as [|[k0 n0] acc Hlt _ IH]; simpl; [reflexivity|].
  simpl in Hlt. compare_keys; [lia | exact IH].
Qed.

Lemma count_for_tally k k' acc :
  ascending acc ->
  count_for k' (tally k acc) = count_for k' acc + (if key_eqb k' k then 1 else 0).
Proof.
  unfold ascending. induction 1 as [|[k0 n0] acc Hsorted IH Hall]; simpl.
  - compare_keys; reflexivity.
  - compare_keys; simpl; compare_keys; try lia;
      try (rewrite IH; compare_keys; first [lia | reflexivity]).
    rewrite count_for_below; [lia|].
    apply Forall_forall. intros g Hg. rewrite Forall_forall in Hall.
    specialize (Hall g Hg). simpl in *. lia.
Qed.

Lemma fold_tally_count k keys acc :
  ascending acc ->
  count_for k (fold_left (fun acc k => tally k acc) keys acc)
  = count_for k acc + occurrences k keys.
Proof.
  unfold occurrences. revert acc.
  induction keys as [|k0 keys IH]; intros acc Hacc; simpl; [lia|].
  rewrite IH by (apply tally_ascending, Hacc).
  rewrite count_for_tally by exact Hacc.
  destruct (key_eqb k k0); simpl length; lia.
Qed.

(** The count recorded for a key is the number of rows with that key. *)
Lemma groupby_size_count k keys :
  count_for k (groupby_size keys) = occurrences k keys.
Proof.
  unfold groupby_size. rewrite fold_tally_count by constructor. reflexivity.
Qed.

Lemma count_for_In k n acc :
  ascending acc -> In (k, n) acc -> count_for k acc = n.
Proof.
  unfold ascending. induction 1 as [|[k0 n0] acc Hsorted IH Hall]; simpl; [tauto|].
  intros [[= -> ->]|Hin].
  - compare_keys; [reflexivity | contradiction].
  - compare_keys; [|apply IH, Hin].
    rewrite Forall_forall in Hall.
    specialize (Hall _ (proj2 (list_elem_of_In _ _) Hin)). simpl in Hall. lia.
Qed.

(** ** The counts do not depend on the order of the rows *)

Lemma tally_comm k1 k2 acc :
  tally k1 (tally k2 acc) = tally k2 (tally k1 acc).
Proof.
  induction acc as [|[k0 n0] acc IH]; simpl;
    repeat (progress (compare_keys; simpl));
    try reflexivity; try lia; try (rewrite IH; reflexivity).
Qed.

Lemma fold_tally_perm keys keys' :
  Permutation keys keys' ->
  forall acc, fold_left (fun acc k => tally k acc) keys acc
              = fold_left (fun acc k => tally k acc) keys' acc.
Proof.
  induction 1 as [|k keys keys' _ IH|k1 k2 keys|keys1 keys2 keys3 _ IH1 _ IH2];
    intros acc; simpl.
  - reflexivity.
  - apply IH.
  - rewrite tally_comm. reflexivity.
  - rewrite IH1. apply IH2.
Qed.

Lemma groupby_size_perm keys keys' :
  Permutation keys keys' -> groupby_size keys = groupby_size keys'.
Proof. intros H. apply fold_tally_perm, H. Qed.

Lemma filter_Permutation {A : Type} (p : A -> bool) (l l' : list A) :
  Permutation l l' -> Permutation (List.filter p l) (List.filter p l').
Proof.
  induction 1 as [|x l l' _ IH|x y l|l1 l2 l3 _ IH1 _ IH2]; simpl.
  - constructor.
  - destruct (p x); [constructor|]; exact IH.
  - destruct (p x), (p y); try reflexivity. constructor.
  - etransitivity; eassumption.
Qed.

(** The keys grouped for a status, read off the two columns alone. *)
Lemma group_keys_of_pairs diab_status rows :
  map group_key (List.filter (wants diab_status) rows)
  = map (fun p : Z * Z => (p.2, negb (p.1 =? 0)))
      (List.filter
         (fun p : Z * Z => if String.eqb diab_status "True"
                           then negb (p.1 =? 0) else negb (negb (p.1 =? 0)))
         (map indicator_income rows)).
Proof.
  induction rows as [|r rows IH]; simpl; [reflexivity|].
  unfold wants at 1, has_diabetes at 1 2.
  destruct (if String.eqb diab_status "True"
            then negb (Diabetes_binary r =? 0)
            else negb (negb (Diabetes_binary r =? 0))); simpl; rewrite IH;
    reflexivity.
Qed.

(** X6. What [diabetic_salary_prep] returns (the counts, or the lookup
    error) depends only on which pairs of diabetes indicator and income
    code occur in the table and how often: the order of the rows and
    every other column, the ones earlier preparations have written
    included, make no difference. *)
Theorem counts_depend_on_pairs σ1 df1 rows1 σ2 df2 rows2 diab_status :
  σ1 !! df1 = Some rows1 ->
  σ2 !! df2 = Some rows2 ->
  Permutation (map indicator_income rows1) (map indicator_income rows2) ->
  snd (diabetic_salary_prep df1 diab_status σ1)
  = snd (diabetic_salary_prep df2 diab_status σ2).
Proof.
  intros H1 H2 Hperm.
  destruct (diabetic_salary_prep_run σ1 df1 rows1 diab_status H1) as (σ1' & -> & _).
  destruct (diabetic_salary_prep_run σ2 df2 rows2 diab_status H2) as (σ2' & -> & _).
  simpl. f_equal. rewrite !group_keys_of_pairs.
  apply groupby_size_perm, Permutation_map, filter_Permutation, Hperm.
Qed.

(** ** One row per income code *)

Lemma wants_has_diabetes diab_status r :
  wants diab_status r = true -> has_diabetes r = String.eqb diab_status "True".
Proof.
  unfold wants. destruct (String.eqb diab_status "True"), (has_diabetes r);
    simpl; congruence.
Qed.

Lemma occurrences_selected diab_status i rows :
  occurrences (i, String.eqb diab_status "True")
    (map group_key (List.filter (wants diab_status) rows))
  = Z.of_nat (length (List.filter
                        (fun r => wants diab_status r && (Income r =? i)) rows)).
Proof.
  unfold occurrences. f_equal.
  induction rows as [|r rows IH]; simpl; [reflexivity|].
  destruct (wants diab_status r) eqn:Hw; simpl; [|exact IH].
  unfold key_eqb at 1. simpl.
  rewrite (wants_has_diabetes _ _ Hw), Bool.eqb_reflx, andb_true_r, Z.eqb_sym.
  destruct (Income r =? i); simpl; rewrite IH; reflexivity.
Qed.

Lemma occurrences_positive k keys : In k keys -> 1 <= occurrences k keys.
Proof.
  unfold occurrences. intros Hin.
  assert (Hk : In k (List.filter (key_eqb k) keys))
    by (apply filter_In; split; [exact Hin | apply key_eqb_eq; reflexivity]).
  destruct (List.filter (key_eqb k) keys); [destruct Hk | simpl; lia].
Qed.

(** The grouped table of a partition: what each of its rows records. *)
Lemma grouped_partition diab_status rows g :
  In g (groupby_size (map group_key (List.filter (wants diab_status) rows))) ->
  g.1.2 = String.eqb diab_status "True"
  /\ g.2 = Z.of_nat (length (List.filter
                               (fun r => wants diab_status r && (Income r =? g.1.1))
                               rows))
  /\ 1 <= g.2.
Proof.
  set (keys := map group_key (List.filter (wants diab_status) rows)).
  intros Hg. destruct g as [[i b] n]. simpl.
  assert (Hk : In (i, b) keys).
  { apply groupby_size_keys. apply in_map_iff. exists (i, b, n). auto. }
  assert (Hb : b = String.eqb diab_status "True").
  { apply in_map_iff in Hk as (r & [= <- <-] & Hr).
    apply filter_In in Hr as [_ Hw]. apply wants_has_diabetes, Hw. }
  assert (Hn : n = occurrences (i, b) keys).
  { rewrite <- groupby_size_count. symmetry.
    apply count_for_In; [apply groupby_size_ascending | exact Hg]. }
  split; [exact Hb|]. split.
  - rewrite Hn, Hb. apply occurrences_selected.
  - rewrite Hn. apply occurrences_positive, Hk.
Qed.

Lemma ascending_incomes b (counts : list (Z * bool * Z)) :
  ascending counts ->
  Forall (fun g : Z * bool * Z => g.1.2 = b) counts ->
  StronglySorted Z.lt (map (fun g : Z * bool * Z => g.1.1) counts).
Proof.
  unfold ascending. induction 1 as [|g counts Hsorted IH Hall]; simpl; intros Hb.
  - constructor.
  - inversion Hb as [|g0 l0 Hg Hrest]; subst. constructor; [apply IH, Hrest|].
    apply Forall_map. apply Forall_forall. intros g' Hg'.
    rewrite Forall_forall in Hall, Hrest.
    specialize (Hall g' Hg'). specialize (Hrest g' Hg'). simpl in *.
    unfold rank in Hall. rewrite Hrest in Hall.
    destruct (g'.1.2); lia.
Qed.

Lemma recode_fields counts rows :
  recode counts = Ok rows ->
  map Counts.Income rows = map (fun g : Z * bool * Z => g.1.1) counts
  /\ Forall2 (fun g c => Counts.Has_Diabetes c = g.1.2
                         /\ Counts.Number_of_Individuals c = g.2
                         /\ Counts.Income c = g.1.1) counts rows.
Proof.
  intros H. apply recode_Ok in H.
  induction H as [|g c counts rows [Hc _] _ [IH1 IH2]]; simpl.
  - split; constructor.
  - split; [rewrite IH1, Hc; reflexivity|].
    constructor; [rewrite Hc; simpl; auto | exact IH2].
Qed.

(** ** The bars of the income chart *)

(** No two income codes share a label. *)
Lemma income_labels_inj k k' label :
  income_code_to_text !! k = Some label ->
  income_code_to_text !! k' = Some label ->
  k = k'.
Proof.
  unfold income_code_to_text. intros H H'.
  apply elem_of_list_to_map_2, list_elem_of_In in H.
  apply elem_of_list_to_map_2, list_elem_of_In in H'.
  simpl in H, H'.
  repeat (destruct H as [H|H]; [apply pair_equal_spec in H as [<- <-]|]);
    [..|destruct H];
    repeat (destruct H' as [H'|H']; [apply pair_equal_spec in H' as [<- ?]|]);
    first [reflexivity | discriminate | destruct H'].
Qed.

Lemma StronglySorted_lt_NoDup (l : list Z) : StronglySorted Z.lt l -> NoDup l.
Proof.
  induction 1 as [|x l _ IH Hall]; constructor; [|exact IH].
  intros Hin. rewrite Forall_forall in Hall. specialize (Hall x Hin). lia.
Qed.

Lemma recode_labels_NoDup counts rows :
  recode counts = Ok rows ->
  NoDup (map (fun g : Z * bool * Z => g.1.1) counts) ->
  NoDup (map Counts.Income_Bracket rows).
Proof.
  intros H. apply recode_Ok in H.
  induction H as [|g c counts rows [_ Hlabel] Hrest IH]; simpl; intros Hnd.
  - constructor.
  - apply NoDup_cons in Hnd as [Hnotin Hnd]. constructor; [|apply IH, Hnd].
    intros Hin. apply Hnotin. apply list_elem_of_In.
    apply list_elem_of_In, in_map_iff in Hin as (c' & Hc' & Hin).
    clear -Hrest Hin Hc' Hlabel.
    induction Hrest as [|g' c'' counts rows [_ Hl'] _ IH]; [destruct Hin|].
    destruct Hin as [->|Hin]; simpl.
    + left. rewrite <- Hc' in Hlabel. symmetry.
      exact (income_labels_inj _ _ _ Hlabel Hl').
    + right. apply IH, Hin.
Qed.

Lemma filtered_diabetes_run σ df rows diab_status σ' bars :
  σ !! df = Some rows ->
  filtered_diabetes df diab_status σ = (σ', Ok bars) ->
  exists counts,
    recode (groupby_size (map group_key (List.filter (wants diab_status) rows)))
    = Ok counts
    /\ bars = map (fun c => (Counts.Income_Bracket c, Counts.Number_of_Individuals c))
                counts.
Proof.
  intros H Hrun. unfold filtered_diabetes, bind in Hrun.
  destruct (diabetic_salary_prep_run σ df rows diab_status H) as (σ1 & Hs & _).
  rewrite Hs in Hrun.
  destruct (recode _) as [counts|e]; [|discriminate].
  injection Hrun as _ <-. exists counts. split; reflexivity.
Qed.

(** ** Running a preparation again *)

(** Two rows are the same once their named columns agree cell by cell. *)
Ltac same_cols :=
  unfold set_col; simpl; f_equal; apply map_eq; intros ?;
  repeat (rewrite lookup_insert; case_decide); subst;
  first [reflexivity | congruence].

Lemma bmi_row_idem r : bmi_row (bmi_row r) = bmi_row r.
Proof. unfold bmi_row, with_status, with_bin, has_diabetes. same_cols. Qed.

Lemma gen_health_row_idem r : gen_health_row (gen_health_row r) = gen_health_row r.
Proof.
  unfold gen_health_row, with_readable, with_assessment, with_has_diabetes,
    has_diabetes.
  same_cols.
Qed.

Lemma gen_health_row_with_has_diabetes r :
  gen_health_row (with_has_diabetes r) = gen_health_row r.
Proof.
  unfold gen_health_row, with_readable, with_assessment, with_has_diabetes,
    has_diabetes.
  same_cols.
Qed.

Lemma map_idem {A : Type} (f : A -> A) (l : list A) :
  (forall x, f (f x) = f x) -> map f (map f l) = map f l.
Proof. intros H. rewrite map_map. apply map_ext, H. Qed.

(** X8. The page script is rerun on every change of a widget. A second
    call of a preparation finds its columns already written and rewrites
    them with the same cells: [diabetic_bmi_prep] leaves the store exactly
    as its first call left it, and after a second call of
    [diabetic_salary_prep] or [gen_health_prep] the shared table is what
    the first call made of it and the call ends as the first did (the same
    counts, the same selected rows, or the same error). *)
Theorem preparations_rerun σ df rows diab_status :
  σ !! df = Some rows ->
  (exists σ1,
     diabetic_bmi_prep df σ = (σ1, Ok df)
     /\ diabetic_bmi_prep df σ1 = (σ1, Ok df))
  /\ (exists σ1 σ2 result,
        diabetic_salary_prep df diab_status σ = (σ1, result)
        /\ diabetic_salary_prep df diab_status σ1 = (σ2, result)
        /\ σ2 !! df = σ1 !! df)
  /\ (exists σ1 result1 σ2 result2,
        gen_health_prep df diab_status σ = (σ1, result1)
        /\ gen_health_prep df diab_status σ1 = (σ2, result2)
        /\ σ2 !! df = σ1 !! df
        /\ match result1, result2 with
           | Ok out1, Ok out2 => σ2 !! out2 = σ1 !! out1 /\ is_Some (σ1 !! out1)
           | Raise e1, Raise e2 => e1 = e2
           | _, _ => False
           end).
Proof.
  intros H. split; [|split].
  - eexists. split; [apply (diabetic_bmi_prep_run _ _ _ H)|].
    rewrite (diabetic_bmi_prep_run _ df (map bmi_row rows))
      by apply lookup_insert_eq.
    rewrite insert_insert_eq, (map_idem bmi_row) by apply bmi_row_idem.
    reflexivity.
  - destruct (diabetic_salary_prep_run σ df rows diab_status H)
      as (σ1 & Hrun1 & Hdf1 & _).
    destruct (diabetic_salary_prep_run σ1 df _ diab_status Hdf1)
      as (σ2 & Hrun2 & Hdf2 & _).
    rewrite filter_with_has_diabetes, map_map in Hrun2.
    rewrite (map_idem with_has_diabetes) in Hdf2 by apply with_has_diabetes_idem.
    eexists σ1, σ2, _. split; [exact Hrun1|]. split; [exact Hrun2|].
    rewrite Hdf1, Hdf2. reflexivity.
  - pose proof (gen_health_prep_run σ df rows diab_status H) as Hrun1.
    destruct (Series_apply (dict_getitem gen_hlth_mapping) (map GenHlth rows))
      as [ys|e] eqn:E.
    + destruct Hrun1 as (σ1 & out1 & Hrun1 & Hout1 & Hdf1 & _).
      pose proof (gen_health_prep_run σ1 df _ diab_status Hdf1) as Hrun2.
      rewrite map_map in Hrun2.
      change (fun x => GenHlth (gen_health_row x)) with GenHlth in Hrun2.
      rewrite E in Hrun2.
      destruct Hrun2 as (σ2 & out2 & Hrun2 & Hout2 & Hdf2 & _).
      rewrite (map_idem gen_health_row) in Hout2, Hdf2
        by apply gen_health_row_idem.
      eexists σ1, _, σ2, _. split; [exact Hrun1|]. split; [exact Hrun2|].
      split; [rewrite Hdf1, Hdf2; reflexivity|].
      split; [rewrite Hout1, Hout2; reflexivity | rewrite Hout1; eauto].
    + set (σ1 := <[df := map with_has_diabetes rows]> σ) in *.
      assert (Hdf1 : σ1 !! df = Some (map with_has_diabetes rows))
        by apply lookup_insert_eq.
      pose proof (gen_health_prep_run σ1 df _ diab_status Hdf1) as Hrun2.
      rewrite map_map in Hrun2.
      change (fun x => GenHlth (with_has_diabetes x)) with GenHlth in Hrun2.
      rewrite E in Hrun2.
      rewrite (map_idem with_has_diabetes) in Hrun2
        by apply with_has_diabetes_idem.
      eexists σ1, _, _, _. split; [exact Hrun1|]. split; [exact Hrun2|].
      split; [|reflexivity].
      unfold σ1. rewrite insert_insert_eq. reflexivity.
Qed.

(** ** The body-mass ceiling *)

Lemma float_le_of_int_mono x c c' :
  c <= c' -> float_le x (of_int c) = true -> float_le x (of_int c') = true.
Proof.
  intros Hc. rewrite !float_le_of_int_r.
  intros [->|(d & -> & Hd)]; [left; reflexivity|].
  right. exists d. split; [reflexivity|].
  apply Qle_trans with (inject_Z c); [exact Hd|]. rewrite <- Zle_Qle. exact Hc.
Qed.

(** X9. Raising the body-mass ceiling never loses a row: every row kept
    under a ceiling is kept under any higher one (the page script calls
    the preparation again for the new ceiling); and a respondent whose
    body-mass index is missing is kept under no ceiling. *)
Theorem bmi_ceiling_monotone σ df rows max_bmi max_bmi' :
  σ !! df = Some rows ->
  max_bmi <= max_bmi' ->
  exists σ1 out1 kept1 σ2 out2 kept2,
    prepared_diabetes df max_bmi σ = (σ1, Ok out1)
    /\ σ1 !! out1 = Some kept1
    /\ prepared_diabetes df max_bmi' σ1 = (σ2, Ok out2)
    /\ σ2 !! out2 = Some kept2
    /\ (forall r, In r kept1 -> In r kept2)
    /\ Forall (fun r => BMI r <> NaN) kept1.
Proof.
  intros H Hle.
  destruct (prepared_diabetes_run σ df rows max_bmi H)
    as (σ1 & out1 & Hrun1 & Hout1 & Hdf1 & _).
  destruct (prepared_diabetes_run σ1 df _ max_bmi' Hdf1)
    as (σ2 & out2 & Hrun2 & Hout2 & _ & _).
  rewrite (map_idem bmi_row) in Hout2 by apply bmi_row_idem.
  eexists σ1, out1, _, σ2, out2, _.
  split; [exact Hrun1|]. split; [exact Hout1|]. split; [exact Hrun2|].
  split; [exact Hout2|]. split.
  - intros r Hr. apply filter_In in Hr as [Hin Hr]. apply filter_In.
    split; [exact Hin | exact (float_le_of_int_mono _ _ _ Hle Hr)].
  - apply Forall_forall. intros r Hr.
    apply list_elem_of_In, filter_In in Hr as [_ Hr].
    intros E. rewrite E in Hr. discriminate.
Qed.

(** ** The two status labels *)

Lemma page_labels r :
  cols (gen_health_row (bmi_row r)) !! "Diabetic Status"
  = Some (VStr (if has_diabetes r then "Diabetic" else "Non-Diabetic"))
  /\ cols (gen_health_row (bmi_row r)) !! "has_diabetes_human_readable"
     = Some (VStr (if Diabetes_binary r =? 1 then "Diabetic" else "Non-Diabetic")).
Proof.
  unfold gen_health_row, with_readable, with_assessment, with_has_diabetes,
    bmi_row, with_status, with_bin, set_col.
  simpl. split.
  - rewrite !lookup_insert_ne by discriminate. apply lookup_insert_eq.
  - apply lookup_insert_eq.
Qed.

(** X10. The two preparations that label a respondent do not test the
    indicator in the same way: [diabetic_bmi_prep] writes "Diabetic" for
    every nonzero indicator, [gen_health_prep] only for the indicator 1.
    After both have run, the two labels of a row are equal if and only if
    its indicator is 0 or 1. *)
Theorem status_labels_agree σ df rows diab_status :
  σ !! df = Some rows ->
  Forall (fun r => is_Some (gen_hlth_mapping !! GenHlth r)) rows ->
  exists σ1 σ2 out table,
    diabetic_bmi_prep df σ = (σ1, Ok df)
    /\ gen_health_prep df diab_status σ1 = (σ2, Ok out)
    /\ σ2 !! df = Some table
    /\ Forall2
         (fun r r' =>
            same_survey_columns r r'
            /\ exists status readable,
                 cols r' !! "Diabetic Status" = Some (VStr status)
                 /\ cols r' !! "has_diabetes_human_readable" = Some (VStr readable)
                 /\ (status = readable
                     <-> Diabetes_binary r = 0 \/ Diabetes_binary r = 1))
         rows table.
Proof.
  intros H Hknown.
  pose proof (diabetic_bmi_prep_run σ df rows H) as Hbmi.
  set (σ1 := <[df := map bmi_row rows]> σ) in *.
  assert (H1 : σ1 !! df = Some (map bmi_row rows)) by apply lookup_insert_eq.
  pose proof (gen_health_prep_run σ1 df _ diab_status H1) as Hrun.
  destruct (known_health_codes (map bmi_row rows)) as [ys E].
  { intros r' Hr'. apply in_map_iff in Hr' as (r & <- & Hr).
    rewrite Forall_forall in Hknown. apply (Hknown r), list_elem_of_In, Hr. }
  rewrite E in Hrun. destruct Hrun as (σ2 & out & Hrun & _ & Hdf & _).
  eexists σ1, σ2, out, _. split; [exact Hbmi|]. split; [exact Hrun|].
  split; [exact Hdf|].
  rewrite map_map. apply Forall2_map_self. intros r.
  split; [repeat split|].
  destruct (page_labels r) as [Hs Hr]. eexists _, _.
  split; [exact Hs|]. split; [exact Hr|].
  unfold has_diabetes.
  destruct (Z.eqb_spec (Diabetes_binary r) 0) as [E0|E0],
           (Z.eqb_spec (Diabetes_binary r) 1) as [E1|E1]; simpl;
    split; intros; try discriminate; try lia; auto.
Qed.

(** ** Which lookup error is raised *)

Lemma Series_apply_first_Raise {A B : Type} (f : A -> outcome B)
    (before : list A) (x : A) (after : list A) (e : exn) :
  Forall (fun y => exists z, f y = Ok z) before ->
  f x = Raise e ->
  Series_apply f (before ++ x :: after) = Raise e.
Proof.
  intros Hbefore Hx. induction Hbefore as [|y before [z Hy] _ IH]; simpl.
  - rewrite Hx. reflexivity.
  - rewrite Hy, IH. reflexivity.
Qed.

Lemma Series_apply_Raise_split {A B : Type} (f : A -> outcome B) (s : list A) (e : exn) :
  Series_apply f s = Raise e ->
  exists before x after,
    s = before ++ x :: after
    /\ Forall (fun y => exists z, f y = Ok z) before
    /\ f x = Raise e.
Proof.
  induction s as [|y s IH]; simpl; intros H; [discriminate|].
  destruct (f y) as [z|e'] eqn:Hy.
  - destruct (Series_apply f s) as [ys|e'']; [discriminate|].
    injection H as ->. destruct IH as (before & x & after & -> & Hb & Hx);
      [reflexivity|].
    exists (y :: before), x, after.
    split; [reflexivity|]. split; [constructor; eauto | exact Hx].
  - injection H as ->. exists [], y, s.
    split; [reflexivity|]. split; [constructor | exact Hy].
Qed.

(** ** The three survey sections on the one table *)

Lemma filter_map_commute {A : Type} (p : A -> bool) (f : A -> A) (l : list A) :
  (forall x, p (f x) = p x) ->
  List.filter p (map f l) = map f (List.filter p l).
Proof.
  intros H. induction l as [|x l IH]; simpl; [reflexivity|].
  rewrite H. destruct (p x); simpl; rewrite IH; reflexivity.
Qed.

Lemma page_row_differ r :
  differ_only_in
    ["Has Diabetes"; "Has Diabetes Bin"; "Diabetic Status";
     "General_Health_Assessment"; "has_diabetes_human_readable"]
    r (page_row r).
Proof.
  unfold page_row, gen_health_row, with_readable, with_assessment, bmi_row,
    with_status, with_bin, with_has_diabetes.
  repeat (apply differ_only_in_set_col; [simpl; tauto|]).
  apply differ_only_in_refl.
Qed.

Lemma page_row_columns r :
  cols (page_row r) !! "Has Diabetes" = Some (VBool (has_diabetes r))
  /\ cols (page_row r) !! "Has Diabetes Bin" = Some (VBool (has_diabetes r))
  /\ cols (page_row r) !! "Diabetic Status"
     = Some (VStr (if has_diabetes r then "Diabetic" else "Non-Diabetic"))
  /\ cols (page_row r) !! "General_Health_Assessment"
     = Some (VStr (default EmptyString (gen_hlth_mapping !! GenHlth r)))
  /\ cols (page_row r) !! "has_diabetes_human_readable"
     = Some (VStr (if Diabetes_binary r =? 1 then "Diabetic" else "Non-Diabetic")).
Proof.
  unfold page_row, gen_health_row, with_readable, with_assessment, bmi_row,
    with_status, with_bin, with_has_diabetes, set_col.
  simpl. repeat split;
    repeat first [apply lookup_insert_eq | rewrite lookup_insert_ne by discriminate].
Qed.

(** X13. The three survey sections of the page, run in page order on the
    one loaded table whose codes all have labels: the page does not fail;
    the density chart gets the rows under the ceiling and the treemap the
    rows of its status, with their survey columns as in the file; the
    loaded table ends up with all five derived columns; and because the
    sections write into that one table, the rows handed to the density
    chart already carry the "Has Diabetes" column of the bar chart's
    preparation, and the rows handed to the treemap the "Diabetic Status"
    column of the density chart's. *)
Theorem survey_sections_compose σ df rows diabetes_status max_bmi diabetes_status_tree :
  σ !! df = Some rows ->
  Forall (fun r => is_Some (income_code_to_text !! Income r)) rows ->
  Forall (fun r => is_Some (gen_hlth_mapping !! GenHlth r)) rows ->
  exists σ' bars prepared kept applicable selected table,
    survey_sections df diabetes_status max_bmi diabetes_status_tree σ
    = (σ', Ok (bars, prepared, applicable))
    /\ σ' !! prepared = Some kept
    /\ σ' !! applicable = Some selected
    /\ σ' !! df = Some table
    /\ prepared <> df /\ applicable <> df /\ applicable <> prepared
    /\ Forall2 same_survey_columns
         (List.filter (fun r => float_le (BMI r) (of_int max_bmi)) rows) kept
    /\ Forall2 same_survey_columns
         (List.filter (wants diabetes_status_tree) rows) selected
    /\ Forall2 (differ_only_in
                  ["Has Diabetes"; "Has Diabetes Bin"; "Diabetic Status";
                   "General_Health_Assessment"; "has_diabetes_human_readable"])
         rows table
    /\ Forall (fun r => is_Some (cols r !! "Has Diabetes")
                        /\ is_Some (cols r !! "Has Diabetes Bin")
                        /\ is_Some (cols r !! "Diabetic Status")
                        /\ is_Some (cols r !! "General_Health_Assessment")
                        /\ is_Some (cols r !! "has_diabetes_human_readable"))
         table
    /\ Forall (fun r => is_Some (cols r !! "Has Diabetes")) kept
    /\ Forall (fun r => is_Some (cols r !! "Diabetic Status")) selected.
Proof.
  intros H Hincome Hhealth.
  (* the bar chart *)
  destruct (diabetic_salary_prep_run σ df rows diabetes_status H)
    as (σ1 & Hsalary & Hdf1 & _).
  destruct (known_incomes_recode rows (wants diabetes_status)) as [counts Hrec].
  { intros r Hr _. rewrite Forall_forall in Hincome.
    apply Hincome, list_elem_of_In, Hr. }
  rewrite Hrec in Hsalary.
  assert (Hbars : filtered_diabetes df diabetes_status σ
                  = (σ1, Ok (map (fun c => (Counts.Income_Bracket c,
                                            Counts.Number_of_Individuals c))
                               counts))).
  { unfold filtered_diabetes. rewrite (bind_Ok _ _ _ _ _ Hsalary). reflexivity. }
  (* the density chart *)
  destruct (prepared_diabetes_run σ1 df _ max_bmi Hdf1)
    as (σ2 & prepared & Hprepared & Hkept & Hdf2 & Hnew2).
  (* the treemap *)
  pose proof (gen_health_prep_run σ2 df _ diabetes_status_tree Hdf2) as Htree.
  destruct (known_health_codes (map bmi_row (map with_has_diabetes rows)))
    as [ys E].
  { intros r' Hr'. apply in_map_iff in Hr' as (r1 & <- & Hr1).
    apply in_map_iff in Hr1 as (r & <- & Hr).
    rewrite Forall_forall in Hhealth. apply (Hhealth r), list_elem_of_In, Hr. }
  rewrite E in Htree.
  destruct Htree as (σ3 & applicable & Htree & Hselected & Hdf3 & Hnew3 & Hold3).
  assert (Hpd : prepared <> df) by (intros ->; congruence).
  assert (Had : applicable <> df) by (intros ->; congruence).
  assert (Hap : applicable <> prepared) by (intros ->; congruence).
  assert (Hkept3 : σ3 !! prepared = σ2 !! prepared)
    by (apply Hold3; [exact Hpd | rewrite Hkept; eauto]).
  rewrite !map_map in Hdf3, Hselected.
  change (fun x => gen_health_row (bmi_row (with_has_diabetes x)))
    with page_row in Hdf3, Hselected.
  eexists σ3, _, prepared, _, applicable, _, _.
  split.
  { unfold survey_sections.
    rewrite (bind_Ok _ _ _ _ _ Hbars), (bind_Ok _ _ _ _ _ Hprepared),
      (bind_Ok _ _ _ _ _ Htree).
    reflexivity. }
  split; [rewrite Hkept3; exact Hkept|]. split; [exact Hselected|].
  split; [exact Hdf3|]. split; [exact Hpd|]. split; [exact Had|].
  split; [exact Hap|].
  split.
  { rewrite map_map.
    rewrite (filter_map_commute (fun r => float_le (BMI r) (of_int max_bmi)))
      by reflexivity.
    apply Forall2_map_self. intros r. repeat split. }
  split.
  { rewrite (filter_map_commute (wants diabetes_status_tree)) by reflexivity.
    apply Forall2_map_self. intros r. repeat split. }
  split; [apply Forall2_map_self, page_row_differ|].
  split.
  { apply Forall_map, Forall_forall. intros r _.
    destruct (page_row_columns r) as (H1 & H2 & H3 & H4 & H5).
    rewrite H1, H2, H3, H4, H5. repeat split; eauto. }
  split.
  - rewrite map_map.
    rewrite (filter_map_commute (fun r => float_le (BMI r) (of_int max_bmi)))
      by reflexivity.
    apply Forall_map, Forall_forall. intros r _.
    unfold bmi_row, with_status, with_bin, with_has_diabetes, set_col. simpl.
    rewrite !lookup_insert_ne by discriminate. rewrite lookup_insert_eq. eauto.
  - rewrite (filter_map_commute (wants diabetes_status_tree)) by reflexivity.
    apply Forall_map, Forall_forall. intros r _.
    destruct (page_row_columns r) as (_ & _ & H3 & _). rewrite H3. eauto.
Qed.

(** ** The further properties at the sample tables *)

Lemma boundary_trip_in_both_windows_sample :
  exists σ1 out1 kept1 σ2 out2 kept2,
    filter_by_trip_distance 1%positive 10 {[ 1%positive := sample_trips ]}
    = (σ1, Ok out1)
    /\ σ1 !! out1 = Some kept1
    /\ filter_by_trip_distance 1%positive (10 + 1) σ1 = (σ2, Ok out2)
    /\ σ2 !! out2 = Some kept2
    /\ In {| Pickup_Centroid_Latitude := Finite (418 # 10);
             Pickup_Centroid_Longitude := Finite (- 876 # 10);
             Trip_Miles := Finite 10 |} kept1
    /\ In {| Pickup_Centroid_Latitude := Finite (418 # 10);
             Pickup_Centroid_Longitude := Finite (- 876 # 10);
             Trip_Miles := Finite 10 |} kept2.
Proof.
  apply (boundary_trip_in_both_windows {[ 1%positive := sample_trips ]}
           1%positive sample_trips 10 _ 10).
  - reflexivity.
  - right. left. reflexivity.
  - reflexivity.
  - reflexivity.
Defined.

Lemma slider_reach_sample :
  (exists t, 1 <= t <= 25
             /\ exists σ' out kept,
                  filter_by_trip_distance 1%positive t
                    {[ 1%positive := sample_trips ]} = (σ', Ok out)
                  /\ σ' !! out = Some kept
                  /\ In {| Pickup_Centroid_Latitude := Finite (419 # 10);
                           Pickup_Centroid_Longitude := Finite (- 877 # 10);
                           Trip_Miles := Finite (19 # 2) |} kept)
  <-> exists d, Finite (19 # 2) = Finite d /\ (0 <= d)%Q /\ (d <= inject_Z 25)%Q.
Proof.
  apply (slider_reach {[ 1%positive := sample_trips ]} 1%positive sample_trips
           {| Pickup_Centroid_Latitude := Finite (419 # 10);
              Pickup_Centroid_Longitude := Finite (- 877 # 10);
              Trip_Miles := Finite (19 # 2) |}).
  - reflexivity.
  - left. reflexivity.
Defined.

Lemma filter_by_trip_distance_sublist_sample :
  exists σ' out kept,
    filter_by_trip_distance 1%positive 10 {[ 1%positive := sample_trips ]}
    = (σ', Ok out)
    /\ σ' !! out = Some kept
    /\ sublist kept sample_trips.
Proof.
  apply (filter_by_trip_distance_sublist {[ 1%positive := sample_trips ]}
           1%positive sample_trips 10).
  reflexivity.
Defined.

Lemma counts_depend_on_pairs_sample :
  snd (diabetic_salary_prep 1%positive "True" {[ 1%positive := scenario_survey ]})
  = snd (diabetic_salary_prep 2%positive "True"
           {[ 2%positive := scenario_survey_reordered ]}).
Proof.
  apply (counts_depend_on_pairs {[ 1%positive := scenario_survey ]} 1%positive
           scenario_survey {[ 2%positive := scenario_survey_reordered ]}
           2%positive scenario_survey_reordered "True").
  - reflexivity.
  - reflexivity.
  - simpl. apply perm_swap.
Defined.

Lemma preparations_rerun_sample :
  exists σ1,
    diabetic_bmi_prep 1%positive {[ 1%positive := scenario_survey ]}
    = (σ1, Ok 1%positive)
    /\ diabetic_bmi_prep 1%positive σ1 = (σ1, Ok 1%positive).
Proof.
  apply (preparations_rerun {[ 1%positive := scenario_survey ]} 1%positive
           scenario_survey "True").
  reflexivity.
Defined.

Lemma bmi_ceiling_monotone_sample :
  exists σ1 out1 kept1 σ2 out2 kept2,
    prepared_diabetes 1%positive 24 {[ 1%positive := scenario_survey ]}
    = (σ1, Ok out1)
    /\ σ1 !! out1 = Some kept1
    /\ prepared_diabetes 1%positive 31 σ1 = (σ2, Ok out2)
    /\ σ2 !! out2 = Some kept2
    /\ (forall r, In r kept1 -> In r kept2)
    /\ Forall (fun r => BMI r <> NaN) kept1.
Proof.
  apply (bmi_ceiling_monotone {[ 1%positive := scenario_survey ]} 1%positive
           scenario_survey 24 31).
  - reflexivity.
  - lia.
Defined.

Lemma scenario_survey_health_known :
  Forall (fun r => is_Some (gen_hlth_mapping !! GenHlth r)) scenario_survey.
Proof.
  repeat (constructor; [eexists; vm_compute; reflexivity|]). constructor.
Defined.

Lemma scenario_survey_income_known :
  Forall (fun r => is_Some (income_code_to_text !! Income r)) scenario_survey.
Proof.
  repeat (constructor; [eexists; vm_compute; reflexivity|]). constructor.
Defined.

Lemma status_labels_agree_sample :
  exists σ1 σ2 out table,
    diabetic_bmi_prep 1%positive {[ 1%positive := scenario_survey ]}
    = (σ1, Ok 1%positive)
    /\ gen_health_prep 1%positive "True" σ1 = (σ2, Ok out)
    /\ σ2 !! 1%positive = Some table
    /\ Forall2
         (fun r r' =>
            same_survey_columns r r'
            /\ exists status readable,
                 cols r' !! "Diabetic Status" = Some (VStr status)
                 /\ cols r' !! "has_diabetes_human_readable" = Some (VStr readable)
                 /\ (status = readable
                     <-> Diabetes_binary r = 0 \/ Diabetes_binary r = 1))
         scenario_survey table.
Proof.
  apply (status_labels_agree {[ 1%positive := scenario_survey ]} 1%positive
           scenario_survey "True").
  - reflexivity.
  - exact scenario_survey_health_known.
Defined.

Lemma survey_sections_compose_sample :
  exists σ' bars prepared applicable,
    survey_sections 1%positive "True" 31 "False"
      {[ 1%positive := scenario_survey ]}
    = (σ', Ok (bars, prepared, applicable))
    /\ prepared <> 1%positive /\ applicable <> 1%positive
    /\ applicable <> prepared.
Proof.
  destruct (survey_sections_compose {[ 1%positive := scenario_survey ]}
              1%positive scenario_survey "True" 31 "False")
    as (σ' & bars & prepared & kept & applicable & selected & table
        & Hrun & _ & _ & _ & Hpd & Had & Hap & _).
  - reflexivity.
  - exact scenario_survey_income_known.
  - exact scenario_survey_health_known.
  - exists σ', bars, prepared, applicable. auto.
Defined.

(** * The survey with float64 cells *)

(** ** Grouping keys in general *)

Section GroupingFacts.
Context {K : Type} (eqb ltb : K -> K -> bool).
Hypothesis eqb_refl : forall a, eqb a a = true.
Hypothesis eqb_sym : forall a b, eqb a b = true -> eqb b a = true.
Hypothesis eqb_trans : forall a b c, eqb a b = true -> eqb b c = true -> eqb a c = true.
Hypothesis ltb_not_eqb : forall a b, ltb a b = true -> eqb a b = false.
Hypothesis ltb_trans : forall a b c, ltb a b = true -> ltb b c = true -> ltb a c = true.
Hypothesis ltb_total : forall a b, eqb a b = false -> ltb a b = false -> ltb b a = true.
Hypothesis ltb_eqb_l : forall a b c, eqb a b = true -> ltb a c = true -> ltb b c = true.

Abbreviation tally := (tally_by eqb ltb).
Abbreviation count := (count_by eqb).
Abbreviation ascending := (ascending_by ltb).
Abbreviation occurrences := (occurrences_by eqb).

Lemma eqb_false_sym a b : eqb a b = false -> eqb b a = false.
Proof.
  intros H. destruct (eqb b a) eqn:E; [|reflexivity].
  apply eqb_sym in E. congruence.
Qed.

Lemma eqb_congr a b c : eqb a b = true -> eqb c a = eqb c b.
Proof.
  intros H. destruct (eqb c a) eqn:Ea, (eqb c b) eqn:Eb; try reflexivity.
  - rewrite (eqb_trans _ _ _ Ea H) in Eb. discriminate.
  - rewrite (eqb_trans _ _ _ Eb (eqb_sym _ _ H)) in Ea. discriminate.
Qed.

Lemma tally_by_total k acc : sum_by (tally k acc) = sum_by acc + 1.
Proof.
  unfold sum_by. induction acc as [|[k' n] acc IH]; simpl; [reflexivity|].
  destruct (eqb k k'); simpl; [lia|].
  destruct (ltb k k'); simpl; [lia|]. rewrite IH. lia.
Qed.

Lemma fold_tally_by_total keys acc :
  sum_by (fold_left (fun acc k => tally k acc) keys acc)
  = sum_by acc + Z.of_nat (length keys).
Proof.
  revert acc. induction keys as [|k keys IH]; intros acc; simpl length.
  - simpl. lia.
  - simpl fold_left. rewrite IH, tally_by_total. lia.
Qed.

(** A key of the tallied table is the new key or was there. *)
Lemma tally_by_key_cases k acc g' :
  In g' (tally k acc) -> g'.1 = k \/ exists g, In g acc /\ g.1 = g'.1.
Proof.
  induction acc as [|[k0 n0] acc IH]; simpl.
  - intros [<-|[]]. left. reflexivity.
  - destruct (eqb k k0); [|destruct (ltb k k0)]; simpl.
    + intros [<-|Hin]; right.
      * exists (k0, n0). split; [left; reflexivity | reflexivity].
      * exists g'. split; [right; exact Hin | reflexivity].
    + intros [<-|[<-|Hin]]; [left; reflexivity | |]; right.
      * exists (k0, n0). split; [left; reflexivity | reflexivity].
      * exists g'. split; [right; exact Hin | reflexivity].
    + intros [<-|Hin].
      * right. exists (k0, n0). split; [left; reflexivity | reflexivity].
      * destruct (IH Hin) as [Hk|(g & Hg & Hk)]; [left; exact Hk|].
        right. exists g. split; [right; exact Hg | exact Hk].
Qed.

(** The keys that were there stay. *)
Lemma tally_by_keeps k acc g :
  In g acc -> exists g', In g' (tally k acc) /\ g'.1 = g.1.
Proof.
  induction acc as [|[k0 n0] acc IH]; simpl; [tauto|].
  intros Hg. destruct (eqb k k0); [|destruct (ltb k k0)].
  - destruct Hg as [<-|Hg].
    + exists (k0, n0 + 1). split; [left; reflexivity | reflexivity].
    + exists g. split; [right; exact Hg | reflexivity].
  - exists g. split; [right; exact Hg | reflexivity].
  - destruct Hg as [<-|Hg].
    + exists (k0, n0). split; [left; reflexivity | reflexivity].
    + destruct (IH Hg) as (g' & Hg' & Hk). exists g'.
      split; [right; exact Hg' | exact Hk].
Qed.

(** The new key has a row. *)
Lemma tally_by_has k acc :
  exists g, In g (tally k acc) /\ eqb k g.1 = true.
Proof.
  induction acc as [|[k0 n0] acc IH]; simpl.
  - exists (k, 1). split; [left; reflexivity | apply eqb_refl].
  - destruct (eqb k k0) eqn:E; [|destruct (ltb k k0)].
    + exists (k0, n0 + 1). split; [left; reflexivity | exact E].
    + exists (k, 1). split; [left; reflexivity | apply eqb_refl].
    + destruct IH as (g & Hg & Hk). exists g. split; [right; exact Hg | exact Hk].
Qed.

Lemma fold_tally_by_sound keys acc g :
  In g (fold_left (fun acc k => tally k acc) keys acc) ->
  In g.1 keys \/ exists g0, In g0 acc /\ g0.1 = g.1.
Proof.
  revert acc. induction keys as [|k keys IH]; intros acc; simpl.
  - intros Hg. right. exists g. split; [exact Hg | reflexivity].
  - intros Hg. destruct (IH _ Hg) as [Hk|(g0 & Hg0 & Hk)]; [left; right; exact Hk|].
    destruct (tally_by_key_cases _ _ _ Hg0) as [E|(g1 & Hg1 & E)].
    + left. left. rewrite <- Hk, E. reflexivity.
    + right. exists g1. split; [exact Hg1 | congruence].
Qed.

Lemma fold_tally_by_keeps keys acc g :
  In g acc ->
  exists g', In g' (fold_left (fun acc k => tally k acc) keys acc) /\ g'.1 = g.1.
Proof.
  revert acc g. induction keys as [|k keys IH]; intros acc g Hg; simpl.
  - exists g. split; [exact Hg | reflexivity].
  - destruct (tally_by_keeps k acc g Hg) as (g1 & Hg1 & E1).
    destruct (IH _ _ Hg1) as (g' & Hg' & E'). exists g'.
    split; [exact Hg' | congruence].
Qed.

Lemma fold_tally_by_complete keys acc k :
  In k keys ->
  exists g, In g (fold_left (fun acc k => tally k acc) keys acc)
            /\ eqb k g.1 = true.
Proof.
  revert acc. induction keys as [|k0 keys IH]; intros acc; simpl; [tauto|].
  intros [->|Hk]; [|apply IH, Hk].
  destruct (tally_by_has k acc) as (g1 & Hg1 & E1).
  destruct (fold_tally_by_keeps keys _ _ Hg1) as (g & Hg & E).
  exists g. split; [exact Hg | rewrite E; exact E1].
Qed.

Lemma tally_by_ascending k acc : ascending acc -> ascending (tally k acc).
Proof.
  unfold ascending_by. induction 1 as [|[k0 n0] acc Hsorted IH Hall]; simpl.
  - repeat constructor.
  - destruct (eqb k k0) eqn:E; [|destruct (ltb k k0) eqn:L].
    + constructor; [exact Hsorted | exact Hall].
    + constructor; [constructor; assumption|].
      constructor; [exact L|].
      apply Forall_forall. intros g Hg. rewrite Forall_forall in Hall.
      exact (ltb_trans _ _ _ L (Hall g Hg)).
    + constructor; [exact IH|].
      apply Forall_forall. intros g' Hg'. apply list_elem_of_In in Hg'.
      destruct (tally_by_key_cases _ _ _ Hg') as [->|(g & Hg & <-)]; simpl.
      * apply ltb_total; [exact E | exact L].
      * rewrite Forall_forall in Hall. apply Hall, list_elem_of_In, Hg.
Qed.

Lemma fold_tally_by_ascending keys acc :
  ascending acc -> ascending (fold_left (fun acc k => tally k acc) keys acc).
Proof.
  revert acc. induction keys as [|k keys IH]; intros acc Hacc; simpl;
    [exact Hacc | apply IH, tally_by_ascending, Hacc].
Qed.

Lemma count_by_below k acc :
  Forall (fun g : K * Z => ltb k g.1 = true) acc -> count k acc = 0.
Proof.
  induction 1 as [|[k0 n0] acc Hlt _ IH]; simpl; [reflexivity|].
  simpl in Hlt. rewrite (ltb_not_eqb _ _ Hlt). exact IH.
Qed.

Lemma count_by_tally k k' acc :
  ascending acc ->
  count k' (tally k acc) = count k' acc + (if eqb k' k then 1 else 0).
Proof.
  unfold ascending_by. induction 1 as [|[k0 n0] acc Hsorted IH Hall]; simpl.
  - destruct (eqb k' k); reflexivity.
  - destruct (eqb k k0) eqn:E; [|destruct (ltb k k0) eqn:L]; simpl.
    + rewrite (eqb_congr _ _ k' E). destruct (eqb k' k0); lia.
    + destruct (eqb k' k) eqn:E'; [|lia].
      assert (Hbelow : forall g, ltb k g = true -> ltb k' g = true)
        by (intros g; apply ltb_eqb_l, eqb_sym, E').
      rewrite (ltb_not_eqb _ _ (Hbelow _ L)).
      rewrite count_by_below; [lia|].
      apply Forall_forall. intros g Hg. rewrite Forall_forall in Hall.
      apply Hbelow. exact (ltb_trans _ _ _ L (Hall g Hg)).
    + rewrite IH. destruct (eqb k' k0) eqn:E0; [|reflexivity].
      destruct (eqb k' k) eqn:E'; [|lia].
      rewrite (eqb_trans _ _ _ (eqb_sym _ _ E') E0) in E. discriminate.
Qed.

Lemma fold_count_by k keys acc :
  ascending acc ->
  count k (fold_left (fun acc k => tally k acc) keys acc)
  = count k acc + occurrences k keys.
Proof.
  unfold occurrences_by. revert acc.
  induction keys as [|k0 keys IH]; intros acc Hacc; simpl; [lia|].
  rewrite IH by (apply tally_by_ascending, Hacc).
  rewrite count_by_tally by exact Hacc.
  destruct (eqb k k0); simpl length; lia.
Qed.

Lemma count_by_In k n acc :
  ascending acc -> In (k, n) acc -> count k acc = n.
Proof.
  unfold ascending_by. induction 1 as [|[k0 n0] acc Hsorted IH Hall]; simpl; [tauto|].
  intros [[= -> ->]|Hin].
  - rewrite eqb_refl. reflexivity.
  - rewrite Forall_forall in Hall.
    specialize (Hall _ (proj2 (list_elem_of_In _ _) Hin)). simpl in Hall.
    rewrite (eqb_false_sym _ _ (ltb_not_eqb _ _ Hall)). apply IH, Hin.
Qed.

Lemma occurrences_by_positive k keys k' :
  In k' keys -> eqb k k' = true -> 1 <= occurrences k keys.
Proof.
  unfold occurrences_by. intros Hin E.
  assert (Hk : In k' (List.filter (eqb k) keys))
    by (apply filter_In; split; assumption).
  destruct (List.filter (eqb k) keys); [destruct Hk | simpl; lia].
Qed.
End GroupingFacts.

(** ** The order of the float keys *)

(** Comparisons of rationals as propositions, for [lra]. *)
Ltac rational_facts :=
  repeat match goal with
         | H : negb _ = true |- _ => apply negb_true_iff in H
         | H : negb _ = false |- _ => apply negb_false_iff in H
         | H : Qeq_bool _ _ = true |- _ => apply Qeq_bool_iff in H
         | H : Qeq_bool _ _ = false |- _ => apply Qeq_bool_neq in H
         | H : Qle_bool _ _ = true |- _ => apply Qle_bool_iff in H
         | H : Qle_bool ?a ?b = false |- _ =>
             assert (~ (a <= b)%Q)
               by (rewrite <- Qle_bool_iff, H; discriminate);
             clear H
         | |- negb _ = true => apply negb_true_iff
         | |- negb _ = false => apply negb_false_iff
         | |- Qeq_bool _ _ = true => apply Qeq_bool_iff
         | |- Qle_bool _ _ = true => apply Qle_bool_iff
         | |- Qeq_bool ?a ?b = false =>
             let E := fresh "E" in
             destruct (Qeq_bool a b) eqn:E; [exfalso | reflexivity]
         | |- Qle_bool ?a ?b = false =>
             let E := fresh "E" in
             destruct (Qle_bool a b) eqn:E; [exfalso | reflexivity]
         end;
  try lra.

Ltac float_cases :=
  repeat match goal with x : float |- _ => destruct x end;
  simpl in *; try reflexivity; try discriminate; rational_facts.

Lemma same_group_refl x : same_group x x = true.
Proof. float_cases. Qed.

Lemma same_group_sym x y : same_group x y = true -> same_group y x = true.
Proof. intros H. float_cases. Qed.

Lemma same_group_trans x y z :
  same_group x y = true -> same_group y z = true -> same_group x z = true.
Proof. intros H1 H2. float_cases. Qed.

Lemma sorts_before_not_same x y : sorts_before x y = true -> same_group x y = false.
Proof. intros H. float_cases. Qed.

Lemma sorts_before_trans x y z :
  sorts_before x y = true -> sorts_before y z = true -> sorts_before x z = true.
Proof. intros H1 H2. float_cases. Qed.

Lemma sorts_before_total x y :
  same_group x y = false -> sorts_before x y = false -> sorts_before y x = true.
Proof. intros H1 H2. float_cases. Qed.

Lemma sorts_before_same_l x y z :
  same_group x y = true -> sorts_before x z = true -> sorts_before y z = true.
Proof. intros H1 H2. float_cases. Qed.

Lemma sorts_before_same_r x y z :
  same_group y z = true -> sorts_before x y = true -> sorts_before x z = true.
Proof. intros H1 H2. float_cases. Qed.

(** On cells that are there, the group of a key is the numbers equal to it. *)
Lemma same_group_float_eqb x y :
  isna x = false -> same_group x y = float_eqb x y.
Proof. intros H. destruct x, y; simpl in *; try reflexivity. discriminate. Qed.

Lemma key_eqb_refl k : Raw.key_eqb k k = true.
Proof.
  unfold Raw.key_eqb. rewrite same_group_refl, Bool.eqb_reflx. reflexivity.
Qed.

Lemma key_eqb_parts k k' :
  Raw.key_eqb k k' = true <-> same_group k.1 k'.1 = true /\ k.2 = k'.2.
Proof.
  unfold Raw.key_eqb. rewrite andb_true_iff, Bool.eqb_true_iff. reflexivity.
Qed.

Lemma key_eqb_sym k k' : Raw.key_eqb k k' = true -> Raw.key_eqb k' k = true.
Proof.
  rewrite !key_eqb_parts. intros [H1 H2].
  split; [apply same_group_sym, H1 | congruence].
Qed.

Lemma key_eqb_trans a b c :
  Raw.key_eqb a b = true -> Raw.key_eqb b c = true -> Raw.key_eqb a c = true.
Proof.
  rewrite !key_eqb_parts. intros [H1 H2] [H3 H4].
  split; [exact (same_group_trans _ _ _ H1 H3) | congruence].
Qed.

Lemma key_ltb_parts k k' :
  Raw.key_ltb k k' = true <->
  sorts_before k.1 k'.1 = true
  \/ (same_group k.1 k'.1 = true /\ k.2 = false /\ k'.2 = true).
Proof.
  unfold Raw.key_ltb.
  rewrite orb_true_iff, !andb_true_iff, negb_true_iff. tauto.
Qed.

Lemma key_ltb_not_eqb a b : Raw.key_ltb a b = true -> Raw.key_eqb a b = false.
Proof.
  rewrite key_ltb_parts. intros H.
  destruct (Raw.key_eqb a b) eqn:E; [|reflexivity].
  apply key_eqb_parts in E as [E1 E2].
  destruct H as [H|(_ & H2 & H3)]; [|congruence].
  rewrite (sorts_before_not_same _ _ H) in E1. discriminate.
Qed.

Lemma key_ltb_trans a b c :
  Raw.key_ltb a b = true -> Raw.key_ltb b c = true -> Raw.key_ltb a c = true.
Proof.
  rewrite !key_ltb_parts. intros [H1|(H1 & Ha & Hb)] [H2|(H2 & Hb' & Hc)].
  - left. exact (sorts_before_trans _ _ _ H1 H2).
  - left. exact (sorts_before_same_r _ _ _ H2 H1).
  - left. exact (sorts_before_same_l _ _ _ (same_group_sym _ _ H1) H2).
  - congruence.
Qed.

Lemma key_ltb_total a b :
  Raw.key_eqb a b = false -> Raw.key_ltb a b = false -> Raw.key_ltb b a = true.
Proof.
  intros E L. apply key_ltb_parts.
  destruct (same_group a.1 b.1) eqn:S.
  - right. split; [apply same_group_sym, S|].
    unfold Raw.key_eqb in E. unfold Raw.key_ltb in L. rewrite S in E, L.
    destruct (sorts_before a.1 b.1), a.2, b.2; simpl in *;
      try discriminate; auto.
  - left. apply sorts_before_total; [exact S|].
    unfold Raw.key_ltb in L. destruct (sorts_before a.1 b.1); [discriminate|].
    reflexivity.
Qed.

Lemma key_ltb_eqb_l a b c :
  Raw.key_eqb a b = true -> Raw.key_ltb a c = true -> Raw.key_ltb b c = true.
Proof.
  rewrite key_eqb_parts, !key_ltb_parts. intros [E1 E2] [H|(H1 & H2 & H3)].
  - left. exact (sorts_before_same_l _ _ _ E1 H).
  - right. split; [exact (same_group_trans _ _ _ (same_group_sym _ _ E1) H1)|].
    split; congruence.
Qed.

(** ** Running the preparations on float64 cells *)

Lemma raw_setitem_run σ df rows c (s : list value) :
  σ !! df = Some rows ->
  length s = length rows ->
  Raw.setitem df c s σ = (<[df := zip_with (Raw.set_col c) s rows]> σ, Ok tt).
Proof.
  intros H Hlen. unfold Raw.setitem.
  rewrite (bind_Ok _ _ _ _ _ (rows_of_run _ _ _ H)).
  rewrite Hlen, Nat.eqb_refl. apply (set_rows_run _ _ _ _ H).
Qed.

Lemma raw_getitem_run σ df rows c :
  σ !! df = Some rows -> Raw.getitem df c σ = (σ, Series_apply (Raw.cell c) rows).
Proof.
  intros H. unfold Raw.getitem.
  rewrite (bind_Ok _ _ _ _ _ (rows_of_run _ _ _ H)). reflexivity.
Qed.

Lemma raw_add_has_diabetes_run σ df rows :
  σ !! df = Some rows ->
  Raw.add_has_diabetes df σ
  = (<[df := map Raw.with_has_diabetes rows]> σ, Ok tt).
Proof.
  intros H. unfold Raw.add_has_diabetes.
  rewrite (bind_Ok _ _ _ _ _ (column_run Raw.Diabetes_binary _ _ _ H)).
  rewrite (raw_setitem_run _ _ _ _ _ H)
    by (unfold Raw.astype_bool; rewrite !length_map; reflexivity).
  unfold Raw.astype_bool. rewrite !map_map.
  rewrite (zip_with_map_self (Raw.set_col "Has Diabetes")). reflexivity.
Qed.

Lemma raw_flagged_with_has_diabetes r : Raw.flagged (Raw.with_has_diabetes r).
Proof.
  unfold Raw.flagged, Raw.with_has_diabetes. simpl. apply lookup_insert_eq.
Qed.

Lemma raw_flagged_set_col c v r :
  c <> "Has Diabetes" -> Raw.flagged r -> Raw.flagged (Raw.set_col c v r).
Proof.
  unfold Raw.flagged. simpl. intros Hc H. rewrite lookup_insert_ne by exact Hc.
  exact H.
Qed.

Lemma raw_Forall_flagged rows : Forall Raw.flagged (map Raw.with_has_diabetes rows).
Proof.
  induction rows as [|r rows IH]; simpl; constructor;
    [apply raw_flagged_with_has_diabetes | exact IH].
Qed.

Lemma raw_has_diabetes_mask rows :
  Forall Raw.flagged rows ->
  Series_apply (Raw.cell "Has Diabetes") rows
  = Ok (map (fun r => VBool (Raw.has_diabetes r)) rows).
Proof.
  induction 1 as [|r rows Hr _ IH]; simpl; [reflexivity|].
  unfold Raw.cell at 1. rewrite Hr, IH. reflexivity.
Qed.

Lemma raw_getitem_has_diabetes {B : Type} σ df rows
    (k : list bool -> M Raw.SurveyRecord B) :
  σ !! df = Some rows ->
  Forall Raw.flagged rows ->
  bind (Raw.getitem df "Has Diabetes")
       (fun has => bind (lift (bool_series has)) k) σ
  = k (map Raw.has_diabetes rows) σ.
Proof.
  intros H Hf.
  rewrite (bind_Ok _ _ _ _ _ (eq_trans (raw_getitem_run _ _ _ _ H)
                                  (f_equal (pair σ) (raw_has_diabetes_mask _ Hf)))).
  unfold bind at 1, lift.
  rewrite <- (map_map Raw.has_diabetes VBool), bool_series_VBool. reflexivity.
Qed.

Lemma raw_diabetes_applicable_run σ df rows diab_status :
  σ !! df = Some rows ->
  Forall Raw.flagged rows ->
  exists σ' out,
    Raw.diabetes_applicable df diab_status σ = (σ', Ok out)
    /\ σ' !! out = Some (List.filter (Raw.wants diab_status) rows)
    /\ σ !! out = None
    /\ (forall l, is_Some (σ !! l) -> σ' !! l = σ !! l).
Proof.
  intros H Hf. unfold Raw.diabetes_applicable, Raw.wants.
  destruct (String.eqb diab_status "True").
  - destruct (mask_copy_run σ df rows (map Raw.has_diabetes rows) H)
      as (σ' & out & Hrun & Hout & Hnew & Hold).
    exists σ', out. rewrite select_map in Hout.
    split; [|split; [exact Hout | split; assumption]].
    rewrite (raw_getitem_has_diabetes _ _ _ _ H Hf). exact Hrun.
  - destruct (mask_copy_run σ df rows (invert (map Raw.has_diabetes rows)) H)
      as (σ' & out & Hrun & Hout & Hnew & Hold).
    exists σ', out. rewrite select_invert_map in Hout.
    split; [|split; [exact Hout | split; assumption]].
    rewrite (raw_getitem_has_diabetes _ _ _ _ H Hf). exact Hrun.
Qed.

Lemma raw_zip_group_key rows :
  zip (map Raw.Income rows) (map Raw.has_diabetes rows) = map Raw.group_key rows.
Proof.
  induction rows as [|r rows IH]; [reflexivity|].
  change (Raw.group_key r :: zip (map Raw.Income rows) (map Raw.has_diabetes rows)
          = Raw.group_key r :: map Raw.group_key rows).
  rewrite IH. reflexivity.
Qed.

Lemma raw_diabetes_counts_run σ applicable rows :
  σ !! applicable = Some rows ->
  Forall Raw.flagged rows ->
  Raw.diabetes_counts applicable σ
  = (σ, Raw.recode (Raw.groupby_size (map Raw.group_key rows))).
Proof.
  intros H Hf. unfold Raw.diabetes_counts.
  rewrite (bind_Ok _ _ _ _ _ (column_run Raw.Income _ _ _ H)).
  rewrite (raw_getitem_has_diabetes _ _ _ _ H Hf).
  cbv zeta. rewrite raw_zip_group_key. unfold bind, lift, Raw.recode, ret.
  destruct (Series_apply _ _); reflexivity.
Qed.

Lemma raw_filter_with_has_diabetes diab_status rows :
  List.filter (Raw.wants diab_status) (map Raw.with_has_diabetes rows)
  = map Raw.with_has_diabetes (List.filter (Raw.wants diab_status) rows).
Proof. apply filter_map_commute. reflexivity. Qed.

(** What a call of [diabetic_salary_prep] returns and leaves in the store. *)
Lemma raw_diabetic_salary_prep_run σ df rows diab_status :
  σ !! df = Some rows ->
  exists σ',
    Raw.diabetic_salary_prep df diab_status σ
    = (σ', Raw.recode (Raw.groupby_size
                         (map Raw.group_key
                            (List.filter (Raw.wants diab_status) rows))))
    /\ σ' !! df = Some (map Raw.with_has_diabetes rows)
    /\ (forall l, l <> df -> is_Some (σ !! l) -> σ' !! l = σ !! l).
Proof.
  intros H. unfold Raw.diabetic_salary_prep.
  rewrite (bind_Ok _ _ _ _ _ (raw_add_has_diabetes_run _ _ _ H)).
  set (σ1 := <[df := map Raw.with_has_diabetes rows]> σ).
  assert (H1 : σ1 !! df = Some (map Raw.with_has_diabetes rows))
    by apply lookup_insert_eq.
  destruct (raw_diabetes_applicable_run σ1 df _ diab_status H1
              (raw_Forall_flagged rows))
    as (σ2 & out & Hrun & Hout & Hnew & Hold).
  assert (Hσ1 : forall l, l <> df -> σ1 !! l = σ !! l)
    by (intros l Hne; apply lookup_insert_ne; congruence).
  exists σ2. rewrite (bind_Ok _ _ _ _ _ Hrun).
  rewrite raw_filter_with_has_diabetes in Hout.
  split; [|split].
  - rewrite (raw_diabetes_counts_run _ _ _ Hout) by apply raw_Forall_flagged.
    rewrite map_map. reflexivity.
  - rewrite Hold by eauto. exact H1.
  - intros l Hne Hl. rewrite Hold by (rewrite (Hσ1 l Hne); exact Hl).
    apply Hσ1, Hne.
Qed.

Lemma assessments_Ok xs ys :
  Series_apply Raw.assessment xs = Ok ys -> ys = map Raw.label_of xs.
Proof.
  intros H. apply Series_apply_Ok in H.
  induction H as [|x y xs ys Hxy _ IH]; simpl; [reflexivity|].
  rewrite <- IH. unfold Raw.label_of. rewrite Hxy. reflexivity.
Qed.

Lemma raw_flagged_gen_health_rows rows :
  Forall Raw.flagged (map Raw.gen_health_row rows).
Proof.
  induction rows as [|r rows IH]; simpl; constructor; [|exact IH].
  unfold Raw.gen_health_row, Raw.with_readable, Raw.with_assessment.
  do 2 (apply raw_flagged_set_col; [discriminate|]).
  apply raw_flagged_with_has_diabetes.
Qed.

(** What a call of [gen_health_prep] does: a cell that line 81 cannot
    label ends it with the boolean column already written; otherwise the
    three columns are written and the selected rows are returned as a new
    table. *)
Lemma raw_gen_health_prep_run σ df rows diab_status :
  σ !! df = Some rows ->
  match Series_apply Raw.assessment (map Raw.GenHlth rows) with
  | Raise e =>
      Raw.gen_health_prep df diab_status σ
      = (<[df := map Raw.with_has_diabetes rows]> σ, Raise e)
  | Ok _ =>
      exists σ' out,
        Raw.gen_health_prep df diab_status σ = (σ', Ok out)
        /\ σ' !! out
           = Some (List.filter (Raw.wants diab_status)
                     (map Raw.gen_health_row rows))
        /\ σ' !! df = Some (map Raw.gen_health_row rows)
        /\ σ !! out = None
        /\ (forall l, l <> df -> is_Some (σ !! l) -> σ' !! l = σ !! l)
  end.
Proof.
  intros H. unfold Raw.gen_health_prep.
  rewrite (bind_Ok _ _ _ _ _ (raw_add_has_diabetes_run _ _ _ H)).
  set (rows1 := map Raw.with_has_diabetes rows).
  set (σ1 := <[df := rows1]> σ).
  assert (H1 : σ1 !! df = Some rows1) by apply lookup_insert_eq.
  rewrite (bind_Ok _ _ _ _ _ (column_run Raw.GenHlth _ _ _ H1)).
  assert (Hcol : map Raw.GenHlth rows1 = map Raw.GenHlth rows)
    by (unfold rows1; rewrite map_map; reflexivity).
  rewrite Hcol.
  destruct (Series_apply Raw.assessment (map Raw.GenHlth rows)) as [ys|e] eqn:E.
  - unfold bind at 1, lift.
    apply assessments_Ok in E. rewrite <- Hcol in E. subst ys.
    set (rows2 := map Raw.with_assessment rows1).
    assert (Hset2 : Raw.setitem df "General_Health_Assessment"
                      (map VStr (map Raw.label_of (map Raw.GenHlth rows1))) σ1
                    = (<[df := rows2]> σ1, Ok tt)).
    { rewrite (raw_setitem_run _ _ _ _ _ H1) by (rewrite !length_map; reflexivity).
      rewrite !map_map.
      rewrite (zip_with_map_self (Raw.set_col "General_Health_Assessment")).
      reflexivity. }
    rewrite (bind_Ok _ _ _ _ _ Hset2).
    set (σ2 := <[df := rows2]> σ1).
    assert (H2 : σ2 !! df = Some rows2) by apply lookup_insert_eq.
    rewrite (bind_Ok _ _ _ _ _ (column_run Raw.Diabetes_binary _ _ _ H2)).
    unfold bind at 1, lift. rewrite Series_apply_total.
    set (rows3 := map Raw.with_readable rows2).
    assert (Hset3 : Raw.setitem df "has_diabetes_human_readable"
                      (map VStr (map (fun x : float =>
                                        if float_eqb x (of_int 1)
                                        then "Diabetic" else "Non-Diabetic")
                                   (map Raw.Diabetes_binary rows2))) σ2
                    = (<[df := rows3]> σ2, Ok tt)).
    { rewrite (raw_setitem_run _ _ _ _ _ H2) by (rewrite !length_map; reflexivity).
      rewrite !map_map.
      rewrite (zip_with_map_self (Raw.set_col "has_diabetes_human_readable")).
      reflexivity. }
    rewrite (bind_Ok _ _ _ _ _ Hset3).
    set (σ3 := <[df := rows3]> σ2).
    assert (Hrows3 : rows3 = map Raw.gen_health_row rows)
      by (unfold rows3, rows2, rows1; rewrite !map_map; reflexivity).
    assert (H3 : σ3 !! df = Some (map Raw.gen_health_row rows))
      by (rewrite <- Hrows3; apply lookup_insert_eq).
    destruct (raw_diabetes_applicable_run σ3 df _ diab_status H3
                (raw_flagged_gen_health_rows rows))
      as (σ' & out & Hrun & Hout & Hnew & Hold).
    assert (Hσ3 : forall l, l <> df -> σ3 !! l = σ !! l).
    { intros l Hne. unfold σ3, σ2, σ1.
      rewrite !lookup_insert_ne by congruence. reflexivity. }
    exists σ', out. split; [exact Hrun|]. split; [exact Hout|].
    split; [rewrite Hold by eauto; exact H3|]. split.
    + destruct (decide (out = df)) as [->|Hne]; [congruence|].
      rewrite <- (Hσ3 out Hne). exact Hnew.
    + intros l Hne Hl. rewrite Hold by (rewrite (Hσ3 l Hne); exact Hl).
      apply Hσ3, Hne.
  - reflexivity.
Qed.

(** ** The grouped counts of float keys *)

Lemma raw_groupby_ascending keys :
  ascending_by Raw.key_ltb (Raw.groupby_size keys).
Proof.
  unfold Raw.groupby_size.
  apply (fold_tally_by_ascending Raw.key_eqb Raw.key_ltb key_ltb_trans key_ltb_total).
  constructor.
Qed.

(** A row of the grouped table has the key of one of the rows grouped, and
    that key is not missing. *)
Lemma raw_groupby_sound keys g :
  In g (Raw.groupby_size keys) -> In g.1 keys /\ isna g.1.1 = false.
Proof.
  unfold Raw.groupby_size. intros Hg.
  apply fold_tally_by_sound in Hg as [Hk|(g0 & [] & _)].
  apply filter_In in Hk as [Hin Hna]. split; [exact Hin|].
  apply negb_true_iff, Hna.
Qed.

(** Every key that is not missing has a row. *)
Lemma raw_groupby_complete keys k :
  In k keys -> isna k.1 = false ->
  exists g, In g (Raw.groupby_size keys) /\ Raw.key_eqb k g.1 = true.
Proof.
  intros Hin Hna. unfold Raw.groupby_size.
  apply (fold_tally_by_complete Raw.key_eqb Raw.key_ltb key_eqb_refl).
  apply filter_In. split; [exact Hin | rewrite Hna; reflexivity].
Qed.

(** The count of a row is the number of rows grouped under its key. *)
Lemma raw_groupby_count keys k n :
  In (k, n) (Raw.groupby_size keys) ->
  n = occurrences_by Raw.key_eqb k
        (List.filter (fun k : float * bool => negb (isna k.1)) keys).
Proof.
  intros Hg.
  rewrite <- (count_by_In Raw.key_eqb Raw.key_ltb key_eqb_refl key_eqb_sym
                key_ltb_not_eqb k n _ (raw_groupby_ascending keys) Hg).
  unfold Raw.groupby_size.
  rewrite (fold_count_by Raw.key_eqb Raw.key_ltb key_eqb_sym key_eqb_trans
             key_ltb_not_eqb key_ltb_trans key_ltb_total key_ltb_eqb_l)
    by constructor.
  reflexivity.
Qed.

Lemma raw_groupby_total keys :
  sum_by (Raw.groupby_size keys)
  = Z.of_nat (length (List.filter (fun k : float * bool => negb (isna k.1)) keys)).
Proof.
  unfold Raw.groupby_size. rewrite fold_tally_by_total. reflexivity.
Qed.

(** ** Looking a float up *)

Lemma whole_spec q k : whole q = Some k <-> (q == inject_Z k)%Q.
Proof.
  unfold whole, truncate, Qeq. destruct q as [n d]. simpl.
  rewrite Z.mul_1_r. split.
  - destruct (Z.eqb_spec (Z.rem n (Z.pos d)) 0) as [E|E]; [|discriminate].
    intros [= <-].
    pose proof (Z.quot_rem' n (Z.pos d)) as H. rewrite E in H. lia.
  - intros ->. rewrite Z.rem_mul by lia. simpl.
    rewrite Z.quot_mul by lia. reflexivity.
Qed.

Lemma whole_same q q' : (q == q')%Q -> whole q = whole q'.
Proof.
  intros E. destruct (whole q) as [k|] eqn:Hq.
  - symmetry. apply whole_spec. rewrite <- E. apply whole_spec, Hq.
  - destruct (whole q') as [k|] eqn:Hq'; [|reflexivity].
    apply whole_spec in Hq'. rewrite <- E in Hq'. apply whole_spec in Hq'.
    congruence.
Qed.

(** A float finds a label exactly when it is a whole number that is a key. *)
Lemma dict_getitem_float_Ok d x label :
  dict_getitem_float d x = Ok label <->
  exists q k, x = Finite q /\ (q == inject_Z k)%Q /\ d !! k = Some label.
Proof.
  unfold dict_getitem_float. split.
  - destruct x as [q| | |]; try discriminate.
    destruct (whole q) as [k|] eqn:Hq; [|discriminate].
    destruct (d !! k) as [v|] eqn:Hk; [|discriminate].
    intros [= <-]. exists q, k. split; [reflexivity|].
    split; [apply whole_spec, Hq | exact Hk].
  - intros (q & k & -> & Hq & Hk). apply whole_spec in Hq.
    rewrite Hq, Hk. reflexivity.
Qed.

Lemma dict_getitem_float_Raise d x e :
  dict_getitem_float d x = Raise e -> e = KeyError (KFloat x).
Proof.
  unfold dict_getitem_float. destruct x as [q| | |]; try congruence.
  destruct (whole q); [destruct (d !! z)|]; congruence.
Qed.

(** Floats of one group find the same label or none. *)
Lemma dict_getitem_float_same d x y label :
  same_group x y = true ->
  dict_getitem_float d x = Ok label -> dict_getitem_float d y = Ok label.
Proof.
  intros Hsame. rewrite !dict_getitem_float_Ok.
  intros (q & k & -> & Hq & Hk).
  destruct y as [q'| | |]; try discriminate. simpl in Hsame.
  apply Qeq_bool_iff in Hsame. exists q', k.
  split; [reflexivity|]. split; [rewrite <- Hsame; exact Hq | exact Hk].
Qed.

(** ** Recoding grouped float keys *)

Lemma raw_recode_Ok counts rows :
  Raw.recode counts = Ok rows ->
  Forall2 (fun g c =>
             c = Raw.counts_row g (Raw.Counts.Income_Bracket c)
             /\ dict_getitem_float income_code_to_text g.1.1
                = Ok (Raw.Counts.Income_Bracket c))
    counts rows.
Proof.
  unfold Raw.recode.
  destruct (Series_apply _ _) as [brackets|e] eqn:E; [|discriminate].
  intros [= <-]. apply Series_apply_Ok in E. revert brackets E.
  induction counts as [|g counts IH]; intros brackets H; simpl in *.
  - inversion H. constructor.
  - inversion H as [|x y xs ys Hxy Hrest]; subst. simpl.
    constructor; [split; [reflexivity | exact Hxy] | apply IH, Hrest].
Qed.

Lemma raw_recode_Raise counts e :
  Raw.recode counts = Raise e ->
  exists g, In g counts
            /\ dict_getitem_float income_code_to_text g.1.1 = Raise e
            /\ e = KeyError (KFloat g.1.1).
Proof.
  unfold Raw.recode.
  destruct (Series_apply _ _) as [brackets|e'] eqn:E; [discriminate|].
  intros [= ->]. apply Series_apply_Raise in E as (x & Hin & Hx).
  apply in_map_iff in Hin as (g & <- & Hg). exists g.
  split; [exact Hg|]. split; [exact Hx | exact (dict_getitem_float_Raise _ _ _ Hx)].
Qed.

Lemma raw_recode_fields counts rows :
  Raw.recode counts = Ok rows ->
  Forall2 (fun g c => Raw.Counts.Income c = g.1.1
                      /\ Raw.Counts.Has_Diabetes c = g.1.2
                      /\ Raw.Counts.Number_of_Individuals c = g.2
                      /\ dict_getitem_float income_code_to_text g.1.1
                         = Ok (Raw.Counts.Income_Bracket c))
    counts rows.
Proof.
  intros H. apply raw_recode_Ok in H.
  induction H as [|g c counts rows [Hc Hl] _ IH]; constructor; [|exact IH].
  rewrite Hc. simpl. rewrite Hc in Hl. simpl in Hl. auto.
Qed.

Lemma raw_wants_has_diabetes diab_status r :
  Raw.wants diab_status r = true ->
  Raw.has_diabetes r = String.eqb diab_status "True".
Proof.
  unfold Raw.wants.
  destruct (String.eqb diab_status "True"), (Raw.has_diabetes r);
    simpl; congruence.
Qed.

(** The grouped table of a partition has a row for exactly the incomes of
    the selected rows whose income cell is there. *)
Lemma raw_grouped_incomes diab_status rows x :
  (exists g, In g (Raw.groupby_size
                     (map Raw.group_key
                        (List.filter (Raw.wants diab_status) rows)))
             /\ same_group x g.1.1 = true /\ isna x = false)
  <-> exists r, In r rows /\ Raw.wants diab_status r = true
                /\ isna (Raw.Income r) = false
                /\ same_group x (Raw.Income r) = true.
Proof.
  split.
  - intros (g & Hg & Hsame & Hx).
    apply raw_groupby_sound in Hg as [Hk Hna].
    apply in_map_iff in Hk as (r & Hkey & Hr).
    apply filter_In in Hr as [Hin Hw]. exists r.
    rewrite <- Hkey in Hsame, Hna. simpl in Hsame, Hna. auto.
  - intros (r & Hin & Hw & Hna & Hsame).
    destruct (raw_groupby_complete
                (map Raw.group_key (List.filter (Raw.wants diab_status) rows))
                (Raw.group_key r)) as (g & Hg & Hkey).
    + apply in_map, filter_In. auto.
    + exact Hna.
    + exists g. split; [exact Hg|]. apply key_eqb_parts in Hkey as [Hkey _].
      simpl in Hkey. split; [exact (same_group_trans _ _ _ Hsame Hkey)|].
      destruct x; simpl in *; try reflexivity.
      destruct (Raw.Income r); discriminate.
Qed.

(** ** Cells without a label *)

Lemma assessment_Ok x label :
  Raw.assessment x = Ok label <->
  exists q, x = Finite q /\ gen_hlth_mapping !! truncate q = Some label.
Proof.
  unfold Raw.assessment, Raw.int, dict_getitem. split.
  - destruct x as [q| | |]; try discriminate.
    destruct (gen_hlth_mapping !! truncate q) as [v|] eqn:E; [|discriminate].
    intros [= <-]. exists q. split; [reflexivity | exact E].
  - intros (q & -> & E). rewrite E. reflexivity.
Qed.

Lemma assessment_Raise x e :
  Raw.assessment x = Raise e ->
  (x = NaN /\ e = ValueError)
  \/ ((x = PosInf \/ x = NegInf) /\ e = OverflowError)
  \/ exists q, x = Finite q /\ e = KeyError (KInt (truncate q))
               /\ gen_hlth_mapping !! truncate q = None.
Proof.
  unfold Raw.assessment, Raw.int, dict_getitem.
  destruct x as [q| | |].
  - destruct (gen_hlth_mapping !! truncate q) eqn:E; [discriminate|].
    intros [= <-]. right. right. exists q. auto.
  - intros [= <-]. right. left. auto.
  - intros [= <-]. right. left. auto.
  - intros [= <-]. left. auto.
Qed.

Lemma raw_gen_health_row_assessment r label :
  Raw.assessment (Raw.GenHlth r) = Ok label ->
  Raw.cols (Raw.gen_health_row r) !! "General_Health_Assessment" = Some (VStr label).
Proof.
  intros H. unfold Raw.gen_health_row, Raw.with_readable, Raw.with_assessment.
  simpl. rewrite lookup_insert_ne by discriminate.
  rewrite lookup_insert_eq. unfold Raw.label_of. rewrite H. reflexivity.
Qed.

Lemma raw_filter_gen_health_rows diab_status rows :
  List.filter (Raw.wants diab_status) (map Raw.gen_health_row rows)
  = map Raw.gen_health_row (List.filter (Raw.wants diab_status) rows).
Proof. apply filter_map_commute. reflexivity. Qed.




(** ** Which error is raised *)

(** X11. [gen_health_prep] stops at the first general-health cell, in table
    order, that gets no label: the cells before it only have to have an
    integer part that is a key (2.5 passes as 2), and the error is that
    cell's, ValueError for a missing cell, OverflowError for an infinite
    one and otherwise the lookup error of its integer part.  At that
    point the table it was given has received the "Has Diabetes" column
    and nothing else, and no table has been created. *)
Theorem gen_health_prep_first_failure σ df before r after diab_status e :
  σ !! df = Some (before ++ r :: after) ->
  Forall (fun r' => exists label, Raw.assessment (Raw.GenHlth r') = Ok label)
    before ->
  Raw.assessment (Raw.GenHlth r) = Raise e ->
  Raw.gen_health_prep df diab_status σ
  = (<[df := map Raw.with_has_diabetes (before ++ r :: after)]> σ, Raise e)
  /\ ((Raw.GenHlth r = NaN /\ e = ValueError)
      \/ ((Raw.GenHlth r = PosInf \/ Raw.GenHlth r = NegInf) /\ e = OverflowError)
      \/ exists q, Raw.GenHlth r = Finite q
                   /\ e = KeyError (KInt (truncate q))
                   /\ gen_hlth_mapping !! truncate q = None).
Proof.
  intros H Hbefore Hr. split; [|exact (assessment_Raise _ _ Hr)].
  pose proof (raw_gen_health_prep_run σ df _ diab_status H) as Hrun.
  rewrite map_app in Hrun. simpl in Hrun.
  rewrite (Series_apply_first_Raise _ _ _ _ e) in Hrun; [exact Hrun | | exact Hr].
  apply Forall_map. exact Hbefore.
Qed.

Lemma gen_health_prep_first_failure_sample :
  Raw.gen_health_prep 1%positive "False" {[ 1%positive := mixed_health_survey ]}
  = (<[1%positive := map Raw.with_has_diabetes mixed_health_survey]>
       {[ 1%positive := mixed_health_survey ]},
     Raise (KeyError (KInt 6))).
Proof.
  apply (gen_health_prep_first_failure {[ 1%positive := mixed_health_survey ]}
           1%positive
           [Raw.respondent (of_int 0) (of_int 3) (Finite (5 # 2)) (of_int 24)]
           (Raw.respondent (of_int 1) (of_int 5) (of_int 6) (of_int 31))
           [Raw.respondent (of_int 1) (of_int 5) (of_int 7) (of_int 31)]
           "False" (KeyError (KInt 6))).
  - reflexivity.
  - constructor; [eexists; vm_compute; reflexivity | constructor].
  - vm_compute. reflexivity.
Defined.

Lemma first_failure_least (G : list (float * bool * Z)) e :
  ascending_by Raw.key_ltb G ->
  Series_apply (dict_getitem_float income_code_to_text)
    (map (fun g : float * bool * Z => g.1.1) G) = Raise e ->
  exists g, In g G
            /\ dict_getitem_float income_code_to_text g.1.1 = Raise e
            /\ forall g', In g' G ->
                 (forall label,
                    dict_getitem_float income_code_to_text g'.1.1 <> Ok label) ->
                 g' = g \/ Raw.key_ltb g.1 g'.1 = true.
Proof.
  unfold ascending_by. induction 1 as [|g0 G Hsorted IH Hall]; simpl; [discriminate|].
  destruct (dict_getitem_float income_code_to_text g0.1.1) as [label|e0] eqn:E0.
  - destruct (Series_apply _ _) as [ys|e'] eqn:E; [discriminate|].
    intros [= ->]. destruct IH as (g & Hg & Hraise & Hleast); [reflexivity|].
    exists g. split; [right; exact Hg|]. split; [exact Hraise|].
    intros g' [<-|Hg'] Hunknown; [exfalso; exact (Hunknown _ E0)|].
    apply Hleast; assumption.
  - intros [= ->]. exists g0. split; [left; reflexivity|]. split; [exact E0|].
    intros g' [<-|Hg'] _; [left; reflexivity|]. right.
    rewrite Forall_forall in Hall. apply Hall, list_elem_of_In, Hg'.
Qed.

Lemma not_sorts_before_le x y :
  isna x = false -> isna y = false ->
  sorts_before y x = false -> float_le x y = true.
Proof. intros Hx Hy H. float_cases. Qed.

(** X12. When [diabetic_salary_prep] fails, the error names the least
    income without a label among the income cells of the selected
    partition that are there (the grouped table is recoded in increasing
    order of the incomes, and missing cells are in no group). *)
Theorem diabetic_salary_prep_least_unlabelled σ df rows diab_status σ' e :
  σ !! df = Some rows ->
  Raw.diabetic_salary_prep df diab_status σ = (σ', Raise e) ->
  exists x,
    e = KeyError (KFloat x)
    /\ isna x = false
    /\ (forall label, dict_getitem_float income_code_to_text x <> Ok label)
    /\ (exists r, In r rows /\ Raw.wants diab_status r = true
                  /\ float_eqb (Raw.Income r) x = true)
    /\ (forall r, In r rows -> Raw.wants diab_status r = true ->
                  isna (Raw.Income r) = false ->
                  (forall label,
                     dict_getitem_float income_code_to_text (Raw.Income r)
                     <> Ok label) ->
                  float_le x (Raw.Income r) = true).
Proof.
  intros H Hrun.
  destruct (raw_diabetic_salary_prep_run σ df rows diab_status H)
    as (σ'' & Hrun' & _).
  rewrite Hrun in Hrun'. injection Hrun' as _ Hrec. symmetry in Hrec.
  set (G := Raw.groupby_size
              (map Raw.group_key (List.filter (Raw.wants diab_status) rows))) in *.
  unfold Raw.recode in Hrec.
  destruct (Series_apply _ _) as [brackets|e'] eqn:E; [discriminate|].
  injection Hrec as ->.
  destruct (first_failure_least G e (raw_groupby_ascending _) E)
    as (g & Hg & Hraise & Hleast).
  pose proof (raw_groupby_sound _ _ Hg) as [_ Hna].
  exists g.1.1. split; [exact (dict_getitem_float_Raise _ _ _ Hraise)|].
  split; [exact Hna|]. split; [intros label Hl; congruence|]. split.
  - destruct (proj1 (raw_grouped_incomes diab_status rows g.1.1))
      as (r & Hin & Hw & Hr & Hsame).
    { exists g. split; [exact Hg|]. split; [apply same_group_refl | exact Hna]. }
    exists r. split; [exact Hin|]. split; [exact Hw|].
    rewrite <- same_group_float_eqb by exact Hr.
    apply same_group_sym, Hsame.
  - intros r Hin Hw Hr Hunknown.
    destruct (proj2 (raw_grouped_incomes diab_status rows (Raw.Income r)))
      as (g' & Hg' & Hsame & _).
    { exists r. split; [exact Hin|]. split; [exact Hw|]. split; [exact Hr|].
      apply same_group_refl. }
    apply not_sorts_before_le; [exact Hna | exact Hr|].
    destruct (sorts_before (Raw.Income r) g.1.1) eqn:Hbefore; [exfalso|reflexivity].
    pose proof (sorts_before_same_l _ _ _ Hsame Hbefore) as Hb'.
    assert (forall label,
              dict_getitem_float income_code_to_text g'.1.1 <> Ok label)
      as Hunknown'.
    { intros label Hl.
      exact (Hunknown label
               (dict_getitem_float_same _ _ _ _ (same_group_sym _ _ Hsame) Hl)). }
    destruct (Hleast g' Hg' Hunknown') as [Heq|Hlt].
    + subst g'. pose proof (sorts_before_not_same _ _ Hb').
      pose proof (same_group_refl g.1.1). congruence.
    + apply key_ltb_parts in Hlt as [Hlt|(Hlt & _)].
      * pose proof (sorts_before_not_same _ _ (sorts_before_trans _ _ _ Hlt Hb')).
        pose proof (same_group_refl g.1.1). congruence.
      * pose proof (sorts_before_not_same _ _ Hb') as Hns.
        rewrite (same_group_sym _ _ Hlt) in Hns. discriminate.
Qed.

Lemma diabetic_salary_prep_least_unlabelled_sample :
  exists x,
    KeyError (KFloat (Finite 98)) = KeyError (KFloat x)
    /\ isna x = false
    /\ (forall label, dict_getitem_float income_code_to_text x <> Ok label)
    /\ (exists r, In r unknown_incomes_survey /\ Raw.wants "True" r = true
                  /\ float_eqb (Raw.Income r) x = true)
    /\ (forall r, In r unknown_incomes_survey -> Raw.wants "True" r = true ->
                  isna (Raw.Income r) = false ->
                  (forall label,
                     dict_getitem_float income_code_to_text (Raw.Income r)
                     <> Ok label) ->
                  float_le x (Raw.Income r) = true).
Proof.
  apply (diabetic_salary_prep_least_unlabelled
           {[ 1%positive := unknown_incomes_survey ]} 1%positive
           unknown_incomes_survey "True"
           (fst (Raw.diabetic_salary_prep 1%positive "True"
                   {[ 1%positive := unknown_incomes_survey ]}))).
  - reflexivity.
  - vm_compute. reflexivity.
Defined.

(** ** The counts on float64 cells *)

Lemma sorts_before_lt x y :
  isna x = false -> isna y = false -> sorts_before x y = true ->
  float_le x y = true /\ float_eqb x y = false.
Proof. intros Hx Hy H. split; float_cases. Qed.

Lemma float_eqb_sym x y : float_eqb x y = float_eqb y x.
Proof.
  destruct x as [a| | |], y as [b| | |]; simpl; try reflexivity.
  destruct (Qeq_bool a b) eqn:E, (Qeq_bool b a) eqn:E'; try reflexivity;
    rational_facts.
Qed.

(** A selected row is tallied under a key of its partition exactly when
    its income cell is there and equals the key's. *)
Lemma raw_tallied_under diab_status r (k : float * bool) :
  Raw.wants diab_status r = true ->
  k.2 = String.eqb diab_status "True" ->
  isna k.1 = false ->
  negb (isna (Raw.Income r)) && Raw.key_eqb k (Raw.group_key r)
  = float_eqb (Raw.Income r) k.1.
Proof.
  intros Hw Hk Hna. unfold Raw.key_eqb, Raw.group_key. simpl.
  rewrite (raw_wants_has_diabetes _ _ Hw), Hk, Bool.eqb_reflx, andb_true_r.
  rewrite (same_group_float_eqb _ _ Hna), float_eqb_sym.
  destruct (Raw.Income r); reflexivity.
Qed.

Lemma raw_occurrences_selected diab_status rows (k : float * bool) :
  k.2 = String.eqb diab_status "True" ->
  isna k.1 = false ->
  occurrences_by Raw.key_eqb k
    (List.filter (fun k : float * bool => negb (isna k.1))
       (map Raw.group_key (List.filter (Raw.wants diab_status) rows)))
  = Z.of_nat (length (List.filter
                        (fun r => Raw.wants diab_status r
                                  && float_eqb (Raw.Income r) k.1) rows)).
Proof.
  intros Hk Hna. unfold occurrences_by. f_equal.
  induction rows as [|r rows IH]; [reflexivity|].
  simpl. destruct (Raw.wants diab_status r) eqn:Hw; [|exact IH].
  simpl. rewrite <- (raw_tallied_under diab_status r k Hw Hk Hna).
  destruct (isna (Raw.Income r)); simpl; [exact IH|].
  destruct (Raw.key_eqb k (Raw.group_key r)); simpl; [f_equal|]; exact IH.
Qed.

(** The rows of the grouped table of a partition. *)
Lemma raw_grouped_partition diab_status rows g :
  In g (Raw.groupby_size
          (map Raw.group_key (List.filter (Raw.wants diab_status) rows))) ->
  isna g.1.1 = false
  /\ g.1.2 = String.eqb diab_status "True"
  /\ g.2 = Z.of_nat (length (List.filter
                               (fun r => Raw.wants diab_status r
                                         && float_eqb (Raw.Income r) g.1.1) rows))
  /\ 1 <= g.2.
Proof.
  intros Hg. pose proof (raw_groupby_sound _ _ Hg) as [Hk Hna].
  assert (Hb : g.1.2 = String.eqb diab_status "True").
  { apply in_map_iff in Hk as (r & Hkey & Hr).
    apply filter_In in Hr as [_ Hw]. rewrite <- Hkey. simpl.
    exact (raw_wants_has_diabetes _ _ Hw). }
  assert (Hn : g.2 = occurrences_by Raw.key_eqb g.1
                       (List.filter (fun k : float * bool => negb (isna k.1))
                          (map Raw.group_key
                             (List.filter (Raw.wants diab_status) rows)))).
  { destruct g as [k n]. exact (raw_groupby_count _ _ _ Hg). }
  split; [exact Hna|]. split; [exact Hb|]. split.
  - rewrite Hn. apply raw_occurrences_selected; assumption.
  - rewrite Hn.
    apply (occurrences_by_positive Raw.key_eqb g.1 _ g.1); [|apply key_eqb_refl].
    apply filter_In. split; [exact Hk | rewrite Hna; reflexivity].
Qed.

(** In one partition the grouped table is in increasing order of the
    incomes alone. *)
Lemma raw_ascending_incomes (b : bool) (G : list (float * bool * Z)) :
  ascending_by Raw.key_ltb G ->
  Forall (fun g : float * bool * Z => g.1.2 = b) G ->
  StronglySorted (fun g g' : float * bool * Z =>
                    sorts_before g.1.1 g'.1.1 = true) G.
Proof.
  unfold ascending_by. induction 1 as [|g G Hsorted IH Hall]; intros Hb.
  - constructor.
  - inversion Hb as [|? ? Hg HG]; subst. constructor; [apply IH, HG|].
    rewrite Forall_forall in Hall, HG |- *. intros g' Hg'.
    specialize (Hall _ Hg'). specialize (HG _ Hg'). simpl in Hall, HG.
    apply key_ltb_parts in Hall as [Hlt|(_ & H1 & H2)]; [exact Hlt | congruence].
Qed.

Lemma StronglySorted_Forall2 {A B : Type} (R : A -> A -> Prop) (S : B -> B -> Prop)
    (P : A -> B -> Prop) (P0 : A -> Prop) l l' :
  (forall a b a' b', P0 a -> P0 a' -> P a b -> P a' b' -> R a a' -> S b b') ->
  Forall P0 l -> Forall2 P l l' -> StronglySorted R l -> StronglySorted S l'.
Proof.
  intros HRS H0 H. induction H as [|a b l l' Hab Hll IH]; intros Hs.
  - constructor.
  - inversion Hs as [|? ? Hs' Hall]; subst.
    inversion H0 as [|? ? Ha Hl]; subst.
    constructor; [apply IH; assumption|].
    clear IH Hs Hs' H0. induction Hll as [|a' b' l l' Hab' _ IH]; [constructor|].
    inversion Hall as [|? ? HR Hall']; subst.
    inversion Hl as [|? ? Ha' Hl']; subst.
    constructor; [exact (HRS _ _ _ _ Ha Ha' Hab Hab' HR)|].
    apply IH; assumption.
Qed.

(** The rows of the recoded counts of a partition. *)
Lemma raw_counts_rows diab_status rows counts :
  Raw.recode (Raw.groupby_size
                (map Raw.group_key (List.filter (Raw.wants diab_status) rows)))
  = Ok counts ->
  StronglySorted (fun c c' =>
                    float_le (Raw.Counts.Income c) (Raw.Counts.Income c') = true
                    /\ float_eqb (Raw.Counts.Income c) (Raw.Counts.Income c')
                       = false) counts
  /\ Forall (fun c =>
               isna (Raw.Counts.Income c) = false
               /\ Raw.Counts.Has_Diabetes c = String.eqb diab_status "True"
               /\ Raw.Counts.Number_of_Individuals c
                  = Z.of_nat (length (List.filter
                                        (fun r => Raw.wants diab_status r
                                                  && float_eqb (Raw.Income r)
                                                       (Raw.Counts.Income c))
                                        rows))
               /\ 1 <= Raw.Counts.Number_of_Individuals c) counts
  /\ (forall r, In r rows -> Raw.wants diab_status r = true ->
                isna (Raw.Income r) = false ->
                exists c, In c counts
                          /\ float_eqb (Raw.Income r) (Raw.Counts.Income c) = true).
Proof.
  intros Hrec.
  pose proof (raw_recode_fields _ _ Hrec) as Hfields.
  set (G := Raw.groupby_size
              (map Raw.group_key (List.filter (Raw.wants diab_status) rows))) in *.
  assert (HG : Forall (fun g : float * bool * Z =>
                         isna g.1.1 = false
                         /\ g.1.2 = String.eqb diab_status "True"
                         /\ g.2 = Z.of_nat
                                    (length (List.filter
                                               (fun r => Raw.wants diab_status r
                                                         && float_eqb (Raw.Income r)
                                                              g.1.1) rows))
                         /\ 1 <= g.2) G).
  { apply Forall_forall. intros g Hg.
    apply raw_grouped_partition, list_elem_of_In, Hg. }
  split; [|split].
  - refine (StronglySorted_Forall2 _ _ _
              (fun g : float * bool * Z => isna g.1.1 = false) G counts _ _
              Hfields
              (raw_ascending_incomes (String.eqb diab_status "True") G
                 (raw_groupby_ascending _) _)).
    + intros g c g' c' Hna Hna' (-> & _) (-> & _) Hlt.
      exact (sorts_before_lt _ _ Hna Hna' Hlt).
    + apply (Forall_impl _ _ _ HG). tauto.
    + apply (Forall_impl _ _ _ HG). tauto.
  - clearbody G. clear -HG Hfields.
    induction Hfields as [|g c G counts (Hi & Hb & Hn & _) _ IH]; [constructor|].
    inversion HG as [|g0 l0 (Hna & Hgb & Hgn & Hg1) HG']; subst.
    constructor; [|apply IH, HG'].
    rewrite Hi, Hb, Hn. auto.
  - intros r Hin Hw Hna.
    destruct (proj2 (raw_grouped_incomes diab_status rows (Raw.Income r)))
      as (g & Hg & Hsame & _).
    { exists r. split; [exact Hin|]. split; [exact Hw|]. split; [exact Hna|].
      apply same_group_refl. }
    fold G in Hg. rewrite (same_group_float_eqb _ _ Hna) in Hsame.
    clearbody G. clear -Hfields Hg Hsame.
    induction Hfields as [|g0 c G counts (Hi & _) _ IH]; [destruct Hg|].
    destruct Hg as [->|Hg].
    + exists c. split; [left; reflexivity | rewrite Hi; exact Hsame].
    + destruct (IH Hg) as (c' & Hc' & Hsame'). exists c'.
      split; [right; exact Hc' | exact Hsame'].
Qed.

(** X5. The counts [diabetic_salary_prep] returns, read row by row: the
    incomes are numbers, none missing, in strictly increasing order (so
    each income has one row); every row carries the selected status; its
    count is the number of rows of the table with that status whose
    income cell equals the row's (a missing cell equals none, so a row
    without an income is counted nowhere), and no count is zero; every
    selected row whose income cell is there finds its income in a row. *)
Theorem counts_per_present_income σ df rows diab_status σ' counts :
  σ !! df = Some rows ->
  Raw.diabetic_salary_prep df diab_status σ = (σ', Ok counts) ->
  StronglySorted (fun c c' =>
                    float_le (Raw.Counts.Income c) (Raw.Counts.Income c') = true
                    /\ float_eqb (Raw.Counts.Income c) (Raw.Counts.Income c')
                       = false) counts
  /\ Forall (fun c =>
               isna (Raw.Counts.Income c) = false
               /\ Raw.Counts.Has_Diabetes c = String.eqb diab_status "True"
               /\ Raw.Counts.Number_of_Individuals c
                  = Z.of_nat (length (List.filter
                                        (fun r => Raw.wants diab_status r
                                                  && float_eqb (Raw.Income r)
                                                       (Raw.Counts.Income c))
                                        rows))
               /\ 1 <= Raw.Counts.Number_of_Individuals c) counts
  /\ (forall r, In r rows -> Raw.wants diab_status r = true ->
                isna (Raw.Income r) = false ->
                exists c, In c counts
                          /\ float_eqb (Raw.Income r) (Raw.Counts.Income c) = true).
Proof.
  intros H Hrun.
  destruct (raw_diabetic_salary_prep_run σ df rows diab_status H)
    as (σ'' & Hrun' & _).
  rewrite Hrun in Hrun'. injection Hrun' as _ Hrec. symmetry in Hrec.
  exact (raw_counts_rows diab_status rows counts Hrec).
Qed.

Lemma counts_per_present_income_sample :
  Forall (fun c =>
            isna (Raw.Counts.Income c) = false
            /\ Raw.Counts.Has_Diabetes c = String.eqb "True" "True"
            /\ Raw.Counts.Number_of_Individuals c
               = Z.of_nat (length (List.filter
                                     (fun r => Raw.wants "True" r
                                               && float_eqb (Raw.Income r)
                                                    (Raw.Counts.Income c))
                                     missing_income_survey))
            /\ 1 <= Raw.Counts.Number_of_Individuals c)
    [ {| Raw.Counts.Income := Finite 3;
         Raw.Counts.Has_Diabetes := true;
         Raw.Counts.Number_of_Individuals := 1;
         Raw.Counts.Income_Bracket := "$15,000 - $20,000" |} ].
Proof.
  apply (counts_per_present_income
           {[ 1%positive := missing_income_survey ]} 1%positive
           missing_income_survey "True"
           (fst (Raw.diabetic_salary_prep 1%positive "True"
                   {[ 1%positive := missing_income_survey ]}))).
  - reflexivity.
  - vm_compute. reflexivity.
Defined.

(** ** The bars on float64 cells *)

(** Two floats with the same income label are equal. *)
Lemma income_label_same x y label :
  dict_getitem_float income_code_to_text x = Ok label ->
  dict_getitem_float income_code_to_text y = Ok label ->
  float_eqb x y = true.
Proof.
  rewrite !dict_getitem_float_Ok.
  intros (q & k & -> & Hq & Hk) (q' & k' & -> & Hq' & Hk').
  rewrite (income_labels_inj _ _ _ Hk Hk') in Hq. simpl.
  apply Qeq_bool_iff. rewrite Hq, Hq'. reflexivity.
Qed.

Lemma raw_filtered_diabetes_run σ df rows diab_status σ' bars :
  σ !! df = Some rows ->
  Raw.filtered_diabetes df diab_status σ = (σ', Ok bars) ->
  exists counts,
    Raw.recode (Raw.groupby_size
                  (map Raw.group_key (List.filter (Raw.wants diab_status) rows)))
    = Ok counts
    /\ bars = map (fun c => (Raw.Counts.Income_Bracket c,
                             Raw.Counts.Number_of_Individuals c)) counts.
Proof.
  intros H Hrun. unfold Raw.filtered_diabetes, bind in Hrun.
  destruct (raw_diabetic_salary_prep_run σ df rows diab_status H)
    as (σ1 & Hs & _).
  rewrite Hs in Hrun.
  destruct (Raw.recode _) as [counts|e]; [|discriminate].
  injection Hrun as _ <-. exists counts. split; reflexivity.
Qed.

Lemma raw_recode_total G counts :
  Raw.recode G = Ok counts ->
  fold_right Z.add 0 (map Raw.Counts.Number_of_Individuals counts) = sum_by G.
Proof.
  intros H. apply raw_recode_fields in H. unfold sum_by.
  induction H as [|g c G counts (_ & _ & Hn & _) _ IH]; [reflexivity|].
  simpl. rewrite Hn, IH. reflexivity.
Qed.

Lemma raw_present_selected diab_status rows :
  length (List.filter (fun k : float * bool => negb (isna k.1))
            (map Raw.group_key (List.filter (Raw.wants diab_status) rows)))
  = length (List.filter
              (fun r => Raw.wants diab_status r && negb (isna (Raw.Income r)))
              rows).
Proof.
  induction rows as [|r rows IH]; [reflexivity|].
  simpl. destruct (Raw.wants diab_status r); [|exact IH].
  simpl. destruct (isna (Raw.Income r)); simpl; [|f_equal]; exact IH.
Qed.

Lemma raw_label_not_later (g : float * bool * Z) label G counts :
  Forall2 (fun g c => Raw.Counts.Income c = g.1.1
                      /\ Raw.Counts.Has_Diabetes c = g.1.2
                      /\ Raw.Counts.Number_of_Individuals c = g.2
                      /\ dict_getitem_float income_code_to_text g.1.1
                         = Ok (Raw.Counts.Income_Bracket c))
    G counts ->
  dict_getitem_float income_code_to_text g.1.1 = Ok label ->
  isna g.1.1 = false ->
  Forall (fun g' : float * bool * Z => sorts_before g.1.1 g'.1.1 = true) G ->
  Forall (fun g' : float * bool * Z => isna g'.1.1 = false) G ->
  ~ In label (map Raw.Counts.Income_Bracket counts).
Proof.
  intros Hfields Hl Hg.
  induction Hfields as [|g' c' G counts (_ & _ & _ & Hl') _ IH];
    intros Hall HG Hin; [destruct Hin|].
  inversion Hall as [|? ? Hlt Hall']; subst.
  inversion HG as [|? ? Hg' HG']; subst.
  destruct Hin as [E|Hin]; [|exact (IH Hall' HG' Hin)].
  rewrite E in Hl'.
  pose proof (income_label_same _ _ _ Hl Hl') as Hsame.
  destruct (sorts_before_lt _ _ Hg Hg' Hlt) as [_ Hne].
  congruence.
Qed.

Lemma raw_labels_NoDup G counts :
  Raw.recode G = Ok counts ->
  StronglySorted (fun g g' : float * bool * Z =>
                    sorts_before g.1.1 g'.1.1 = true) G ->
  Forall (fun g : float * bool * Z => isna g.1.1 = false) G ->
  NoDup (map Raw.Counts.Income_Bracket counts).
Proof.
  intros H. apply raw_recode_fields in H.
  induction H as [|g c G counts (_ & _ & _ & Hl) Hrest IH]; intros Hs Hna.
  - constructor.
  - inversion Hs as [|? ? Hs' Hall]; subst.
    inversion Hna as [|? ? Hg HG]; subst.
    simpl. constructor; [|apply IH; assumption].
    rewrite list_elem_of_In.
    exact (raw_label_not_later g _ G counts Hrest Hl Hg Hall HG).
Qed.

(** X7. The table the bar chart is given (line 145): no label occurs
    twice, no bar has height zero, and the heights add up to the number of
    rows of the selected partition whose income cell is there. *)
Theorem bar_chart_heights σ df rows diab_status σ' bars :
  σ !! df = Some rows ->
  Raw.filtered_diabetes df diab_status σ = (σ', Ok bars) ->
  NoDup (map fst bars)
  /\ Forall (fun bar : string * Z => 1 <= bar.2) bars
  /\ fold_right Z.add 0 (map snd bars)
     = Z.of_nat (length (List.filter
                           (fun r => Raw.wants diab_status r
                                     && negb (isna (Raw.Income r))) rows)).
Proof.
  intros H Hrun.
  destruct (raw_filtered_diabetes_run _ _ _ _ _ _ H Hrun) as (counts & Hrec & ->).
  rewrite !map_map. simpl.
  assert (HG : Forall (fun g : float * bool * Z =>
                         isna g.1.1 = false
                         /\ g.1.2 = String.eqb diab_status "True"
                         /\ 1 <= g.2)
                 (Raw.groupby_size
                    (map Raw.group_key
                       (List.filter (Raw.wants diab_status) rows)))).
  { apply Forall_forall. intros g Hg. apply list_elem_of_In in Hg.
    destruct (raw_grouped_partition diab_status rows g Hg) as (? & ? & _ & ?).
    auto. }
  split; [|split].
  - apply (raw_labels_NoDup _ _ Hrec).
    + apply (raw_ascending_incomes (String.eqb diab_status "True"));
        [apply raw_groupby_ascending|].
      apply (Forall_impl _ _ _ HG). tauto.
    + apply (Forall_impl _ _ _ HG). tauto.
  - apply Forall_map. simpl.
    pose proof (raw_recode_fields _ _ Hrec) as Hfields.
    clear -HG Hfields.
    induction Hfields as [|g c G counts (_ & _ & Hn & _) _ IH]; [constructor|].
    inversion HG as [|? ? (_ & _ & Hg) HG']; subst.
    constructor; [rewrite Hn; exact Hg | apply IH, HG'].
  - etransitivity; [exact (raw_recode_total _ _ Hrec)|].
    rewrite raw_groupby_total, raw_present_selected. reflexivity.
Qed.

Lemma bar_chart_heights_sample :
  NoDup (map fst [("$15,000 - $20,000", 1)])
  /\ Forall (fun bar : string * Z => 1 <= bar.2) [("$15,000 - $20,000", 1)]
  /\ fold_right Z.add 0 (map snd [("$15,000 - $20,000", 1)])
     = Z.of_nat (length (List.filter
                           (fun r => Raw.wants "True" r
                                     && negb (isna (Raw.Income r)))
                           missing_income_survey)).
Proof.
  apply (bar_chart_heights
           {[ 1%positive := missing_income_survey ]} 1%positive
           missing_income_survey "True"
           (fst (Raw.filtered_diabetes 1%positive "True"
                   {[ 1%positive := missing_income_survey ]}))).
  - reflexivity.
  - vm_compute. reflexivity.
Defined.

(** ** What the preparations write into the table they are given *)

Lemma raw_column_read_back c (f : Raw.SurveyRecord -> value) rows :
  Forall (fun r => Raw.cols r !! c = Some (f r)) rows ->
  Series_apply (Raw.cell c) rows = Ok (map f rows).
Proof.
  induction 1 as [|r rows Hr _ IH]; simpl; [reflexivity|].
  unfold Raw.cell at 1. rewrite Hr, IH. reflexivity.
Qed.

Lemma raw_diabetic_bmi_prep_run σ df rows :
  σ !! df = Some rows ->
  Raw.diabetic_bmi_prep df σ = (<[df := map Raw.bmi_row rows]> σ, Ok df).
Proof.
  intros H. unfold Raw.diabetic_bmi_prep.
  rewrite (bind_Ok _ _ _ _ _ (column_run Raw.Diabetes_binary _ _ _ H)).
  set (rows1 := map Raw.with_bin rows).
  assert (Hset : Raw.setitem df "Has Diabetes Bin"
                   (map VBool (Raw.astype_bool (map Raw.Diabetes_binary rows))) σ
                 = (<[df := rows1]> σ, Ok tt)).
  { rewrite (raw_setitem_run _ _ _ _ _ H)
      by (unfold Raw.astype_bool; rewrite !length_map; reflexivity).
    unfold Raw.astype_bool. rewrite !map_map.
    rewrite (zip_with_map_self (Raw.set_col "Has Diabetes Bin")). reflexivity. }
  rewrite (bind_Ok _ _ _ _ _ Hset).
  set (σ1 := <[df := rows1]> σ).
  assert (H1 : σ1 !! df = Some rows1) by apply lookup_insert_eq.
  assert (Hread : Series_apply (Raw.cell "Has Diabetes Bin") rows1
                  = Ok (map (fun r => VBool (Raw.has_diabetes r)) rows1)).
  { apply raw_column_read_back. unfold rows1. clear.
    induction rows as [|r rows IH]; simpl; constructor;
      [apply lookup_insert_eq | exact IH]. }
  rewrite (bind_Ok _ _ _ _ _ (eq_trans (raw_getitem_run _ _ _ _ H1)
                                  (f_equal (pair σ1) Hread))).
  unfold bind at 1, lift. rewrite Series_apply_total.
  erewrite bind_Ok
    by (apply (raw_setitem_run _ _ _ _ _ H1); rewrite !length_map; reflexivity).
  unfold ret, σ1. rewrite insert_insert_eq. f_equal. f_equal.
  rewrite !map_map.
  rewrite (zip_with_map_self (Raw.set_col "Diabetic Status")).
  unfold rows1. rewrite map_map. reflexivity.
Qed.

Lemma raw_differ_only_in_refl names r : Raw.differ_only_in names r r.
Proof. repeat split. Qed.

Lemma raw_differ_only_in_set_col names c v r r' :
  In c names -> Raw.differ_only_in names r r' ->
  Raw.differ_only_in names r (Raw.set_col c v r').
Proof.
  intros Hc [Hsame Hcols]. split; [exact Hsame|].
  intros c' Hc'. simpl. rewrite lookup_insert_ne by congruence.
  apply Hcols, Hc'.
Qed.

Lemma raw_with_has_diabetes_differ r :
  Raw.differ_only_in ["Has Diabetes"] r (Raw.with_has_diabetes r).
Proof.
  apply raw_differ_only_in_set_col;
    [left; reflexivity | apply raw_differ_only_in_refl].
Qed.

Lemma raw_bmi_row_differ r :
  Raw.differ_only_in ["Has Diabetes Bin"; "Diabetic Status"] r (Raw.bmi_row r).
Proof.
  unfold Raw.bmi_row, Raw.with_status, Raw.with_bin.
  apply raw_differ_only_in_set_col; [right; left; reflexivity|].
  apply raw_differ_only_in_set_col; [left; reflexivity|].
  apply raw_differ_only_in_refl.
Qed.

Lemma raw_gen_health_row_differ r :
  Raw.differ_only_in
    ["Has Diabetes"; "General_Health_Assessment"; "has_diabetes_human_readable"]
    r (Raw.gen_health_row r).
Proof.
  unfold Raw.gen_health_row, Raw.with_readable, Raw.with_assessment,
    Raw.with_has_diabetes.
  apply raw_differ_only_in_set_col; [right; right; left; reflexivity|].
  apply raw_differ_only_in_set_col; [right; left; reflexivity|].
  apply raw_differ_only_in_set_col; [left; reflexivity|].
  apply raw_differ_only_in_refl.
Qed.

Lemma raw_bmi_row_columns r :
  Raw.cols (Raw.bmi_row r) !! "Has Diabetes Bin"
  = Some (VBool (Raw.has_diabetes r))
  /\ Raw.cols (Raw.bmi_row r) !! "Diabetic Status"
     = Some (VStr (if Raw.has_diabetes r then "Diabetic" else "Non-Diabetic")).
Proof.
  unfold Raw.bmi_row, Raw.with_status, Raw.with_bin. simpl. split.
  - rewrite lookup_insert_ne by discriminate. apply lookup_insert_eq.
  - apply lookup_insert_eq.
Qed.

Lemma raw_gen_health_row_readable r :
  Raw.cols (Raw.gen_health_row r) !! "has_diabetes_human_readable"
  = Some (VStr (if float_eqb (Raw.Diabetes_binary r) (of_int 1)
                then "Diabetic" else "Non-Diabetic")).
Proof.
  unfold Raw.gen_health_row, Raw.with_readable. simpl. apply lookup_insert_eq.
Qed.

Lemma assessments_all_Ok xs ys :
  Series_apply Raw.assessment xs = Ok ys ->
  Forall (fun x => exists label, Raw.assessment x = Ok label) xs.
Proof.
  intros H. apply Series_apply_Ok in H.
  induction H as [|x y xs ys Hxy _ IH]; constructor; [eauto | exact IH].
Qed.

(** The general-health columns of the rows [gen_health_prep] leaves. *)
Lemma raw_gen_health_rows_written rows :
  Forall (fun r => exists label, Raw.assessment (Raw.GenHlth r) = Ok label) rows ->
  Forall (fun r =>
            (exists q label,
               Raw.GenHlth r = Finite q
               /\ gen_hlth_mapping !! truncate q = Some label
               /\ Raw.cols r !! "General_Health_Assessment" = Some (VStr label))
            /\ Raw.cols r !! "has_diabetes_human_readable"
               = Some (VStr (if float_eqb (Raw.Diabetes_binary r) (of_int 1)
                             then "Diabetic" else "Non-Diabetic")))
    (map Raw.gen_health_row rows).
Proof.
  induction 1 as [|r rows [label Hl] _ IH]; simpl; constructor; [|exact IH].
  split; [|exact (raw_gen_health_row_readable r)].
  pose proof (raw_gen_health_row_assessment r label Hl) as Hcol.
  apply assessment_Ok in Hl as (q & Hq & Hk).
  exists q, label. split; [exact Hq|]. split; [exact Hk | exact Hcol].
Qed.

(** C7, as the code has it. None of the preparations changes a row's
    survey columns, the number of rows or their order, nor any other
    table that exists; but each writes its derived columns into the table
    it is given: [diabetic_bmi_prep] "Has Diabetes Bin" and
    "Diabetic Status" (and it returns that same table),
    [diabetic_salary_prep] "Has Diabetes", [gen_health_prep]
    "Has Diabetes" and, whenever it returns, also
    "General_Health_Assessment" (the label of the integer part of the
    general-health cell) and "has_diabetes_human_readable"; when
    [gen_health_prep] fails, "Has Diabetes" is the only column it has
    written. *)
Theorem preparations_frame σ df rows diab_status :
  σ !! df = Some rows ->
  (exists σ' table,
     Raw.diabetic_bmi_prep df σ = (σ', Ok df)
     /\ σ' !! df = Some table
     /\ Forall2 (Raw.differ_only_in ["Has Diabetes Bin"; "Diabetic Status"])
          rows table
     /\ Forall (fun r =>
                  Raw.cols r !! "Has Diabetes Bin"
                  = Some (VBool (Raw.has_diabetes r))
                  /\ Raw.cols r !! "Diabetic Status"
                     = Some (VStr (if Raw.has_diabetes r
                                   then "Diabetic" else "Non-Diabetic")))
          table
     /\ (forall l, l <> df -> σ' !! l = σ !! l))
  /\ (exists σ' result table,
        Raw.diabetic_salary_prep df diab_status σ = (σ', result)
        /\ σ' !! df = Some table
        /\ Forall2 (Raw.differ_only_in ["Has Diabetes"]) rows table
        /\ Forall Raw.flagged table
        /\ (forall l, l <> df -> is_Some (σ !! l) -> σ' !! l = σ !! l))
  /\ (exists σ' result table,
        Raw.gen_health_prep df diab_status σ = (σ', result)
        /\ σ' !! df = Some table
        /\ Forall Raw.flagged table
        /\ (forall l, l <> df -> is_Some (σ !! l) -> σ' !! l = σ !! l)
        /\ match result with
           | Ok out =>
               out <> df
               /\ Forall2 (Raw.differ_only_in
                             ["Has Diabetes"; "General_Health_Assessment";
                              "has_diabetes_human_readable"]) rows table
               /\ Forall (fun r =>
                            (exists q label,
                               Raw.GenHlth r = Finite q
                               /\ gen_hlth_mapping !! truncate q = Some label
                               /\ Raw.cols r !! "General_Health_Assessment"
                                  = Some (VStr label))
                            /\ Raw.cols r !! "has_diabetes_human_readable"
                               = Some (VStr (if float_eqb (Raw.Diabetes_binary r)
                                                  (of_int 1)
                                             then "Diabetic"
                                             else "Non-Diabetic")))
                    table
           | Raise e =>
               Forall2 (Raw.differ_only_in ["Has Diabetes"]) rows table
           end).
Proof.
  intros H. split; [|split].
  - eexists _, _. split; [apply (raw_diabetic_bmi_prep_run _ _ _ H)|].
    split; [apply lookup_insert_eq|]. split; [|split].
    + apply Forall2_map_self, raw_bmi_row_differ.
    + apply Forall_map, Forall_forall. intros r _. apply (raw_bmi_row_columns r).
    + intros l Hne. apply lookup_insert_ne. congruence.
  - destruct (raw_diabetic_salary_prep_run σ df rows diab_status H)
      as (σ' & Hrun & Hdf & Hold).
    eexists σ', _, _. split; [exact Hrun|]. split; [exact Hdf|].
    split; [|split].
    + apply Forall2_map_self, raw_with_has_diabetes_differ.
    + apply raw_Forall_flagged.
    + exact Hold.
  - pose proof (raw_gen_health_prep_run σ df rows diab_status H) as Hrun.
    destruct (Series_apply Raw.assessment (map Raw.GenHlth rows))
      as [labels|e] eqn:E.
    + destruct Hrun as (σ' & out & Hrun & _ & Hdf & Hnew & Hold).
      exists σ', (Ok out), (map Raw.gen_health_row rows).
      split; [exact Hrun|]. split; [exact Hdf|].
      split; [apply raw_flagged_gen_health_rows|]. split; [exact Hold|].
      split; [congruence|]. split.
      * apply Forall2_map_self, raw_gen_health_row_differ.
      * apply raw_gen_health_rows_written.
        apply assessments_all_Ok in E. rewrite Forall_map in E. exact E.
    + exists (<[df := map Raw.with_has_diabetes rows]> σ), (Raise e),
        (map Raw.with_has_diabetes rows).
      split; [exact Hrun|]. split; [apply lookup_insert_eq|].
      split; [apply raw_Forall_flagged|]. split.
      * intros l Hne _. apply lookup_insert_ne. congruence.
      * apply Forall2_map_self, raw_with_has_diabetes_differ.
Qed.

Lemma preparations_frame_sample :
  exists σ' result table,
    Raw.gen_health_prep 1%positive "True" {[ 1%positive := scenario_cells ]}
    = (σ', result)
    /\ σ' !! 1%positive = Some table
    /\ Forall Raw.flagged table
    /\ (forall l, l <> 1%positive ->
                  is_Some (({[ 1%positive := scenario_cells ]}
                            : gmap loc (list Raw.SurveyRecord)) !! l) ->
                  σ' !! l = ({[ 1%positive := scenario_cells ]}
                             : gmap loc (list Raw.SurveyRecord)) !! l)
    /\ match result with
       | Ok out =>
           out <> 1%positive
           /\ Forall2 (Raw.differ_only_in
                         ["Has Diabetes"; "General_Health_Assessment";
                          "has_diabetes_human_readable"]) scenario_cells table
           /\ Forall (fun r =>
                        (exists q label,
                           Raw.GenHlth r = Finite q
                           /\ gen_hlth_mapping !! truncate q = Some label
                           /\ Raw.cols r !! "General_Health_Assessment"
                              = Some (VStr label))
                        /\ Raw.cols r !! "has_diabetes_human_readable"
                           = Some (VStr (if float_eqb (Raw.Diabetes_binary r)
                                              (of_int 1)
                                         then "Diabetic"
                                         else "Non-Diabetic")))
                table
       | Raise e =>
           Forall2 (Raw.differ_only_in ["Has Diabetes"]) scenario_cells table
       end.
Proof.
  apply (preparations_frame {[ 1%positive := scenario_cells ]}
           1%positive scenario_cells "True").
  reflexivity.
Defined.

(** ** A status string other than "True" *)

Lemma raw_wants_other diab_status r :
  diab_status <> "True" ->
  Raw.wants diab_status r = float_eqb (Raw.Diabetes_binary r) (of_int 0).
Proof.
  intros Hne. apply String.eqb_neq in Hne. unfold Raw.wants, Raw.has_diabetes.
  rewrite Hne. apply negb_involutive.
Qed.

(** The recoding of a partition returns when the income cells of the
    partition that are there all have a label. *)
Lemma raw_recode_returns diab_status rows :
  (forall r, In r rows -> Raw.wants diab_status r = true ->
             isna (Raw.Income r) = false ->
             exists label,
               dict_getitem_float income_code_to_text (Raw.Income r) = Ok label) ->
  exists counts,
    Raw.recode (Raw.groupby_size
                  (map Raw.group_key (List.filter (Raw.wants diab_status) rows)))
    = Ok counts.
Proof.
  intros Hknown.
  destruct (Raw.recode _) as [counts|e] eqn:Hrec; [exists counts; reflexivity|].
  exfalso. apply raw_recode_Raise in Hrec as (g & Hg & Hraise & _).
  destruct (proj1 (raw_grouped_incomes diab_status rows g.1.1))
    as (r & Hin & Hw & Hna & Hsame).
  { exists g. split; [exact Hg|]. split; [apply same_group_refl|].
    apply (raw_groupby_sound _ _ Hg). }
  destruct (Hknown r Hin Hw Hna) as [label Hl].
  rewrite (dict_getitem_float_same _ _ _ _ (same_group_sym _ _ Hsame) Hl)
    in Hraise.
  discriminate.
Qed.

Lemma Forall2_map_selected {A B : Type} (P : A -> B -> Prop) (f : A -> B)
    (keep : A -> bool) (l : list A) :
  (forall x, keep x = true -> P x (f x)) ->
  Forall2 P (List.filter keep l) (map f (List.filter keep l)).
Proof.
  intros H. induction l as [|x l IH]; simpl; [constructor|].
  destruct (keep x) eqn:E; [|exact IH].
  simpl. constructor; [exact (H x E) | exact IH].
Qed.

(** C10 does not hold for every table: with a status other than "True" a
    cell without a label among the records without diabetes ends either
    function with an error, the one the status "False" gives, and no
    partition is returned. *)
Lemma other_status_fails :
  snd (Raw.diabetic_salary_prep 1%positive "true"
         {[ 1%positive := unlabelled_cells_survey ]})
  = Raise (KeyError (KFloat (Finite 98)))
  /\ snd (Raw.diabetic_salary_prep 1%positive "False"
            {[ 1%positive := unlabelled_cells_survey ]})
     = Raise (KeyError (KFloat (Finite 98)))
  /\ snd (Raw.gen_health_prep 1%positive "true"
            {[ 1%positive := unlabelled_cells_survey ]})
     = Raise (KeyError (KInt 6))
  /\ snd (Raw.gen_health_prep 1%positive "False"
            {[ 1%positive := unlabelled_cells_survey ]})
     = Raise (KeyError (KInt 6)).
Proof. repeat split; vm_compute; reflexivity. Qed.

(** C10, as the code has it. A status string other than "True" ("true",
    "FALSE", the empty string, anything else) makes
    [diabetic_salary_prep] and [gen_health_prep] do exactly what they do
    for "False", and that is to work on the records whose indicator cell
    equals 0: when the income cells of these records that are there all
    have a label, [diabetic_salary_prep] returns their counts, one row
    for each of their incomes, marked as without diabetes; when every
    general-health cell gets a label, [gen_health_prep] returns a new
    table with these records, in table order, and no others. *)
Theorem status_other_than_True diab_status df σ :
  diab_status <> "True" ->
  (Raw.diabetic_salary_prep df diab_status σ
   = Raw.diabetic_salary_prep df "False" σ
   /\ Raw.gen_health_prep df diab_status σ = Raw.gen_health_prep df "False" σ)
  /\ forall rows,
       σ !! df = Some rows ->
       ((forall r, In r rows ->
                   float_eqb (Raw.Diabetes_binary r) (of_int 0) = true ->
                   isna (Raw.Income r) = false ->
                   exists label,
                     dict_getitem_float income_code_to_text (Raw.Income r)
                     = Ok label) ->
        exists σ' counts,
          Raw.diabetic_salary_prep df diab_status σ = (σ', Ok counts)
          /\ Forall (fun c =>
                       Raw.Counts.Has_Diabetes c = false
                       /\ Raw.Counts.Number_of_Individuals c
                          = Z.of_nat
                              (length
                                 (List.filter
                                    (fun r =>
                                       float_eqb (Raw.Diabetes_binary r) (of_int 0)
                                       && float_eqb (Raw.Income r)
                                            (Raw.Counts.Income c)) rows))
                       /\ 1 <= Raw.Counts.Number_of_Individuals c) counts
          /\ (forall r, In r rows ->
                        float_eqb (Raw.Diabetes_binary r) (of_int 0) = true ->
                        isna (Raw.Income r) = false ->
                        exists c, In c counts
                                  /\ float_eqb (Raw.Income r) (Raw.Counts.Income c)
                                     = true))
       /\ ((forall r, In r rows ->
                      exists label, Raw.assessment (Raw.GenHlth r) = Ok label) ->
           exists σ' out result,
             Raw.gen_health_prep df diab_status σ = (σ', Ok out)
             /\ σ' !! out = Some result
             /\ σ !! out = None
             /\ Forall2 (fun r r' =>
                           Raw.same_survey_columns r r'
                           /\ Raw.cols r' !! "Has Diabetes" = Some (VBool false))
                  (List.filter
                     (fun r => float_eqb (Raw.Diabetes_binary r) (of_int 0)) rows)
                  result).
Proof.
  intros Hne. split.
  - pose proof (proj2 (String.eqb_neq _ _) Hne) as Hb.
    unfold Raw.diabetic_salary_prep, Raw.gen_health_prep,
      Raw.diabetes_applicable, Raw.applicable_qual_data.
    rewrite Hb. split; reflexivity.
  - intros rows H. split.
    + intros Hknown.
      destruct (raw_diabetic_salary_prep_run σ df rows diab_status H)
        as (σ' & Hrun & _).
      destruct (raw_recode_returns diab_status rows) as [counts Hrec].
      { intros r Hin Hw. rewrite (raw_wants_other _ r Hne) in Hw.
        exact (Hknown r Hin Hw). }
      rewrite Hrec in Hrun. exists σ', counts. split; [exact Hrun|].
      destruct (raw_counts_rows diab_status rows counts Hrec)
        as (_ & Hrows & Hall).
      split.
      * apply (Forall_impl _ _ _ Hrows). intros c (_ & Hb & Hn & H1).
        pose proof (proj2 (String.eqb_neq _ _) Hne) as Hs.
        rewrite Hs in Hb. split; [exact Hb|]. split; [|exact H1].
        rewrite Hn. do 2 f_equal. apply filter_ext. intros r.
        rewrite (raw_wants_other _ r Hne). reflexivity.
      * intros r Hin Hd. apply Hall; [exact Hin|].
        rewrite (raw_wants_other _ r Hne). exact Hd.
    + intros Hknown.
      pose proof (raw_gen_health_prep_run σ df rows diab_status H) as Hrun.
      destruct (Series_apply_all_Ok Raw.assessment (map Raw.GenHlth rows))
        as [ys E].
      { intros x Hx. apply in_map_iff in Hx as (r & <- & Hr). apply Hknown, Hr. }
      rewrite E in Hrun. destruct Hrun as (σ' & out & Hrun & Hout & _ & Hnew & _).
      rewrite raw_filter_gen_health_rows in Hout.
      rewrite (filter_ext _ _ (fun r => raw_wants_other diab_status r Hne))
        in Hout.
      eexists σ', out, _. split; [exact Hrun|]. split; [exact Hout|].
      split; [exact Hnew|].
      apply Forall2_map_selected. intros r Hd. split; [repeat split|].
      unfold Raw.gen_health_row, Raw.with_readable, Raw.with_assessment,
        Raw.with_has_diabetes. simpl.
      rewrite !lookup_insert_ne by discriminate. rewrite lookup_insert_eq.
      unfold Raw.has_diabetes. rewrite Hd. reflexivity.
Qed.

Lemma status_other_than_True_sample :
  (Raw.diabetic_salary_prep 1%positive "true" {[ 1%positive := scenario_cells ]}
   = Raw.diabetic_salary_prep 1%positive "False"
       {[ 1%positive := scenario_cells ]}
   /\ Raw.gen_health_prep 1%positive "true" {[ 1%positive := scenario_cells ]}
      = Raw.gen_health_prep 1%positive "False"
          {[ 1%positive := scenario_cells ]})
  /\ (exists σ' counts,
        Raw.diabetic_salary_prep 1%positive "true"
          {[ 1%positive := scenario_cells ]} = (σ', Ok counts)
        /\ map Raw.Counts.Has_Diabetes counts = [false]
        /\ map Raw.Counts.Number_of_Individuals counts = [1])
  /\ (exists σ' out result,
        Raw.gen_health_prep 1%positive "true"
          {[ 1%positive := scenario_cells ]} = (σ', Ok out)
        /\ σ' !! out = Some result
        /\ map Raw.BMI result = [of_int 24]).
Proof.
  destruct (status_other_than_True "true" 1%positive
              {[ 1%positive := scenario_cells ]}) as [Hsame Hrows].
  { apply String.eqb_neq. reflexivity. }
  split; [exact Hsame|].
  destruct (Hrows scenario_cells) as [Hsalary Hhealth]; [reflexivity|].
  split.
  - destruct Hsalary as (σ' & counts & Hrun & _).
    { intros r [<-|[<-|[<-|[<-|[]]]]] Hd _;
        first [discriminate Hd | eexists; vm_compute; reflexivity]. }
    exists σ', counts. split; [exact Hrun|].
    vm_compute in Hrun. injection Hrun as _ <-. split; reflexivity.
  - destruct Hhealth as (σ' & out & result & Hrun & Hout & _).
    { intros r [<-|[<-|[<-|[<-|[]]]]]; eexists; vm_compute; reflexivity. }
    exists σ', out, result. split; [exact Hrun|]. split; [exact Hout|].
    vm_compute in Hrun. injection Hrun as <- <-.
    vm_compute in Hout. injection Hout as <-. reflexivity.
Defined.

(** ** Whole-number cells *)

(** On a table whose indicator and codes are whole numbers the functions
    over float64 cells do what the functions over integer cells do. *)

Lemma float_eqb_of_int a b : float_eqb (of_int a) (of_int b) = (a =? b).
Proof.
  unfold of_int. simpl. destruct (Z.eqb_spec a b) as [->|Hne].
  - apply Qeq_bool_iff. reflexivity.
  - destruct (Qeq_bool (inject_Z a) (inject_Z b)) eqn:E; [|reflexivity].
    apply Qeq_bool_iff in E. apply (proj1 (inject_Z_injective a b)) in E.
    contradiction.
Qed.

Lemma sorts_before_of_int a b : sorts_before (of_int a) (of_int b) = (a <? b).
Proof.
  unfold of_int. simpl. destruct (Z.ltb_spec a b) as [Hlt|Hge].
  - apply negb_true_iff.
    destruct (Qle_bool (inject_Z b) (inject_Z a)) eqn:E; [|reflexivity].
    apply Qle_bool_iff in E. rewrite <- Zle_Qle in E. lia.
  - apply negb_false_iff, Qle_bool_iff. rewrite <- Zle_Qle. exact Hge.
Qed.

Lemma has_diabetes_of_survey r : Raw.has_diabetes (of_survey r) = has_diabetes r.
Proof.
  unfold Raw.has_diabetes, has_diabetes, of_survey. cbn [Raw.Diabetes_binary].
  rewrite float_eqb_of_int. reflexivity.
Qed.

Lemma wants_of_survey diab_status r :
  Raw.wants diab_status (of_survey r) = wants diab_status r.
Proof. unfold Raw.wants, wants. rewrite has_diabetes_of_survey. reflexivity. Qed.

Lemma filter_of_survey diab_status rows :
  List.filter (Raw.wants diab_status) (map of_survey rows)
  = map of_survey (List.filter (wants diab_status) rows).
Proof.
  induction rows as [|r rows IH]; simpl; [reflexivity|].
  rewrite wants_of_survey. destruct (wants diab_status r); simpl; rewrite IH;
    reflexivity.
Qed.

Lemma key_eqb_of_int (k k' : Z * bool) :
  Raw.key_eqb (of_int k.1, k.2) (of_int k'.1, k'.2) = key_eqb k k'.
Proof.
  unfold Raw.key_eqb, key_eqb. cbn [fst snd].
  replace (same_group (of_int k.1) (of_int k'.1))
    with (float_eqb (of_int k.1) (of_int k'.1)) by reflexivity.
  rewrite float_eqb_of_int. reflexivity.
Qed.

Lemma key_ltb_of_int (k k' : Z * bool) :
  Raw.key_ltb (of_int k.1, k.2) (of_int k'.1, k'.2) = key_ltb k k'.
Proof.
  unfold Raw.key_ltb, key_ltb. cbn [fst snd].
  rewrite sorts_before_of_int.
  replace (same_group (of_int k.1) (of_int k'.1))
    with (float_eqb (of_int k.1) (of_int k'.1)) by reflexivity.
  rewrite float_eqb_of_int. reflexivity.
Qed.

Lemma tally_of_group (k : Z * bool) acc :
  tally_by Raw.key_eqb Raw.key_ltb (of_int k.1, k.2) (map of_group acc)
  = map of_group (tally k acc).
Proof.
  induction acc as [|[k' n] acc IH]; simpl; [reflexivity|].
  change (of_group (k', n)).1 with (of_int k'.1, k'.2).
  rewrite key_eqb_of_int, key_ltb_of_int.
  destruct (key_eqb k k'); [reflexivity|].
  destruct (key_ltb k k'); [reflexivity|].
  change (of_group (k', n)).2 with n.
  rewrite IH. reflexivity.
Qed.

Lemma groupby_size_of_survey rows :
  Raw.groupby_size (map Raw.group_key (map of_survey rows))
  = map of_group (groupby_size (map group_key rows)).
Proof.
  unfold Raw.groupby_size, groupby_size.
  assert (Hkeys : List.filter (fun k : float * bool => negb (isna k.1))
                    (map Raw.group_key (map of_survey rows))
                  = map (fun k : Z * bool => (of_int k.1, k.2))
                      (map group_key rows)).
  { induction rows as [|r rows IH]; simpl; [reflexivity|].
    rewrite IH. unfold Raw.group_key at 1. rewrite has_diabetes_of_survey.
    reflexivity. }
  rewrite Hkeys. generalize (map group_key rows).
  change (@nil (float * bool * Z)) with (map of_group []).
  generalize (@nil (Z * bool * Z)).
  intros acc keys. revert acc.
  induction keys as [|k keys IH]; intros acc; simpl; [reflexivity|].
  rewrite tally_of_group. apply IH.
Qed.

Lemma whole_of_int k : whole (inject_Z k) = Some k.
Proof. apply whole_spec. reflexivity. Qed.

Lemma dict_getitem_float_of_int d k :
  dict_getitem_float d (of_int k)
  = match dict_getitem d k with
    | Ok label => Ok label
    | Raise e => Raise (float_key e)
    end.
Proof.
  unfold dict_getitem_float, dict_getitem, of_int. rewrite whole_of_int.
  destruct (d !! k); reflexivity.
Qed.

Lemma income_labels_of_int incomes :
  Series_apply (dict_getitem_float income_code_to_text) (map of_int incomes)
  = match Series_apply (dict_getitem income_code_to_text) incomes with
    | Ok labels => Ok labels
    | Raise e => Raise (float_key e)
    end.
Proof.
  induction incomes as [|k incomes IH]; [reflexivity|].
  cbn [map Series_apply]. rewrite dict_getitem_float_of_int, IH.
  destruct (dict_getitem income_code_to_text k); [|reflexivity].
  destruct (Series_apply (dict_getitem income_code_to_text) incomes);
    reflexivity.
Qed.

Lemma recode_of_group G :
  Raw.recode (map of_group G)
  = match recode G with
    | Ok counts => Ok (map of_counts counts)
    | Raise e => Raise (float_key e)
    end.
Proof.
  unfold Raw.recode, recode. rewrite map_map.
  change (map (fun x : Z * bool * Z => (of_group x).1.1) G)
    with (map (fun x : Z * bool * Z => of_int x.1.1) G).
  rewrite <- (map_map (fun g : Z * bool * Z => g.1.1) of_int).
  rewrite income_labels_of_int.
  destruct (Series_apply (dict_getitem income_code_to_text)
              (map (fun g : Z * bool * Z => g.1.1) G))
    as [labels|e]; [|reflexivity].
  f_equal. revert labels. induction G as [|g G IH]; intros labels; simpl;
    [reflexivity|].
  destruct labels as [|label labels]; simpl; [reflexivity|].
  rewrite IH. reflexivity.
Qed.

(** [diabetic_salary_prep] gives the same counts, or fails on the same
    income, on the two readings of a whole-number table. *)
Lemma whole_cells_salary σ τ df rows diab_status :
  σ !! df = Some rows ->
  τ !! df = Some (map of_survey rows) ->
  snd (Raw.diabetic_salary_prep df diab_status τ)
  = match snd (diabetic_salary_prep df diab_status σ) with
    | Ok counts => Ok (map of_counts counts)
    | Raise e => Raise (float_key e)
    end.
Proof.
  intros Hσ Hτ.
  destruct (diabetic_salary_prep_run σ df rows diab_status Hσ) as (σ' & -> & _).
  destruct (raw_diabetic_salary_prep_run τ df _ diab_status Hτ) as (τ' & -> & _).
  simpl. rewrite filter_of_survey, groupby_size_of_survey. apply recode_of_group.
Qed.

(** Line 81 finds the same label, or fails on the same key, for a
    whole-number cell. *)
Lemma whole_cells_assessment k :
  Raw.assessment (of_int k) = dict_getitem gen_hlth_mapping (int k).
Proof.
  unfold Raw.assessment, Raw.int, of_int, int, truncate. simpl.
  rewrite Z.quot_1_r. reflexivity.
Qed.
